(** * dcos-e2e: the DC/OS Docker cluster backend and its nodes

    A shallow embedding of [src/dcos_e2e/node.py] and
    [src/dcos_e2e/_dcos_docker.py].

    Python objects that are shared by reference (lists, dicts, [Node]
    instances) live in an explicit store; everything the code asks of the
    outside (the file system, the Docker daemon, the [make] child process,
    the clock) is answered by an oracle that sees the history of the calls
    made so far, and every such call is recorded in a trace. *)

From Stdlib Require Import ZArith List String Ascii Bool Lia Arith.
From Stdlib Require Import DecimalString DecimalZ.
Import ListNotations.

Set Implicit Arguments.

Open Scope string_scope.
Open Scope list_scope.

Infix "+:+" := String.append (at level 60, right associativity).

(** ** Strings *)

Module Str.

(** [needle in hay] on Python [str]. *)
Fixpoint contains (needle hay : string) : bool :=
  if String.prefix needle hay then true
  else match hay with
       | EmptyString => false
       | String _ rest => contains needle rest
       end.

(** [sep.join(parts)]. *)
Fixpoint join (sep : string) (parts : list string) : string :=
  match parts with
  | [] => EmptyString
  | [p] => p
  | p :: rest => p +:+ sep +:+ join sep rest
  end.

(** [s.split(c)] for a one-character separator: the pieces between the
    occurrences of [c], empty pieces included. *)
Fixpoint split (c : ascii) (s : string) : list string :=
  match s with
  | EmptyString => [EmptyString]
  | String a rest =>
      if Ascii.eqb a c then EmptyString :: split c rest
      else match split c rest with
           | [] => [String a EmptyString]
           | p :: ps => String a p :: ps
           end
  end.

(** [s.lstrip(c)]. *)
Fixpoint lstrip (c : ascii) (s : string) : string :=
  match s with
  | String a rest => if Ascii.eqb a c then lstrip c rest else s
  | EmptyString => EmptyString
  end.

(** [str(n)] and [int(s)] on integers, in decimal. [of_int] reads the
    strings [to_int] writes (an optional minus sign and digits), which are
    the only ones the backend ever converts back. *)
Definition of_Z (n : Z) : string := NilZero.string_of_int (Z.to_int n).

Definition to_Z (s : string) : option Z :=
  option_map Z.of_int (NilZero.int_of_string s).

End Str.

(** ** Paths: [pathlib.PurePosixPath] *)

Module Pathlib.

(** A parsed path: its root (empty, one slash or two) and its names. *)
Record Path := mkPath { root : string; names : list string }.

(** [splitroot] of the POSIX flavour: exactly two leading slashes are kept
    as a root of their own, any other number collapses to one. *)
Definition splitroot (part : string) : string * string :=
  match part with
  | String "/"%char _ =>
      let stripped := Str.lstrip "/"%char part in
      if Nat.eqb (String.length part - String.length stripped) 2
      then ("//", stripped) else ("/", stripped)
  | _ => (EmptyString, part)
  end.

Definition keep_name (x : string) : bool :=
  negb (String.eqb x EmptyString) && negb (String.eqb x ".").

(** [Path(s)]. *)
Definition of_string (s : string) : Path :=
  let (r, rel) := splitroot s in
  mkPath r (filter keep_name (Str.split "/"%char rel)).

(** [p / q]: an anchored right operand replaces the left one. *)
Definition joinpath (p q : Path) : Path :=
  if String.eqb (root q) EmptyString
  then mkPath (root p) (names p ++ names q)
  else q.

(** [p / 'name'] with a string on the right. *)
Definition div (p : Path) (s : string) : Path := joinpath p (of_string s).

(** [str(p)]. *)
Definition to_string (p : Path) : string :=
  match root p, names p with
  | EmptyString, [] => "."
  | r, ns => r +:+ Str.join "/" ns
  end.

(** The list pathlib compares in [relative_to]: the (empty) drive and the
    root, when the path has a root, followed by the names. *)
Definition abs_parts (p : Path) : list string :=
  if String.eqb (root p) EmptyString then names p
  else EmptyString :: root p :: names p.

Fixpoint parts_eqb (l1 l2 : list string) : bool :=
  match l1, l2 with
  | [], [] => true
  | a :: l1', b :: l2' => String.eqb a b && parts_eqb l1' l2'
  | _, _ => false
  end.

(** [p.relative_to(other)]: [None] stands for the [ValueError] pathlib
    raises when [p] does not start with [other]. *)
Definition relative_to (p other : Path) : option Path :=
  let abs := abs_parts p in
  let to_abs := abs_parts other in
  let n := List.length to_abs in
  if (if Nat.eqb n 0 then negb (String.eqb (root p) EmptyString)
      else negb (parts_eqb (firstn n abs) to_abs))
  then None
  else Some (mkPath (if Nat.eqb n 1 then root p else EmptyString)
                    (skipn n abs)).

End Pathlib.

Export Pathlib(Path, mkPath).

(** ** Python values the backend prints or converts *)

Module Py.

(** What a finished child process carries as [stdout] or [stderr]:
    [None] when the stream was not captured, [bytes] otherwise (as the
    tests of the repository compare them), or already decoded text. *)
Inductive value :=
| VNone
| VBytes (b : string)
| VStr (s : string).

Definition dquote : ascii := ascii_of_nat 34.
Definition squote : ascii := ascii_of_nat 39.
Definition backslash : ascii := ascii_of_nat 92.

Fixpoint has_char (c : ascii) (s : string) : bool :=
  match s with
  | EmptyString => false
  | String a rest => Ascii.eqb a c || has_char c rest
  end.

Definition hex_digit (n : nat) : ascii :=
  match n with
  | 0 => "0" | 1 => "1" | 2 => "2" | 3 => "3" | 4 => "4" | 5 => "5"
  | 6 => "6" | 7 => "7" | 8 => "8" | 9 => "9" | 10 => "a" | 11 => "b"
  | 12 => "c" | 13 => "d" | 14 => "e" | _ => "f"
  end%char.

(** One byte of [repr(bytes)], inside the quote [q]. *)
Definition repr_byte (q c : ascii) : string :=
  let n := nat_of_ascii c in
  if Ascii.eqb c q || Ascii.eqb c backslash then String backslash (String c EmptyString)
  else if Nat.eqb n 9 then String backslash "t"
  else if Nat.eqb n 10 then String backslash "n"
  else if Nat.eqb n 13 then String backslash "r"
  else if Nat.ltb n 32 || Nat.leb 127 n
       then String backslash
              (String "x" (String (hex_digit (n / 16))
                             (String (hex_digit (n mod 16)) EmptyString)))
  else String c EmptyString.

Fixpoint repr_body (q : ascii) (b : string) : string :=
  match b with
  | EmptyString => EmptyString
  | String c rest => repr_byte q c +:+ repr_body q rest
  end.

(** [repr(b)] for [bytes]: single quotes, unless the bytes hold a single
    quote and no double quote. *)
Definition repr_bytes (b : string) : string :=
  let q := if has_char squote b && negb (has_char dquote b)
           then dquote else squote in
  String "b" (String q (repr_body q b +:+ String q EmptyString)).

(** [str(v)]. *)
Definition str (v : value) : string :=
  match v with
  | VNone => "None"
  | VBytes b => repr_bytes b
  | VStr s => s
  end.

(** A [dict] keeps its items in insertion order and its keys unique. *)
Section Dict.
Variables (K V : Type) (eqb : K -> K -> bool).

Definition dict := list (K * V).

Fixpoint dict_get (k : K) (d : dict) : option V :=
  match d with
  | [] => None
  | (k', v) :: rest => if eqb k k' then Some v else dict_get k rest
  end.

(** [d[k] = v]: an existing key keeps its place, a new one goes last. *)
Fixpoint dict_set (k : K) (v : V) (d : dict) : dict :=
  match d with
  | [] => [(k, v)]
  | (k', v') :: rest =>
      if eqb k k' then (k', v) :: rest else (k', v') :: dict_set k v rest
  end.
End Dict.

End Py.

(** ** IPv4 addresses: [ipaddress.IPv4Address] *)

Module IP.

Record IPv4 := mkIPv4 { o1 : N; o2 : N; o3 : N; o4 : N }.

Definition is_digit (c : ascii) : bool :=
  let n := nat_of_ascii c in Nat.leb 48 n && Nat.leb n 57.

Fixpoint all_digits (s : string) : bool :=
  match s with
  | EmptyString => true
  | String c rest => is_digit c && all_digits rest
  end.

Fixpoint digits_value (acc : N) (s : string) : N :=
  match s with
  | EmptyString => acc
  | String c rest => digits_value (10 * acc + N.of_nat (nat_of_ascii c - 48)) rest
  end.

(** One octet: one to three decimal digits, no leading zero on a longer
    one, at most 255. *)
Definition parse_octet (s : string) : option N :=
  match s with
  | EmptyString => None
  | String c rest =>
      if negb (all_digits s) then None
      else if Nat.ltb 3 (String.length s) then None
      else if Ascii.eqb c "0" && negb (String.eqb rest EmptyString) then None
      else let v := digits_value 0 s in
           if N.ltb 255 v then None else Some v
  end.

(** [IPv4Address(s)] on a string; [None] is [AddressValueError]. *)
Definition IPv4Address (s : string) : option IPv4 :=
  match map parse_octet (Str.split "." s) with
  | [Some a; Some b; Some c; Some d] => Some (mkIPv4 a b c d)
  | _ => None
  end.

Definition octet_str (n : N) : string := Str.of_Z (Z.of_N n).

(** [str(ip)]. *)
Definition to_string (ip : IPv4) : string :=
  octet_str (o1 ip) +:+ "." +:+ octet_str (o2 ip) +:+ "." +:+
  octet_str (o3 ip) +:+ "." +:+ octet_str (o4 ip).

End IP.

Export IP(IPv4, mkIPv4, IPv4Address).

(** ** Exceptions, the outside world and the store *)

(** The data of [subprocess.CalledProcessError]. *)
Record ProcessError := mkProcessError {
  pe_returncode : Z;
  pe_cmd : list string;
  pe_stdout : Py.value;
  pe_stderr : Py.value
}.

(** [subprocess.CompletedProcess]. *)
Record CompletedProcess := mkCompletedProcess {
  cp_args : list string;
  cp_returncode : Z;
  cp_stdout : Py.value;
  cp_stderr : Py.value
}.

Inductive exn :=
| CalledProcessError (e : ProcessError)
| ConflictingContainerError            (* [_ConflictingContainerError] *)
| ValueError (msg : string)
| KeyError (key : string)
| TypeError (msg : string)
| NameError (name : string)
| AssertionError
| AddressValueError (address : string)
| OSError (msg : string)
| DockerException (msg : string).

(** Documents from [Dict[str, Any]]: what [yaml.dump] is given. *)
#[local] Set Warnings "-register-all".
Inductive Yaml :=
| YStr (s : string)
| YInt (n : Z)
| YBool (b : bool)
| YSeq (items : list Yaml)
| YMap (items : list (string * Yaml)).

(** Every call that leaves the process. *)
Inductive event :=
| EvUuid4
| EvCopytree (src dst ignore : string)
| EvCopyfile (src dst : string)
| EvRmtree (path : string) (ignore_errors : bool)
| EvDockerInfo
| EvDockerFromEnv
| EvContainersGet (name : string)
| EvRunSubprocess (args : list string) (cwd : option string) (log_output_live : bool)
| EvPopen (args : list string)
| EvSleep (seconds : Z)
| EvPrint (text : string)
| EvLogWarning (text : string)
| EvExists (path : Path)
| EvGetcwd
| EvSSHConnect (host user key_filename : string)
| EvSendFile (local_filename remote_filename : string).

Definition history := list event.

(** What [run_subprocess] can come back with: the finished process, a
    non-zero exit, or a failure to start the child at all. *)
Inductive run_outcome :=
| Completed (p : CompletedProcess)
| NonZeroExit (e : ProcessError)
| NotStarted (msg : string).

(** The outside world: each answer may depend on everything that was asked
    before. Failures are reported by their message. *)
Record World := mkWorld {
  w_uuid4 : history -> string;
  w_copytree : history -> string -> string -> string -> option string;
  w_copyfile : history -> string -> string -> option string;
  w_rmtree : history -> string -> option string;
  w_docker_driver : history -> string + string;
  w_docker_from_env : history -> option string;
  w_container_ip : history -> string -> string + string;
  w_run_subprocess : history -> list string -> option string -> bool -> run_outcome;
  w_popen : history -> list string -> option string;
  w_exists : history -> Path -> bool;
  w_getcwd : history -> Path;
  w_ssh_connect : history -> string -> string -> string -> option string;
  w_send_file : history -> string -> string -> option string;
  w_yaml_dump : list (string * Yaml) -> string
}.

Definition loc := nat.

(** A [Node]: no [__eq__] and no [__hash__], so two nodes are the same
    member of a set only when they are the same object. *)
Record Node := mkNode { ip_address : IPv4; _ssh_key_path : Path }.

(** The objects held by reference. *)
Inductive obj :=
| OList (l : list string)
| ODict (d : list (string * string))
| OConfig (d : list (string * Yaml))
| OFiles (d : list (Path * Path))
| ONode (n : Node).

Record state := mkState { heap : list obj; trace : history }.

Inductive result (A : Type) :=
| Ok (a : A)
| Raise (e : exn)
| Diverge.

Arguments Ok {A} a.
Arguments Raise {A} e.
Arguments Diverge {A}.

Definition M (A : Type) : Type := state -> result A * state.

Definition ret {A} (a : A) : M A := fun s => (Ok a, s).

Definition bind {A B} (m : M A) (k : A -> M B) : M B :=
  fun s => match m s with
           | (Ok a, s') => k a s'
           | (Raise e, s') => (Raise e, s')
           | (Diverge, s') => (Diverge, s')
           end.

Definition raise {A} (e : exn) : M A := fun s => (Raise e, s).

(** [try: m  except: handler]; a handler that does not want the exception
    raises it again. *)
Definition try_except {A} (m : M A) (handler : exn -> M A) : M A :=
  fun s => match m s with
           | (Raise e, s') => handler e s'
           | r => r
           end.

Declare Scope monad_scope.
Delimit Scope monad_scope with monad.
Notation "x <- m ;; k" := (bind m (fun x => k))
  (at level 61, m at next level, right associativity) : monad_scope.
Notation "m ;; k" := (bind m (fun _ => k))
  (at level 61, right associativity) : monad_scope.
Open Scope monad_scope.

(** [for x in xs: body x]. *)
Fixpoint for_each {A} (xs : list A) (body : A -> M unit) : M unit :=
  match xs with
  | [] => ret tt
  | x :: rest => body x ;; for_each rest body
  end.

(** *** The store *)

Definition alloc (o : obj) : M loc :=
  fun s => (Ok (List.length (heap s)), mkState (heap s ++ [o]) (trace s)).

Definition load (r : loc) : M obj :=
  fun s => match nth_error (heap s) r with
           | Some o => (Ok o, s)
           | None => (Raise (NameError "dangling reference"), s)
           end.

Fixpoint update {A} (l : list A) (i : nat) (x : A) : list A :=
  match l, i with
  | [], _ => []
  | _ :: t, O => x :: t
  | h :: t, S j => h :: update t j x
  end.

Definition store (r : loc) (o : obj) : M unit :=
  fun s => (Ok tt, mkState (update (heap s) r o) (trace s)).

Definition load_list (r : loc) : M (list string) :=
  o <- load r ;;
  match o with
  | OList l => ret l
  | _ => raise (TypeError "list expected")
  end.

Definition load_dict (r : loc) : M (list (string * string)) :=
  o <- load r ;;
  match o with
  | ODict d => ret d
  | _ => raise (TypeError "dict expected")
  end.

Definition load_config (r : loc) : M (list (string * Yaml)) :=
  o <- load r ;;
  match o with
  | OConfig d => ret d
  | _ => raise (TypeError "dict expected")
  end.

Definition load_files (r : loc) : M (list (Path * Path)) :=
  o <- load r ;;
  match o with
  | OFiles d => ret d
  | _ => raise (TypeError "dict expected")
  end.

(** [l.append(x)]: in place. *)
Definition list_append (r : loc) (x : string) : M unit :=
  l <- load_list r ;; store r (OList (l ++ [x])).

(** [l += other]: extends [l] in place with the items of [other]. *)
Definition list_iadd (r other : loc) : M unit :=
  l <- load_list r ;;
  xs <- load_list other ;;
  store r (OList (l ++ xs)).

(** [d[k] = v] on a [Dict[str, str]]: in place. *)
Definition dict_setitem (r : loc) (k v : string) : M unit :=
  d <- load_dict r ;; store r (ODict (Py.dict_set String.eqb k v d)).

(** [d[k]]. *)
Definition dict_getitem (r : loc) (k : string) : M string :=
  d <- load_dict r ;;
  match Py.dict_get String.eqb k d with
  | Some v => ret v
  | None => raise (KeyError k)
  end.

(** *** Calls to the outside *)

Section Calls.
Variable W : World.

Definition emit (e : event) : M unit :=
  fun s => (Ok tt, mkState (heap s) (trace s ++ [e])).

(** Answer from the history, then record the call. *)
Definition ask {A} (e : event) (answer : history -> A) : M A :=
  fun s => (Ok (answer (trace s)), mkState (heap s) (trace s ++ [e])).

Definition os_call (e : event) (answer : history -> option string) : M unit :=
  r <- ask e answer ;;
  match r with
  | None => ret tt
  | Some msg => raise (OSError msg)
  end.

(** [str(uuid.uuid4())]. *)
Definition uuid4 : M string := ask EvUuid4 (w_uuid4 W).

Definition copytree (src dst ignore : string) : M unit :=
  os_call (EvCopytree src dst ignore) (fun h => w_copytree W h src dst ignore).

Definition copyfile (src dst : string) : M unit :=
  os_call (EvCopyfile src dst) (fun h => w_copyfile W h src dst).

(** [shutil.rmtree]: with [ignore_errors] a failed removal is dropped. *)
Definition rmtree (path : string) (ignore_errors : bool) : M unit :=
  r <- ask (EvRmtree path ignore_errors) (fun h => w_rmtree W h path) ;;
  match r with
  | None => ret tt
  | Some msg => if ignore_errors then ret tt else raise (OSError msg)
  end.

(** [docker.from_env(...).info()['Driver']]. *)
Definition docker_info_driver : M string :=
  r <- ask EvDockerInfo (w_docker_driver W) ;;
  match r with
  | inl driver => ret driver
  | inr msg => raise (DockerException msg)
  end.

(** [docker.from_env()] on its own: the client [_nodes] makes before it
    looks at any container. *)
Definition docker_from_env : M unit :=
  r <- ask EvDockerFromEnv (w_docker_from_env W) ;;
  match r with
  | None => ret tt
  | Some msg => raise (DockerException msg)
  end.

(** [client.containers.get(name).attrs['NetworkSettings']['IPAddress']]. *)
Definition containers_get_ip (name : string) : M string :=
  r <- ask (EvContainersGet name) (fun h => w_container_ip W h name) ;;
  match r with
  | inl ip => ret ip
  | inr msg => raise (DockerException msg)
  end.

(** [run_subprocess(args, cwd, log_output_live)] of [_common]. *)
Definition run_subprocess (args : list string) (cwd : option string)
    (log_output_live : bool) : M CompletedProcess :=
  r <- ask (EvRunSubprocess args cwd log_output_live)
           (fun h => w_run_subprocess W h args cwd log_output_live) ;;
  match r with
  | Completed p => ret p
  | NonZeroExit e => raise (CalledProcessError e)
  | NotStarted msg => raise (OSError msg)
  end.

Definition path_exists (p : Path) : M bool := ask (EvExists p) (fun h => w_exists W h p).

(** [p.absolute()]: a path without a root is put under the current
    directory. *)
Definition path_absolute (p : Path) : M Path :=
  if String.eqb (Pathlib.root p) EmptyString
  then cwd <- ask EvGetcwd (w_getcwd W) ;; ret (Pathlib.joinpath cwd p)
  else ret p.

(** [subprocess.Popen(args, stdout=PIPE, stderr=PIPE)]: the child is
    started and not waited for. *)
Definition popen (args : list string) : M unit :=
  os_call (EvPopen args) (fun h => w_popen W h args).

Definition ssh_connect (host user key_filename : string) : M unit :=
  os_call (EvSSHConnect host user key_filename)
          (fun h => w_ssh_connect W h host user key_filename).

Definition send_file (local_filename remote_filename : string) : M unit :=
  os_call (EvSendFile local_filename remote_filename)
          (fun h => w_send_file W h local_filename remote_filename).

Definition sleep (seconds : Z) : M unit := emit (EvSleep seconds).

Definition print (text : string) : M unit := emit (EvPrint text).

(** [logger.warning(text)]. *)
Definition log_warning (text : string) : M unit := emit (EvLogWarning text).

End Calls.

(** ** [node.py] *)

Module NodePy.

(** What a name can be bound to in a method of [Node]. *)
Inductive binding :=
| BNode (n : Node)
| BPath (p : Path)
| BStr (s : string)
| BGlobal.

(** The names [node.py] binds at module level. *)
Definition module_globals : list (string * binding) :=
  map (fun name => (name, BGlobal))
      ["IPv4Address"; "Path"; "PIPE"; "CompletedProcess"; "Popen"; "Dict";
       "List"; "Optional"; "paramiko"; "run_subprocess"; "Node"].

(** Reading a name: the locals of the method, then the module; a name
    bound in neither is a [NameError]. *)
Definition resolve (locals : list (string * binding)) (name : string) : M binding :=
  match Py.dict_get String.eqb name (locals ++ module_globals) with
  | Some b => ret b
  | None => raise (NameError name)
  end.

Definition as_node (b : binding) : M Node :=
  match b with BNode n => ret n | _ => raise (TypeError "no such attribute") end.

Definition as_path (b : binding) : M Path :=
  match b with BPath p => ret p | _ => raise (TypeError "no such attribute") end.

Definition as_str (b : binding) : M string :=
  match b with BStr s => ret s | _ => raise (TypeError "str expected") end.

(** The fixed head of the [ssh] command line. *)
Definition ssh_head (self : Node) : list string :=
  ["ssh"; "-q"; "-o"; "StrictHostKeyChecking=no";
   "-i"; Pathlib.to_string (_ssh_key_path self);
   "-l"; "root";
   "-o"; "PreferredAuthentications=publickey";
   IP.to_string (ip_address self)].

(** [Node.compose_ssh_command(args, env)]. *)
Definition compose_ssh_command (self : Node) (args : loc) (env : option loc) : M loc :=
  (* env = dict(env or {}) *)
  chosen <- match env with
            | None => alloc (ODict [])
            | Some e =>
                d <- load_dict e ;;
                match d with
                | [] => alloc (ODict [])
                | _ :: _ => ret e
                end
            end ;;
  items <- load_dict chosen ;;
  env' <- alloc (ODict items) ;;
  (* command = [] *)
  command <- alloc (OList []) ;;
  (* for key, value in env.items(): *)
  items' <- load_dict env' ;;
  for_each items' (fun kv =>
    let export := "export " +:+ fst kv +:+ "='" +:+ snd kv +:+ "'" in
    list_append command export ;;
    list_append command "&&") ;;
  (* command += args *)
  list_iadd command args ;;
  (* ssh_args = [...] + command *)
  tail <- load_list command ;;
  alloc (OList (ssh_head self ++ tail)).

(** [Node.run_as_root(args, log_output_live, env)]. *)
Definition run_as_root (W : World) (self : Node) (args : loc)
    (log_output_live : bool) (env : option loc) : M CompletedProcess :=
  ssh_args <- compose_ssh_command self args env ;;
  argv <- load_list ssh_args ;;
  run_subprocess W argv None log_output_live.

(** [Node.popen_as_root(args, env)]: the process that was started, here
    the command line it was started with. *)
Definition popen_as_root (W : World) (self : Node) (args : loc)
    (env : option loc) : M (list string) :=
  ssh_args <- compose_ssh_command self args env ;;
  argv <- load_list ssh_args ;;
  popen W argv ;;
  ret argv.

(** [Node.scp(source_path, dst_path)]. The body reads [node], [source],
    [user] and [dest], none of which the method or the module binds. *)
Definition scp (W : World) (self : Node) (source_path dst_path : Path) : M unit :=
  let locals := [("self", BNode self); ("source_path", BPath source_path);
                 ("dst_path", BPath dst_path)] in
  ok <- path_exists W source_path ;;
  if negb ok then raise AssertionError else
  node <- (b <- resolve locals "node" ;; as_node b) ;;
  source <- (b <- resolve locals "source" ;; as_path b) ;;
  source_abs <- path_absolute W source ;;
  user <- (b <- resolve locals "user" ;; as_str b) ;;
  node' <- (b <- resolve locals "node" ;; as_node b) ;;
  dest <- (b <- resolve locals "dest" ;; as_path b) ;;
  dest_abs <- path_absolute W dest ;;
  let scp_cmd :=
    ["scp"; "-q";
     "-o"; "IdentitiesOnly=yes";
     "-o"; "StrictHostKeyChecking=no";
     "-i"; Pathlib.to_string (_ssh_key_path node);
     "-o"; "PreferredAuthentications=publickey";
     Pathlib.to_string source_abs;
     user +:+ "@" +:+ IP.to_string (ip_address node') +:+ ":"
       +:+ Pathlib.to_string dest_abs] in
  run_subprocess W scp_cmd None true ;;
  ret tt.

(** [Node.scp2(source, dest, user)]. The body reads [node], [closing] and
    [Write], none of which the method or the module binds. *)
Definition scp2 (W : World) (self : Node) (source dest : Path) (user : string) : M unit :=
  let locals := [("self", BNode self); ("source", BPath source);
                 ("dest", BPath dest); ("user", BStr user);
                 ("ssh_client", BGlobal)] in
  ok <- path_exists W source ;;
  if negb ok then raise AssertionError else
  resolve locals "paramiko" ;;
  resolve locals "paramiko" ;;
  node <- (b <- resolve locals "node" ;; as_node b) ;;
  node' <- (b <- resolve locals "node" ;; as_node b) ;;
  ssh_connect W (IP.to_string (ip_address node)) user
              (Pathlib.to_string (_ssh_key_path node')) ;;
  resolve locals "closing" ;;
  resolve locals "Write" ;;
  send_file W (Pathlib.to_string source) (Pathlib.to_string dest).

End NodePy.

(** ** The [retry] decorator *)

(** [str(e)] for the exceptions the backend raises itself. *)
Definition exn_message (e : exn) : string :=
  match e with
  | CalledProcessError _ => "Command returned non-zero exit status"
  | ConflictingContainerError => ""
  | ValueError msg => msg
  | KeyError key => key
  | TypeError msg => msg
  | NameError name => "name '" +:+ name +:+ "' is not defined"
  | AssertionError => ""
  | AddressValueError address => address
  | OSError msg => msg
  | DockerException msg => msg
  end.

(** [retry(exceptions, tries, delay)] of the [retry] package, with its
    defaults [backoff=1], [jitter=0], [max_delay=None] and its default
    logger: call [f]; when it raises one of [exceptions], count the try,
    give up with that exception when none is left, otherwise log a warning,
    sleep and call again. [fuel] bounds the iterations of the
    [while _tries:] loop. *)
Fixpoint retry (fuel : nat) (exceptions : exn -> bool)
    (_tries _delay : Z) (f : M unit) : M unit :=
  if Z.eqb _tries 0 then ret tt
  else match fuel with
       | O => fun s => (Diverge, s)
       | S fuel' =>
           try_except f (fun e =>
             if exceptions e then
               let _tries := (_tries - 1)%Z in
               if Z.eqb _tries 0 then raise e
               else
                 log_warning (exn_message e +:+ ", retrying in "
                              +:+ Str.of_Z _delay +:+ " seconds...") ;;
                 sleep _delay ;;
                 let _delay := (_delay * 1 + 0)%Z in
                 retry fuel' exceptions _tries _delay f
             else raise e)
       end.

(** ** [_dcos_docker.py] *)

Module DcosDocker.

(** An instance of [DCOS_Docker]: its three attributes. The parameter set
    is a [dict] object of the store. *)
Record DCOS_Docker := mkDCOS_Docker {
  log_output_live : bool;
  _path : Path;
  _variables : loc
}.

Definition is_ConflictingContainerError (e : exn) : bool :=
  match e with ConflictingContainerError => true | _ => false end.

Definition conflict_error_substring : string := "Conflict. The container name".
Definition other_conflict_error_substring : string := "Conflict. The name".

(** ['{key}={value}'.format(key=key, value=value)]. *)
Definition make_variable (kv : string * string) : string :=
  fst kv +:+ "=" +:+ snd kv.

(** [DCOS_Docker._make(target)]. *)
Definition _make (W : World) (self : DCOS_Docker) (target : string) : M unit :=
  variables <- load_dict (_variables self) ;;
  let args := ["make"] ++ map make_variable variables ++ [target] in
  run_subprocess W args (Some (Pathlib.to_string (_path self)))
                 (log_output_live self) ;;
  ret tt.

(** The body of [DCOS_Docker._create_containers], one attempt. *)
Definition _create_containers_once (W : World) (self : DCOS_Docker) : M unit :=
  try_except (_make W self "all") (fun exc =>
    match exc with
    | CalledProcessError e =>
        let stderr := Py.str (pe_stderr e) +:+ Py.str (pe_stdout e) in
        let conflict := Str.contains conflict_error_substring stderr in
        let conflict := conflict || Str.contains other_conflict_error_substring stderr in
        if conflict then
          print (Py.str (pe_stderr e)) ;;
          raise ConflictingContainerError
        else raise exc
    | _ => raise exc
    end).

(** [DCOS_Docker._create_containers]: the body under
    [@retry(exceptions=_ConflictingContainerError, delay=10, tries=30)].
    Thirty tries need at most thirty rounds of the loop. *)
Definition _create_containers (W : World) (self : DCOS_Docker) : M unit :=
  retry 30 is_ConflictingContainerError 30 10 (_create_containers_once W self).

(** [DCOS_Docker.postflight]. *)
Definition postflight (W : World) (self : DCOS_Docker) : M unit :=
  _make W self "postflight".

(** [DCOS_Docker.destroy]. *)
Definition destroy (W : World) (self : DCOS_Docker) : M unit :=
  _make W self "clean" ;;
  rmtree W (Pathlib.to_string (_path self)) true.

(** Lines 95-98 of [__init__]: the files for the installer. *)
Definition copy_files_to_installer (W : World) (path : Path)
    (files_to_copy_to_installer : loc) : M unit :=
  items <- load_files files_to_copy_to_installer ;;
  for_each items (fun item =>
    let host_path := fst item in
    let installer_path := snd item in
    match Pathlib.relative_to installer_path (Pathlib.of_string "/genconf") with
    | None =>
        raise (ValueError ("'" +:+ Pathlib.to_string installer_path
                           +:+ "' does not start with '/genconf'"))
    | Some relative_installer_path =>
        let destination_path :=
          Pathlib.joinpath (Pathlib.div path "genconf") relative_installer_path in
        copyfile W (Pathlib.to_string host_path)
                 (Pathlib.to_string destination_path)
    end).

Definition supported_storage_drivers : list string := ["overlay"; "aufs"].

(** Lines 111-117 of [__init__]: the storage driver. *)
Definition choose_storage_driver (W : World) : M string :=
  host_storage_driver <- docker_info_driver W ;;
  if existsb (String.eqb host_storage_driver) supported_storage_drivers
  then ret host_storage_driver
  else ret "aufs".

(** [DCOS_Docker.__init__]. *)
Definition __init__ (W : World) (masters agents public_agents : Z)
    (extra_config : loc) (generate_config_path dcos_docker_path : Path)
    (custom_ca_key : option Path) (log_output_live : bool)
    (files_to_copy_to_installer : loc) (tmp_dir_path : Path) : M DCOS_Docker :=
  random <- uuid4 W ;;
  let path := Pathlib.div tmp_dir_path ("dcos-docker-" +:+ random) in
  copytree W (Pathlib.to_string dcos_docker_path) (Pathlib.to_string path)
           "dcos_generate_config.sh" ;;
  copyfile W (Pathlib.to_string generate_config_path)
           (Pathlib.to_string (Pathlib.div path "dcos_generate_config.sh")) ;;
  copy_files_to_installer W path files_to_copy_to_installer ;;
  let master_ctr := "dcos-master-" +:+ random +:+ "-" in
  let agent_ctr := "dcos-agent-" +:+ random +:+ "-" in
  let public_agent_ctr := "dcos-public-agent-" +:+ random +:+ "-" in
  docker_storage_driver <- choose_storage_driver W ;;
  variables <- alloc (ODict
    [("DOCKER_STORAGEDRIVER", docker_storage_driver);
     ("MESOS_SYSTEMD_ENABLE_SUPPORT", "false");
     ("MASTERS", Str.of_Z masters);
     ("AGENTS", Str.of_Z agents);
     ("PUBLIC_AGENTS", Str.of_Z public_agents);
     ("MASTER_CTR", master_ctr);
     ("AGENT_CTR", agent_ctr);
     ("PUBLIC_AGENT_CTR", public_agent_ctr)]) ;;
  config <- load_config extra_config ;;
  match config with
  | [] => ret tt
  | _ :: _ => dict_setitem variables "EXTRA_GENCONF_CONFIG" (w_yaml_dump W config)
  end ;;
  match custom_ca_key with
  | None => ret tt
  | Some key =>
      let master_mount :=
        "-v " +:+ Pathlib.to_string key +:+ ":" +:+
        Pathlib.to_string
          (Pathlib.of_string "/var/lib/dcos/pki/tls/CA/private/custom_ca.key") in
      dict_setitem variables "MASTER_MOUNTS" master_mount
  end ;;
  let self := mkDCOS_Docker log_output_live path variables in
  _create_containers W self ;;
  ret self.

(** [nodes.add(node)] on a set of [Node]s: membership is identity. *)
Definition set_add (node : loc) (nodes : list loc) : list loc :=
  if existsb (Nat.eqb node) nodes then nodes else nodes ++ [node].

(** The [while] loop of [DCOS_Docker._nodes]; [fuel] bounds its rounds. *)
Fixpoint _nodes_loop (fuel : nat) (W : World) (self : DCOS_Docker)
    (container_base_name : string) (num_nodes : Z) (nodes : list loc)
    : M (list loc) :=
  if Z.ltb (Z.of_nat (List.length nodes)) num_nodes then
    match fuel with
    | O => fun s => (Diverge, s)
    | S fuel' =>
        let container_name :=
          container_base_name +:+ Str.of_Z (Z.of_nat (List.length nodes) + 1) in
        ip_address <- containers_get_ip W container_name ;;
        ip <- match IPv4Address ip_address with
              | Some ip => ret ip
              | None => raise (AddressValueError ip_address)
              end ;;
        let key := Pathlib.div (Pathlib.div (Pathlib.div (_path self) "include")
                                            "ssh") "id_rsa" in
        node <- alloc (ONode (mkNode ip key)) ;;
        _nodes_loop fuel' W self container_base_name num_nodes (set_add node nodes)
    end
  else ret nodes.

(** [DCOS_Docker._nodes(container_base_name, num_nodes)]. *)
Definition _nodes (fuel : nat) (W : World) (self : DCOS_Docker)
    (container_base_name : string) (num_nodes : Z) : M (list loc) :=
  (* client = docker.from_env() *)
  docker_from_env W ;;
  (* nodes = set([]) *)
  _nodes_loop fuel W self container_base_name num_nodes [].

(** [int(s)]. *)
Definition int (s : string) : M Z :=
  match Str.to_Z s with
  | Some n => ret n
  | None => raise (ValueError ("invalid literal for int() with base 10: " +:+ s))
  end.

(** The three role accessors: [masters], [agents], [public_agents]. *)
Definition role_nodes (fuel : nat) (W : World) (self : DCOS_Docker)
    (ctr_key count_key : string) : M (list loc) :=
  container_base_name <- dict_getitem (_variables self) ctr_key ;;
  count <- dict_getitem (_variables self) count_key ;;
  num_nodes <- int count ;;
  _nodes fuel W self container_base_name num_nodes.

Definition masters (fuel : nat) (W : World) (self : DCOS_Docker) : M (list loc) :=
  role_nodes fuel W self "MASTER_CTR" "MASTERS".

Definition agents (fuel : nat) (W : World) (self : DCOS_Docker) : M (list loc) :=
  role_nodes fuel W self "AGENT_CTR" "AGENTS".

Definition public_agents (fuel : nat) (W : World) (self : DCOS_Docker) : M (list loc) :=
  role_nodes fuel W self "PUBLIC_AGENT_CTR" "PUBLIC_AGENTS".

(** [DCOS_Docker_Backend]. *)
Record DCOS_Docker_Backend := mkDCOS_Docker_Backend {
  _generate_config_path : Path;
  _dcos_docker_path : Path;
  _tmp_dir_path : Path
}.

(** [dict(extra_config or {})]: a new dict with the items of the
    argument, or empty when the argument is [None] or empty. *)
Definition copy_config (extra_config : option loc) : M loc :=
  match extra_config with
  | None => e <- alloc (OConfig []) ;; items <- load_config e ;; alloc (OConfig items)
  | Some r =>
      d <- load_config r ;;
      match d with
      | [] => e <- alloc (OConfig []) ;; items <- load_config e ;; alloc (OConfig items)
      | _ :: _ => items <- load_config r ;; alloc (OConfig items)
      end
  end.

(** [dict(files_to_copy_to_installer or {})]. *)
Definition copy_files (files : option loc) : M loc :=
  match files with
  | None => e <- alloc (OFiles []) ;; items <- load_files e ;; alloc (OFiles items)
  | Some r =>
      d <- load_files r ;;
      match d with
      | [] => e <- alloc (OFiles []) ;; items <- load_files e ;; alloc (OFiles items)
      | _ :: _ => items <- load_files r ;; alloc (OFiles items)
      end
  end.

(** [DCOS_Docker_Backend.create]. *)
Definition create (W : World) (self : DCOS_Docker_Backend)
    (masters agents public_agents : Z) (extra_config : option loc)
    (custom_ca_key : option Path) (log_output_live : bool)
    (files_to_copy_to_installer : option loc) : M DCOS_Docker :=
  extra_config' <- copy_config extra_config ;;
  files' <- copy_files files_to_copy_to_installer ;;
  __init__ W masters agents public_agents extra_config'
           (_generate_config_path self) (_dcos_docker_path self)
           custom_ca_key log_output_live files'
           (_tmp_dir_path self).

End DcosDocker.

(** ** Closed forms the properties are stated with *)

(** The fragments [compose_ssh_command] puts before the command, one
    [export] and one ['&&'] for each item of [env], in the order of the
    items. *)
Definition export_fragments (items : list (string * string)) : list string :=
  flat_map (fun kv => ["export " +:+ fst kv +:+ "='" +:+ snd kv +:+ "'"; "&&"]) items.

(** The items of an [env] argument: none for [None]. *)
Definition env_items (h : list obj) (env : option loc) : option (list (string * string)) :=
  match env with
  | None => Some []
  | Some e => match nth_error h e with
              | Some (ODict d) => Some d
              | _ => None
              end
  end.

(** The state after further calls to the outside. *)
Definition add_events (s : state) (evs : list event) : state :=
  mkState (heap s) (trace s ++ evs).

(** The command line [_make] runs for a parameter set and a target. *)
Definition make_args (variables : list (string * string)) (target : string)
    : list string :=
  ["make"] ++ map DcosDocker.make_variable variables ++ [target].

(** The call [_make] makes to [run_subprocess]. *)
Definition make_event (self : DcosDocker.DCOS_Docker)
    (variables : list (string * string)) (target : string) : event :=
  EvRunSubprocess (make_args variables target)
                  (Some (Pathlib.to_string (DcosDocker._path self)))
                  (DcosDocker.log_output_live self).

(** What the world answers to that call after the history [h]. *)
Definition make_outcome (W : World) (self : DcosDocker.DCOS_Docker)
    (variables : list (string * string)) (target : string) (h : history)
    : run_outcome :=
  w_run_subprocess W h (make_args variables target)
                   (Some (Pathlib.to_string (DcosDocker._path self)))
                   (DcosDocker.log_output_live self).

(** [needle] occurs in [hay]. *)
Definition is_substring (needle hay : string) : Prop :=
  exists pre post, hay = pre +:+ needle +:+ post.

(** The text [_create_containers] searches: the error text followed by the
    output text of the failed process. *)
Definition failure_text (e : ProcessError) : string :=
  Py.str (pe_stderr e) +:+ Py.str (pe_stdout e).

Definition has_conflict_signature (e : ProcessError) : Prop :=
  is_substring "Conflict. The container name" (failure_text e) \/
  is_substring "Conflict. The name" (failure_text e).

(** The warning the retry loop logs before it waits. *)
Definition retry_warning : string := ", retrying in 10 seconds...".

(** [_create_containers] with [n] tries left. *)
Definition create_with_tries (W : World) (self : DcosDocker.DCOS_Docker)
    (n : nat) : M unit :=
  retry n DcosDocker.is_ConflictingContainerError (Z.of_nat n) 10
        (DcosDocker._create_containers_once W self).

(** The command lines of the child processes run in a trace. *)
Fixpoint subprocess_runs (evs : list event) : list (list string) :=
  match evs with
  | [] => []
  | EvRunSubprocess args _ _ :: rest => args :: subprocess_runs rest
  | _ :: rest => subprocess_runs rest
  end.

(** The delays slept in a trace. *)
Fixpoint sleeps (evs : list event) : list Z :=
  match evs with
  | [] => []
  | EvSleep d :: rest => d :: sleeps rest
  | _ :: rest => sleeps rest
  end.

(** Every object of [s] is still there, unchanged, in [s']. *)
Definition preserved (s s' : state) : Prop :=
  forall r o, nth_error (heap s) r = Some o -> nth_error (heap s') r = Some o.

(** The container names [base]i, [base](i+1), ... asked for, [k] of them. *)
Definition query_events (base : string) (i k : nat) : list event :=
  map (fun j => EvContainersGet (base +:+ Str.of_Z (Z.of_nat j))) (seq i k).

(** Asking the runtime for the containers [base]i, ..., [base](i+k-1), one
    after the other, once each, and stopping at the first that is missing
    or has no valid address: the addresses found, and the error that
    stopped the inspection, if any. *)
Fixpoint inspect_all (W : World) (base : string) (k i : nat) (h : history)
    : list IPv4 * option exn :=
  match k with
  | O => ([], None)
  | S k' =>
      let name := base +:+ Str.of_Z (Z.of_nat i) in
      match w_container_ip W h name with
      | inr msg => ([], Some (DockerException msg))
      | inl ip =>
          match IPv4Address ip with
          | None => ([], Some (AddressValueError ip))
          | Some a =>
              let (found, stopped) :=
                inspect_all W base k' (S i) (h ++ [EvContainersGet name]) in
              (a :: found, stopped)
          end
      end
  end.

(** The key every node of a cluster is given. *)
Definition node_key (self : DcosDocker.DCOS_Docker) : Path :=
  mkPath (Pathlib.root (DcosDocker._path self))
         (Pathlib.names (DcosDocker._path self) ++ ["include"; "ssh"; "id_rsa"]).

(** The [Node] objects for a list of addresses. *)
Definition node_objects (self : DcosDocker.DCOS_Docker) (ips : list IPv4) : list obj :=
  map (fun a => ONode (mkNode a (node_key self))) ips.

(** ** Worlds to run the code in *)

Module Demo.

(** A failure of [make] that reports a container-name conflict. *)
Definition conflict_error : ProcessError :=
  mkProcessError 2 ["make"]
    (Py.VBytes "")
    (Py.VBytes "docker: Error response from daemon: Conflict. The name /dcos-genconf is already in use").

(** How many containers were asked for so far. *)
Fixpoint container_queries (h : history) : nat :=
  match h with
  | [] => 0
  | EvContainersGet _ :: rest => S (container_queries rest)
  | _ :: rest => container_queries rest
  end.

(** A host on which everything works, except that the first [conflicts]
    runs of a child process meet a name conflict, and that no container can
    be inspected before [absent] queries were made. Containers get the
    addresses 172.17.0.2, 172.17.0.3, ... in the order they are asked for. *)
Definition world (conflicts absent : nat) : World :=
  mkWorld
    (fun _ => "0b1f")
    (fun _ _ _ _ => None)
    (fun _ _ _ => None)
    (fun _ _ => None)
    (fun _ => inl "overlay")
    (fun _ => None)
    (fun h name =>
       if Nat.ltb (container_queries h) absent
       then inr ("No such container: " +:+ name)
       else inl ("172.17.0." +:+ Str.of_Z (Z.of_nat (2 + container_queries h - absent))))
    (fun h args _ _ =>
       if Nat.ltb (List.length (subprocess_runs h)) conflicts
       then NonZeroExit conflict_error
       else Completed (mkCompletedProcess args 0 (Py.VBytes "") (Py.VBytes "")))
    (fun _ _ => None)
    (fun _ _ => true)
    (fun _ => mkPath "/" ["home"])
    (fun _ _ _ _ => None)
    (fun _ _ _ => None)
    (fun _ => "cluster_docker_credentials_enabled: true").

(** A cluster object and a store that holds its parameter set. *)
Definition cluster : DcosDocker.DCOS_Docker :=
  DcosDocker.mkDCOS_Docker false (Pathlib.of_string "/tmp/dcos-docker-0b1f") 0.

Definition parameters : list (string * string) :=
  [("DOCKER_STORAGEDRIVER", "overlay");
   ("MESOS_SYSTEMD_ENABLE_SUPPORT", "false");
   ("MASTERS", "1"); ("AGENTS", "0"); ("PUBLIC_AGENTS", "2");
   ("MASTER_CTR", "dcos-master-0b1f-");
   ("AGENT_CTR", "dcos-agent-0b1f-");
   ("PUBLIC_AGENT_CTR", "dcos-public-agent-0b1f-")].

Definition created : state := mkState [ODict parameters] [].

(** The store of a caller that holds an extra configuration and a file for
    the installer. *)
Definition caller : state :=
  mkState [OConfig [("cluster_docker_credentials_enabled", YBool true)];
           OFiles [(Pathlib.of_string "/home/me/license.txt",
                    Pathlib.of_string "/genconf/license.txt")]]
          [].

(** A caller whose second file is meant for a place outside [/genconf]. *)
Definition careless_caller : state :=
  mkState [OConfig [];
           OFiles [(Pathlib.of_string "/home/me/license.txt",
                    Pathlib.of_string "/genconf/license.txt");
                   (Pathlib.of_string "/home/me/hosts",
                    Pathlib.of_string "/etc/hosts")]]
          [].

Definition backend : DcosDocker.DCOS_Docker_Backend :=
  DcosDocker.mkDCOS_Docker_Backend
    (Pathlib.of_string "/home/me/dcos_generate_config.sh")
    (Pathlib.of_string "/home/me/dcos-docker")
    (Pathlib.of_string "/tmp").

End Demo.


(** ** Construction, step by step *)



(** The error for an installer path that does not start with [/genconf],
    in the words of the [pathlib] of Python 3.5 to 3.8; later versions word
    it differently. *)
Definition no_genconf_prefix (installer_path : Path) : exn :=
  ValueError ("'" +:+ Pathlib.to_string installer_path
              +:+ "' does not start with '/genconf'").

(** ** Where a path leads *)

(** The names of a path once each [..] has taken back the name before it,
    as the file system reads the path when no name is a symbolic link.
    [above] holds the names reached so far, the last one first; at the
    root a [..] stays at the root, and a path without a root keeps the
    [..] it cannot take back. *)
Fixpoint climb (rooted : bool) (above names : list string) : list string :=
  match names with
  | [] => above
  | n :: rest =>
      if String.eqb n ".." then
        match above with
        | [] => climb rooted (if rooted then [] else [".."]) rest
        | top :: below =>
            if String.eqb top ".." then climb rooted (".." :: above) rest
            else climb rooted below rest
        end
      else climb rooted (n :: above) rest
  end.

Definition resolved (p : Path) : Path :=
  mkPath (Pathlib.root p)
         (rev (climb (negb (String.eqb (Pathlib.root p) EmptyString)) []
                     (Pathlib.names p))).

(** [p] leads to [dir] or to a place below it. *)
Definition inside (dir p : Path) : Prop :=
  Pathlib.root (resolved p) = Pathlib.root (resolved dir) /\
  exists rest, Pathlib.names (resolved p) = Pathlib.names (resolved dir) ++ rest.

(** Staging the files for the installer, pair by pair: the error that
    stopped the staging, if any, and the copies asked for. *)
Fixpoint stage_files (W : World) (path : Path) (items : list (Path * Path))
    (h : history) : option exn * list event :=
  match items with
  | [] => (None, [])
  | (host_path, installer_path) :: rest =>
      match Pathlib.relative_to installer_path (Pathlib.of_string "/genconf") with
      | None => (Some (no_genconf_prefix installer_path), [])
      | Some relative =>
          let src := Pathlib.to_string host_path in
          let dst := Pathlib.to_string
                       (Pathlib.joinpath (Pathlib.div path "genconf") relative) in
          match w_copyfile W h src dst with
          | Some msg => (Some (OSError msg), [EvCopyfile src dst])
          | None =>
              let (stopped, evs) := stage_files W path rest (h ++ [EvCopyfile src dst]) in
              (stopped, EvCopyfile src dst :: evs)
          end
      end
  end.

(** The driver [__init__] settles on for a reported host driver. *)
Definition chosen_storage_driver (host_storage_driver : string) : string :=
  if String.eqb host_storage_driver "overlay" then host_storage_driver
  else if String.eqb host_storage_driver "aufs" then host_storage_driver
  else "aufs".

(** The parameter set at the end of the assembly step. *)
Definition parameter_set (W : World) (host_storage_driver random : string)
    (masters agents public_agents : Z) (config : list (string * Yaml))
    (custom_ca_key : option Path) : list (string * string) :=
  let base :=
    [("DOCKER_STORAGEDRIVER", chosen_storage_driver host_storage_driver);
     ("MESOS_SYSTEMD_ENABLE_SUPPORT", "false");
     ("MASTERS", Str.of_Z masters);
     ("AGENTS", Str.of_Z agents);
     ("PUBLIC_AGENTS", Str.of_Z public_agents);
     ("MASTER_CTR", "dcos-master-" +:+ random +:+ "-");
     ("AGENT_CTR", "dcos-agent-" +:+ random +:+ "-");
     ("PUBLIC_AGENT_CTR", "dcos-public-agent-" +:+ random +:+ "-")] in
  let with_config :=
    match config with
    | [] => base
    | _ :: _ => base ++ [("EXTRA_GENCONF_CONFIG", w_yaml_dump W config)]
    end in
  match custom_ca_key with
  | None => with_config
  | Some key =>
      with_config ++
      [("MASTER_MOUNTS",
        "-v " +:+ Pathlib.to_string key
        +:+ ":/var/lib/dcos/pki/tls/CA/private/custom_ca.key")]
  end.

(** The first calls of [__init__]: the identifier, the copy of the build
    material, the installer artifact. *)
Definition staging_events (random : string)
    (generate_config_path dcos_docker_path tmp_dir_path : Path) : list event :=
  let path := Pathlib.div tmp_dir_path ("dcos-docker-" +:+ random) in
  [EvUuid4;
   EvCopytree (Pathlib.to_string dcos_docker_path) (Pathlib.to_string path)
              "dcos_generate_config.sh";
   EvCopyfile (Pathlib.to_string generate_config_path)
              (Pathlib.to_string (Pathlib.div path "dcos_generate_config.sh"))].

(** What [__init__] comes to, call by call: each failure of the outside
    ends the construction with that error; when the staging and the probe
    succeed the parameter set is the one new object and the create action
    decides the outcome. *)
Definition construction (W : World) (masters agents public_agents : Z)
    (config : list (string * Yaml)) (generate_config_path dcos_docker_path : Path)
    (custom_ca_key : option Path) (log_output_live : bool)
    (items : list (Path * Path)) (tmp_dir_path : Path) (s : state)
    : result DcosDocker.DCOS_Docker * state :=
  let random := w_uuid4 W (trace s) in
  let path := Pathlib.div tmp_dir_path ("dcos-docker-" +:+ random) in
  let staging := staging_events random generate_config_path dcos_docker_path
                                tmp_dir_path in
  match w_copytree W (trace s ++ firstn 1 staging)
                   (Pathlib.to_string dcos_docker_path) (Pathlib.to_string path)
                   "dcos_generate_config.sh" with
  | Some msg => (Raise (OSError msg), add_events s (firstn 2 staging))
  | None =>
      match w_copyfile W (trace s ++ firstn 2 staging)
                       (Pathlib.to_string generate_config_path)
                       (Pathlib.to_string (Pathlib.div path "dcos_generate_config.sh")) with
      | Some msg => (Raise (OSError msg), add_events s staging)
      | None =>
          let staged := stage_files W path items (trace s ++ staging) in
          match fst staged with
          | Some e => (Raise e, add_events s (staging ++ snd staged))
          | None =>
              match w_docker_driver W (trace s ++ staging ++ snd staged) with
              | inr msg =>
                  (Raise (DockerException msg),
                   add_events s (staging ++ snd staged ++ [EvDockerInfo]))
              | inl host =>
                  let self := DcosDocker.mkDCOS_Docker log_output_live path
                                (List.length (heap s)) in
                  let assembled :=
                    mkState (heap s ++ [ODict (parameter_set W host random masters
                                              agents public_agents config
                                              custom_ca_key)])
                            (trace s ++ staging ++ snd staged ++ [EvDockerInfo]) in
                  match DcosDocker._create_containers W self assembled with
                  | (Ok _, s') => (Ok self, s')
                  | (Raise e, s') => (Raise e, s')
                  | (Diverge, s') => (Diverge, s')
                  end
              end
          end
      end
  end.

(** The items of an [extra_config] argument: none for [None]. *)
Definition config_items (h : list obj) (extra_config : option loc)
    : option (list (string * Yaml)) :=
  match extra_config with
  | None => Some []
  | Some r => match nth_error h r with
              | Some (OConfig d) => Some d
              | _ => None
              end
  end.

(** The items of a [files_to_copy_to_installer] argument. *)
Definition file_items (h : list obj) (files : option loc)
    : option (list (Path * Path)) :=
  match files with
  | None => Some []
  | Some r => match nth_error h r with
              | Some (OFiles d) => Some d
              | _ => None
              end
  end.


(** ** The life of a cluster object *)

(** What a holder of a constructed cluster can call on it. *)
Inductive action :=
| ACreateContainers
| APostflight
| ADestroy
| AMasters
| AAgents
| APublicAgents.

Definition run_action (W : World) (self : DcosDocker.DCOS_Docker) (fuel : nat)
    (a : action) : M unit :=
  match a with
  | ACreateContainers => DcosDocker._create_containers W self
  | APostflight => DcosDocker.postflight W self
  | ADestroy => DcosDocker.destroy W self
  | AMasters => DcosDocker.masters fuel W self ;; ret tt
  | AAgents => DcosDocker.agents fuel W self ;; ret tt
  | APublicAgents => DcosDocker.public_agents fuel W self ;; ret tt
  end.

(** The calls of a list, one after the other; a call that raises leaves
    the holder free to go on with the next. *)
Fixpoint run_actions (W : World) (self : DcosDocker.DCOS_Docker) (fuel : nat)
    (actions : list action) (s : state) : state :=
  match actions with
  | [] => s
  | a :: rest => run_actions W self fuel rest (snd (run_action W self fuel a s))
  end.

(** The three targets of the build tool. *)
Definition lifecycle_targets : list string := ["all"; "postflight"; "clean"].

(** A world that reports one and the same address for every container. *)
Definition one_address_world : World :=
  mkWorld
    (fun _ => "0b1f")
    (fun _ _ _ _ => None)
    (fun _ _ _ => None)
    (fun _ _ => Some "Permission denied")
    (fun _ => inl "devicemapper")
    (fun _ => None)
    (fun _ _ => inl "172.17.0.2")
    (fun _ args _ _ =>
       Completed (mkCompletedProcess args 0 (Py.VBytes "") (Py.VBytes "")))
    (fun _ _ => None)
    (fun _ _ => true)
    (fun _ => mkPath "/" ["home"])
    (fun _ _ _ _ => None)
    (fun _ _ _ => None)
    (fun _ => "cluster_docker_credentials_enabled: true").

(** ** Failures of the outside and what becomes of them *)

(** The world answered the call [ev], made after the history [h], with a
    failure. *)
Definition answer_failed (W : World) (h : history) (ev : event) : bool :=
  match ev with
  | EvCopytree src dst ignore =>
      match w_copytree W h src dst ignore with Some _ => true | None => false end
  | EvCopyfile src dst =>
      match w_copyfile W h src dst with Some _ => true | None => false end
  | EvRmtree path _ =>
      match w_rmtree W h path with Some _ => true | None => false end
  | EvDockerInfo =>
      match w_docker_driver W h with inr _ => true | inl _ => false end
  | EvDockerFromEnv =>
      match w_docker_from_env W h with Some _ => true | None => false end
  | EvContainersGet name =>
      match w_container_ip W h name with inr _ => true | inl _ => false end
  | EvRunSubprocess args cwd live =>
      match w_run_subprocess W h args cwd live with
      | Completed _ => false
      | _ => true
      end
  | EvPopen args =>
      match w_popen W h args with Some _ => true | None => false end
  | EvSSHConnect host user key =>
      match w_ssh_connect W h host user key with Some _ => true | None => false end
  | EvSendFile src dst =>
      match w_send_file W h src dst with Some _ => true | None => false end
  | _ => false
  end.

(** The failed calls among [evs], made after [h], each with the calls that
    followed it. *)
Fixpoint failures (W : World) (h : history) (evs : list event)
    : list (event * list event) :=
  match evs with
  | [] => []
  | ev :: rest =>
      (if answer_failed W h ev then [(ev, rest)] else [])
      ++ failures W (h ++ [ev]) rest
  end.

(** A failed call that did not end the operation is accounted for when it
    is the removal of a directory asked with [ignore_errors], or a run of a
    child process whose failure was printed right after. *)
Definition accounted (f : event * list event) : Prop :=
  match f with
  | (EvRmtree _ true, _) => True
  | (EvRunSubprocess _ _ _, EvPrint _ :: _) => True
  | _ => False
  end.

(** The removals of directories in a trace. *)
Fixpoint removals (evs : list event) : list event :=
  match evs with
  | [] => []
  | EvRmtree path ignore_errors :: rest => EvRmtree path ignore_errors :: removals rest
  | _ :: rest => removals rest
  end.

(** ** The resolution of a role as the specification words it *)

(** Waiting long enough makes the containers [base]1, ..., [base]n
    inspectable: after some later history every one of them is found with a
    valid address. *)
Definition eventually_inspectable (W : World) (base : string) (n : nat)
    (h : history) : Prop :=
  exists later,
    forall i, 1 <= i <= n ->
      exists ip a,
        w_container_ip W (h ++ later) (base +:+ Str.of_Z (Z.of_nat i)) = inl ip /\
        IPv4Address ip = Some a.

(** "Resolving a role blocks until the containers exist and returns
    exactly [n] nodes": whenever waiting makes them inspectable, the
    accessor comes back with a set of [n] nodes. *)
Definition blocks_until_resolved (W : World) (self : DcosDocker.DCOS_Docker)
    (fuel : nat) (ctr_key count_key base : string) (n : nat) (s : state) : Prop :=
  eventually_inspectable W base n (trace s) ->
  exists nodes,
    fst (DcosDocker.role_nodes fuel W self ctr_key count_key s) = Ok nodes /\
    List.length nodes = n.

(** ** The staging of installer files as the specification words it *)

(** "If installerDestPath lies under the installer mount root the file is
    copied into the working directory, below its [genconf]; if it is not
    under that root, construction fails": for every pair of the caller, an
    installer path that leads under [/genconf] has its file copied to a
    place under [<working directory>/genconf] whenever the construction
    succeeds, and an installer path that leads elsewhere keeps the
    construction from succeeding. *)
Definition installer_files_confined (W : World) (masters agents public_agents : Z)
    (extra_config : loc) (generate_config_path dcos_docker_path : Path)
    (custom_ca_key : option Path) (log_output_live : bool) (files : loc)
    (tmp_dir_path : Path) (s : state) (items : list (Path * Path)) : Prop :=
  let run := DcosDocker.__init__ W masters agents public_agents extra_config
               generate_config_path dcos_docker_path custom_ca_key
               log_output_live files tmp_dir_path s in
  let path := Pathlib.div tmp_dir_path ("dcos-docker-" +:+ w_uuid4 W (trace s)) in
  forall host_path installer_path,
    In (host_path, installer_path) items ->
    (inside (Pathlib.of_string "/genconf") installer_path ->
     forall self s',
       run = (Ok self, s') ->
       exists destination,
         In (EvCopyfile (Pathlib.to_string host_path) (Pathlib.to_string destination))
            (trace s') /\
         inside (Pathlib.div path "genconf") destination) /\
    (~ inside (Pathlib.of_string "/genconf") installer_path ->
     forall self s', run <> (Ok self, s')).

(** A caller whose file is meant for [/genconf/../../../etc/passwd]. *)
Definition climbing_caller : state :=
  mkState [OConfig [];
           OFiles [(Pathlib.of_string "/home/me/evil",
                    Pathlib.of_string "/genconf/../../../etc/passwd")]]
          [].

(** ** More worlds *)

(** How many identifiers were drawn so far. *)
Fixpoint identifiers_drawn (h : history) : nat :=
  match h with
  | [] => 0
  | EvUuid4 :: rest => S (identifiers_drawn rest)
  | _ :: rest => identifiers_drawn rest
  end.

(** A host on which everything works and on which the second identifier
    drawn differs from the first. *)
Definition two_clusters_world : World :=
  mkWorld
    (fun h => if Nat.eqb (identifiers_drawn h) 0 then "0b1f" else "77aa")
    (fun _ _ _ _ => None)
    (fun _ _ _ => None)
    (fun _ _ => None)
    (fun _ => inl "overlay")
    (fun _ => None)
    (fun _ _ => inl "172.17.0.2")
    (fun _ args _ _ =>
       Completed (mkCompletedProcess args 0 (Py.VBytes "") (Py.VBytes "")))
    (fun _ _ => None)
    (fun _ _ => true)
    (fun _ => mkPath "/" ["home"])
    (fun _ _ _ _ => None)
    (fun _ _ _ => None)
    (fun _ => "cluster_docker_credentials_enabled: true").

(** A failure of [make] that has nothing to do with container names. *)
Definition make_error : ProcessError :=
  mkProcessError 2 ["make"] (Py.VBytes "") (Py.VBytes "make: *** [all] Error 1").

(** A host on which [make] always fails in that way. *)
Definition broken_make_world : World :=
  mkWorld
    (fun _ => "0b1f")
    (fun _ _ _ _ => None)
    (fun _ _ _ => None)
    (fun _ _ => None)
    (fun _ => inl "overlay")
    (fun _ => None)
    (fun _ _ => inl "172.17.0.2")
    (fun _ _ _ _ => NonZeroExit make_error)
    (fun _ _ => None)
    (fun _ _ => true)
    (fun _ => mkPath "/" ["home"])
    (fun _ _ _ _ => None)
    (fun _ _ _ => None)
    (fun _ => "cluster_docker_credentials_enabled: true").

(** A node and a caller's store with a command and an environment. *)
Definition demo_node : Node :=
  mkNode (mkIPv4 172 17 0 2) (Pathlib.of_string "/tmp/w/include/ssh/id_rsa").

Definition shell_caller : state :=
  mkState [OList ["echo"; "$USER"]; ODict [("A", "1")]] [].

(** A caller with an empty extra configuration and a file for the
    installer, and one with an extra configuration and no file. *)
Definition empty_config_caller : state :=
  mkState [OConfig [];
           OFiles [(Pathlib.of_string "/home/me/license.txt",
                    Pathlib.of_string "/genconf/license.txt")]]
          [].

Definition empty_files_caller : state :=
  mkState [OConfig [("cluster_docker_credentials_enabled", YBool true)];
           OFiles []]
          [].

(** The construction of a cluster of one master and two public agents by
    a caller whose store holds the extra configuration at 0 and the files
    for the installer at 1, and the cluster object it returns. *)
Abbreviation demo_construction W s :=
  (DcosDocker.__init__ W 1 0 2 0
     (Pathlib.of_string "/home/me/dcos_generate_config.sh")
     (Pathlib.of_string "/home/me/dcos-docker")
     None false 1 (Pathlib.of_string "/tmp") s).

Definition demo_constructed : DcosDocker.DCOS_Docker :=
  DcosDocker.mkDCOS_Docker false (Pathlib.of_string "/tmp/dcos-docker-0b1f") 2.

(** [DCOS_Docker_Backend.__init__]: [tmp_dir_path] is [Path('/tmp')] when
    the caller gives none. *)
Definition DCOS_Docker_Backend__init__ (generate_config_path dcos_docker_path : Path)
    (tmp_dir_path : option Path) : DcosDocker.DCOS_Docker_Backend :=
  DcosDocker.mkDCOS_Docker_Backend generate_config_path dcos_docker_path
    (match tmp_dir_path with
     | Some p => p
     | None => Pathlib.of_string "/tmp"
     end).

(** The child processes run in a trace, each with its command line, its
    working directory and its logging flag. *)
Definition run_events (evs : list event) : list event :=
  filter (fun ev => match ev with EvRunSubprocess _ _ _ => true | _ => false end) evs.

(** The bytes or the text a stream of the failed process holds contain
    [needle]. *)
Definition carries (needle : string) (v : Py.value) : Prop :=
  match v with
  | Py.VNone => False
  | Py.VBytes b => is_substring needle b
  | Py.VStr t => is_substring needle t
  end.


(** * Properties *)

Unset Implicit Arguments.

(** ** The store *)

Lemma nth_error_at {A} (h t : list A) (x : A) :
  nth_error (h ++ x :: t) (List.length h) = Some x.
Proof. induction h; simpl; auto. Qed.

Lemma nth_error_snoc {A} (h : list A) (x : A) :
  nth_error (h ++ [x]) (List.length h) = Some x.
Proof. apply nth_error_at. Qed.

Lemma update_at {A} (h t : list A) (x y : A) :
  update (h ++ x :: t) (List.length h) y = h ++ y :: t.
Proof. induction h; simpl; auto. rewrite IHh; auto. Qed.

Lemma update_snoc {A} (h : list A) (x y : A) :
  update (h ++ [x]) (List.length h) y = h ++ [y].
Proof. apply update_at. Qed.

Lemma nth_error_old {A} (h new : list A) r o :
  nth_error h r = Some o -> nth_error (h ++ new) r = Some o.
Proof.
  intros H. rewrite nth_error_app1; auto. apply nth_error_Some. congruence.
Qed.

Lemma bind_ok {A B} (m : M A) (k : A -> M B) s a s' :
  m s = (Ok a, s') -> bind m k s = k a s'.
Proof. intros H. unfold bind. rewrite H. reflexivity. Qed.

Lemma nth_error_new {A} (h new : list A) i :
  nth_error (h ++ new) (List.length h + i) = nth_error new i.
Proof. induction h; simpl; auto. Qed.

Lemma update_new {A} (h new : list A) i x :
  update (h ++ new) (List.length h + i) x = h ++ update new i x.
Proof. induction h; simpl; auto. rewrite IHh. reflexivity. Qed.

Lemma alloc_new h new tr o :
  alloc o (mkState (h ++ new) tr)
  = (Ok (List.length h + List.length new), mkState (h ++ (new ++ [o])) tr).
Proof. unfold alloc. simpl. rewrite length_app, app_assoc. reflexivity. Qed.

Lemma load_new h new tr i o :
  nth_error new i = Some o ->
  load (List.length h + i) (mkState (h ++ new) tr) = (Ok o, mkState (h ++ new) tr).
Proof. intros H. unfold load. simpl. rewrite nth_error_new, H. reflexivity. Qed.

Lemma load_old h new tr r o :
  nth_error h r = Some o ->
  load r (mkState (h ++ new) tr) = (Ok o, mkState (h ++ new) tr).
Proof. intros H. unfold load. simpl. erewrite nth_error_old by eassumption. reflexivity. Qed.

Lemma store_new h new tr i o :
  store (List.length h + i) o (mkState (h ++ new) tr)
  = (Ok tt, mkState (h ++ update new i o) tr).
Proof. unfold store. simpl. rewrite update_new. reflexivity. Qed.

Lemma load_list_new h new tr i l :
  nth_error new i = Some (OList l) ->
  load_list (List.length h + i) (mkState (h ++ new) tr) = (Ok l, mkState (h ++ new) tr).
Proof. intros H. unfold load_list. erewrite bind_ok by (apply load_new; eassumption). reflexivity. Qed.

Lemma load_list_old h new tr r l :
  nth_error h r = Some (OList l) ->
  load_list r (mkState (h ++ new) tr) = (Ok l, mkState (h ++ new) tr).
Proof. intros H. unfold load_list. erewrite bind_ok by (apply load_old; eassumption). reflexivity. Qed.

Lemma load_dict_new h new tr i d :
  nth_error new i = Some (ODict d) ->
  load_dict (List.length h + i) (mkState (h ++ new) tr) = (Ok d, mkState (h ++ new) tr).
Proof. intros H. unfold load_dict. erewrite bind_ok by (apply load_new; eassumption). reflexivity. Qed.

Lemma load_dict_old h new tr r d :
  nth_error h r = Some (ODict d) ->
  load_dict r (mkState (h ++ new) tr) = (Ok d, mkState (h ++ new) tr).
Proof. intros H. unfold load_dict. erewrite bind_ok by (apply load_old; eassumption). reflexivity. Qed.

Lemma list_append_new h new tr i l x :
  nth_error new i = Some (OList l) ->
  list_append (List.length h + i) x (mkState (h ++ new) tr)
  = (Ok tt, mkState (h ++ update new i (OList (l ++ [x]))) tr).
Proof.
  intros H. unfold list_append.
  erewrite bind_ok by (apply load_list_new; eassumption). apply store_new.
Qed.

Lemma nth_error_update_eq {A} (l : list A) i x y :
  nth_error l i = Some y -> nth_error (update l i x) i = Some x.
Proof.
  revert i; induction l; intros [|i]; simpl; try discriminate; auto.
Qed.

Lemma update_update {A} (l : list A) i x y :
  update (update l i x) i y = update l i y.
Proof. revert i; induction l; intros [|i]; simpl; auto. rewrite IHl; auto. Qed.

(** The [for] loop of [compose_ssh_command] extends [command] in place. *)
Lemma export_loop_new items : forall h new tr i acc,
  nth_error new i = Some (OList acc) ->
  for_each items (fun kv =>
      let export := "export " +:+ fst kv +:+ "='" +:+ snd kv +:+ "'" in
      list_append (List.length h + i) export ;;
      list_append (List.length h + i) "&&") (mkState (h ++ new) tr)
  = (Ok tt, mkState (h ++ update new i (OList (acc ++ export_fragments items))) tr).
Proof.
  induction items as [|kv items IH]; intros h new tr i acc Hi.
  - simpl. unfold ret. rewrite app_nil_r.
    replace (update new i (OList acc)) with new; auto.
    clear - Hi. revert i Hi; induction new; intros [|i]; simpl; intros; try discriminate; try congruence.
    f_equal; auto.
  - simpl for_each. cbv zeta.
    pose proof (nth_error_update_eq new i (OList (acc ++ ["export " +:+ fst kv +:+ "='" +:+ snd kv +:+ "'"])) _ Hi) as Hi1.
    pose proof (nth_error_update_eq _ i (OList ((acc ++ ["export " +:+ fst kv +:+ "='" +:+ snd kv +:+ "'"]) ++ ["&&"])) _ Hi1) as Hi2.
    erewrite bind_ok;
      [ | erewrite bind_ok by (apply list_append_new; eassumption);
          apply list_append_new; eassumption ].
    rewrite (IH _ _ _ _ _ Hi2).
    rewrite !update_update. simpl. rewrite <- !app_assoc. reflexivity.
Qed.

Lemma ret_run {A} (a : A) s : ret a s = (Ok a, s).
Proof. reflexivity. Qed.

Lemma list_iadd_new_old h new tr i l r xs :
  nth_error new i = Some (OList l) ->
  nth_error h r = Some (OList xs) ->
  list_iadd (List.length h + i) r (mkState (h ++ new) tr)
  = (Ok tt, mkState (h ++ update new i (OList (l ++ xs))) tr).
Proof.
  intros Hi Hr. unfold list_iadd.
  erewrite bind_ok by (apply load_list_new; eassumption).
  erewrite bind_ok by (apply load_list_old; eassumption).
  apply store_new.
Qed.


(** ** [Node.compose_ssh_command] *)

Section Compose.
Import NodePy.

(** What follows the choice of the dict to copy: three objects are
    allocated, and nothing that existed before is written to. *)
Lemma compose_tail_run self args a h new tr chosen items :
  nth_error h args = Some (OList a) ->
  load_dict chosen (mkState (h ++ new) tr) = (Ok items, mkState (h ++ new) tr) ->
  (items0 <- load_dict chosen ;;
   env' <- alloc (ODict items0) ;;
   command <- alloc (OList []) ;;
   items' <- load_dict env' ;;
   for_each items' (fun kv =>
     let export := "export " +:+ fst kv +:+ "='" +:+ snd kv +:+ "'" in
     list_append command export ;;
     list_append command "&&") ;;
   list_iadd command args ;;
   tail <- load_list command ;;
   alloc (OList (ssh_head self ++ tail))) (mkState (h ++ new) tr)
  = (Ok (List.length h + (List.length new + 2)),
     mkState (h ++ (new ++ [ODict items; OList (export_fragments items ++ a);
                            OList (ssh_head self ++ export_fragments items ++ a)])) tr).
Proof.
  intros Ha Hc.
  erewrite bind_ok by exact Hc.
  rewrite (bind_ok _ _ _ _ _ (alloc_new _ _ _ _)).
  rewrite (bind_ok _ _ _ _ _ (alloc_new _ _ _ _)).
  assert (H1 : nth_error ((new ++ [ODict items]) ++ [OList []]) (List.length new)
               = Some (ODict items)).
  { rewrite <- app_assoc. apply nth_error_at. }
  assert (H2 : nth_error ((new ++ [ODict items]) ++ [OList []])
                         (List.length (new ++ [ODict items])) = Some (OList [])).
  { apply nth_error_snoc. }
  erewrite bind_ok by (apply load_dict_new; exact H1).
  erewrite bind_ok by (apply export_loop_new; exact H2).
  rewrite update_snoc. simpl app at 3.
  erewrite bind_ok by (apply list_iadd_new_old; [apply nth_error_snoc | exact Ha]).
  rewrite update_snoc.
  erewrite bind_ok by (apply load_list_new; apply nth_error_snoc).
  rewrite alloc_new. rewrite !length_app. simpl List.length.
  rewrite <- !app_assoc. simpl.
  do 2 f_equal. lia.
Qed.

Lemma compose_result_at self (h new0 : list obj) d a :
  nth_error (h ++ new0 ++ [ODict d; OList (export_fragments d ++ a);
               OList (ssh_head self ++ export_fragments d ++ a)])
            (List.length h + (List.length new0 + 2))
  = Some (OList (ssh_head self ++ export_fragments d ++ a)).
Proof. rewrite nth_error_new, nth_error_new. reflexivity. Qed.

(** The whole method, on a store [h ++ new] whose part [h] holds the
    arguments. *)
Lemma compose_ssh_command_gen self args env h new tr a d :
  nth_error h args = Some (OList a) ->
  env_items h env = Some d ->
  exists added r,
    compose_ssh_command self args env (mkState (h ++ new) tr)
      = (Ok r, mkState (h ++ new ++ added) tr) /\
    nth_error (h ++ new ++ added) r
      = Some (OList (ssh_head self ++ export_fragments d ++ a)) /\
    List.length h <= r.
Proof.
  intros Ha Hd. unfold compose_ssh_command.
  destruct env as [e|].
  - simpl in Hd. destruct (nth_error h e) as [[ | d' | | | ]|] eqn:He; try discriminate.
    injection Hd as ->.
    destruct d as [|kv d].
    + erewrite bind_ok;
        [ | erewrite bind_ok by (apply load_dict_old; eassumption);
            apply alloc_new ].
      exists ([ODict []] ++ [ODict []; OList (export_fragments [] ++ a);
                OList (ssh_head self ++ export_fragments [] ++ a)]).
      exists (List.length h + (List.length (new ++ [ODict []]) + 2)).
      split; [| split].
      * rewrite compose_tail_run with (a := a) (items := []);
          [ | exact Ha
            | apply (load_dict_new h (new ++ [ODict []]) tr (List.length new) []);
              apply nth_error_snoc ].
        rewrite <- app_assoc. reflexivity.
      * rewrite (app_assoc new). apply compose_result_at.
      * lia.
    + erewrite bind_ok;
        [ | erewrite bind_ok by (apply load_dict_old; eassumption);
            apply ret_run ].
      eexists. eexists. split; [| split].
      * apply compose_tail_run with (a := a) (items := kv :: d);
          [ exact Ha | apply load_dict_old; exact He ].
      * apply compose_result_at.
      * lia.
  - injection Hd as <-.
    rewrite (bind_ok _ _ _ _ _ (alloc_new _ _ _ _)).
    exists ([ODict []] ++ [ODict []; OList (export_fragments [] ++ a);
              OList (ssh_head self ++ export_fragments [] ++ a)]).
    exists (List.length h + (List.length (new ++ [ODict []]) + 2)).
    split; [| split].
    + rewrite compose_tail_run with (a := a) (items := []);
        [ | exact Ha
          | apply (load_dict_new h (new ++ [ODict []]) tr (List.length new) []);
            apply nth_error_snoc ].
      rewrite <- app_assoc. reflexivity.
    + rewrite (app_assoc new). apply compose_result_at.
    + lia.
Qed.

Lemma compose_ssh_command_run self args env s a d :
  nth_error (heap s) args = Some (OList a) ->
  env_items (heap s) env = Some d ->
  exists added r,
    compose_ssh_command self args env s
      = (Ok r, mkState (heap s ++ added) (trace s)) /\
    nth_error (heap s ++ added) r
      = Some (OList (ssh_head self ++ export_fragments d ++ a)) /\
    List.length (heap s) <= r.
Proof.
  intros Ha Hd. destruct s as [h tr]. simpl in *.
  destruct (compose_ssh_command_gen self args env h [] tr a d Ha Hd)
    as (added & r & Hrun & Hres & Hr).
  rewrite app_nil_r in Hrun. simpl in Hrun, Hres.
  exists added, r. auto.
Qed.

End Compose.

(** ** Calls to the outside leave the store alone *)

Section CallFacts.
Variable W : World.

Lemma ask_run {A} e (answer : history -> A) s :
  ask e answer s = (Ok (answer (trace s)), mkState (heap s) (trace s ++ [e])).
Proof. reflexivity. Qed.

Lemma run_subprocess_heap args cwd live s :
  heap (snd (run_subprocess W args cwd live s)) = heap s.
Proof.
  unfold run_subprocess, bind. rewrite ask_run.
  destruct (w_run_subprocess W (trace s) args cwd live); reflexivity.
Qed.

Lemma os_call_heap e answer s : heap (snd (os_call e answer s)) = heap s.
Proof.
  unfold os_call, bind. rewrite ask_run. destruct (answer (trace s)); reflexivity.
Qed.

End CallFacts.

Lemma preserved_app s added tr : preserved s (mkState (heap s ++ added) tr).
Proof. intros r o H. simpl. apply nth_error_old. exact H. Qed.

(** C3. The composed invocation is the [ssh] wrapper (quiet, host-key
    checking off, the node's key, user [root], public-key authentication
    only, the node's address), then one [export key='value'] fragment and
    one ['&&'] for each item of [env] in order, then [args] as given; the
    trace of outside calls is left as it was. *)
Theorem compose_ssh_command_shape :
  forall (self : Node) (args : loc) (env : option loc) (s : state)
         (a : list string) (d : list (string * string)),
    nth_error (heap s) args = Some (OList a) ->
    env_items (heap s) env = Some d ->
    exists r s',
      NodePy.compose_ssh_command self args env s = (Ok r, s') /\
      nth_error (heap s') r
        = Some (OList (["ssh"; "-q"; "-o"; "StrictHostKeyChecking=no";
                        "-i"; Pathlib.to_string (_ssh_key_path self);
                        "-l"; "root";
                        "-o"; "PreferredAuthentications=publickey";
                        IP.to_string (ip_address self)]
                       ++ export_fragments d ++ a)) /\
      trace s' = trace s.
Proof.
  intros self args env s a d Ha Hd.
  destruct (compose_ssh_command_run self args env s a d Ha Hd)
    as (added & r & Hrun & Hres & _).
  exists r, (mkState (heap s ++ added) (trace s)).
  repeat split; assumption.
Qed.

Lemma compose_ssh_command_shape_witness :
  exists r s',
    NodePy.compose_ssh_command
      (mkNode (mkIPv4 172 17 0 2) (Pathlib.of_string "/tmp/w/include/ssh/id_rsa"))
      0 (Some 1)
      (mkState [OList ["echo"; "$USER"]; ODict [("A", "1"); ("B", "x y")]] [])
    = (Ok r, s') /\
    nth_error (heap s') r
      = Some (OList ["ssh"; "-q"; "-o"; "StrictHostKeyChecking=no";
                     "-i"; "/tmp/w/include/ssh/id_rsa"; "-l"; "root";
                     "-o"; "PreferredAuthentications=publickey"; "172.17.0.2";
                     "export A='1'"; "&&"; "export B='x y'"; "&&";
                     "echo"; "$USER"]) /\
    trace s' = [].
Proof.
  apply (compose_ssh_command_shape
           (mkNode (mkIPv4 172 17 0 2) (Pathlib.of_string "/tmp/w/include/ssh/id_rsa"))
           0 (Some 1)
           (mkState [OList ["echo"; "$USER"]; ODict [("A", "1"); ("B", "x y")]] [])
           ["echo"; "$USER"] [("A", "1"); ("B", "x y")]);
    reflexivity.
Defined.

(** ** The arguments of [compose_ssh_command] after the call *)

Section ComposeFrame.
Import NodePy.
Variable W : World.

Lemma run_as_root_preserved self args live env s a d :
  nth_error (heap s) args = Some (OList a) ->
  env_items (heap s) env = Some d ->
  preserved s (snd (run_as_root W self args live env s)).
Proof.
  intros Ha Hd.
  destruct (compose_ssh_command_run self args env s a d Ha Hd)
    as (added & r & Hrun & Hres & _).
  unfold run_as_root.
  erewrite bind_ok by exact Hrun.
  assert (Hl : load_list r (mkState (heap s ++ added) (trace s))
               = (Ok (ssh_head self ++ export_fragments d ++ a),
                  mkState (heap s ++ added) (trace s))).
  { unfold load_list, load. unfold bind. simpl. rewrite Hres. reflexivity. }
  erewrite bind_ok by exact Hl.
  intros r0 o H0. rewrite run_subprocess_heap. simpl.
  apply nth_error_old. exact H0.
Qed.

Lemma popen_as_root_preserved self args env s a d :
  nth_error (heap s) args = Some (OList a) ->
  env_items (heap s) env = Some d ->
  preserved s (snd (popen_as_root W self args env s)).
Proof.
  intros Ha Hd.
  destruct (compose_ssh_command_run self args env s a d Ha Hd)
    as (added & r & Hrun & Hres & _).
  unfold popen_as_root.
  erewrite bind_ok by exact Hrun.
  assert (Hl : load_list r (mkState (heap s ++ added) (trace s))
               = (Ok (ssh_head self ++ export_fragments d ++ a),
                  mkState (heap s ++ added) (trace s))).
  { unfold load_list, load. unfold bind. simpl. rewrite Hres. reflexivity. }
  erewrite bind_ok by exact Hl.
  intros r0 o H0.
  unfold popen, bind at 1.
  pose proof (os_call_heap
                (EvPopen (ssh_head self ++ export_fragments d ++ a))
                (fun h => w_popen W h (ssh_head self ++ export_fragments d ++ a))
                (mkState (heap s ++ added) (trace s))) as Hh.
  destruct (os_call _ _ _) as [[u|e|] s1]; simpl in *; rewrite Hh;
    apply nth_error_old; exact H0.
Qed.

(** With an empty dict the method takes the very steps it takes with
    [None]. *)
Lemma compose_empty_env self args e s :
  nth_error (heap s) e = Some (ODict []) ->
  compose_ssh_command self args (Some e) s = compose_ssh_command self args None s.
Proof.
  intros He. unfold compose_ssh_command.
  assert (Hl : load_dict e s = (Ok [], s)).
  { unfold load_dict, load, bind. rewrite He. reflexivity. }
  unfold bind at 1. unfold bind at 1. rewrite Hl.
  unfold bind at 3. reflexivity.
Qed.

End ComposeFrame.

(** C10. [compose_ssh_command], [run_as_root] and [popen_as_root] leave
    every object that existed before the call as it was, the [args] list
    and the [env] dict among them; and an absent [env] gives the same
    invocation as an empty one. *)
Theorem compose_ssh_command_frame :
  forall (W : World) (self : Node) (args : loc) (env : option loc)
         (live : bool) (s : state) (a : list string) (d : list (string * string)),
    nth_error (heap s) args = Some (OList a) ->
    env_items (heap s) env = Some d ->
    (preserved s (snd (NodePy.compose_ssh_command self args env s)) /\
     preserved s (snd (NodePy.run_as_root W self args live env s)) /\
     preserved s (snd (NodePy.popen_as_root W self args env s))) /\
    (nth_error (heap (snd (NodePy.compose_ssh_command self args env s))) args
       = Some (OList a) /\
     env_items (heap (snd (NodePy.compose_ssh_command self args env s))) env
       = Some d) /\
    (d = [] ->
     NodePy.compose_ssh_command self args env s
     = NodePy.compose_ssh_command self args None s).
Proof.
  intros W self args env live s a d Ha Hd.
  assert (Hp : preserved s (snd (NodePy.compose_ssh_command self args env s))).
  { destruct (compose_ssh_command_run self args env s a d Ha Hd)
      as (added & r & Hrun & _ & _).
    rewrite Hrun. apply preserved_app. }
  split; [| split].
  - split; [exact Hp | split].
    + eapply run_as_root_preserved; eassumption.
    + eapply popen_as_root_preserved; eassumption.
  - split.
    + apply Hp. exact Ha.
    + destruct env as [e|]; [| exact Hd].
      simpl in *. destruct (nth_error (heap s) e) as [o|] eqn:He; [| discriminate].
      rewrite (Hp e o He). exact Hd.
  - intros ->. destruct env as [e|]; [| reflexivity].
    apply compose_empty_env.
    simpl in Hd. destruct (nth_error (heap s) e) as [[ | d' | | | ]|]; try discriminate.
    congruence.
Qed.

Lemma compose_ssh_command_frame_witness :
  let W := mkWorld (fun _ => "") (fun _ _ _ _ => None) (fun _ _ _ => None)
                   (fun _ _ => None) (fun _ => inl "aufs") (fun _ => None)
                   (fun _ _ => inl "")
                   (fun _ argv _ _ =>
                      Completed (mkCompletedProcess argv 0 (Py.VBytes "") (Py.VBytes "")))
                   (fun _ _ => None) (fun _ _ => true)
                   (fun _ => mkPath "/" []) (fun _ _ _ _ => None)
                   (fun _ _ _ => None) (fun _ => "") in
  let self := mkNode (mkIPv4 10 0 0 1) (Pathlib.of_string "/k") in
  let s := mkState [OList ["ls"]; ODict [("A", "1")]] [] in
  nth_error (heap (snd (NodePy.compose_ssh_command self 0 (Some 1) s))) 0
    = Some (OList ["ls"]) /\
  env_items (heap (snd (NodePy.compose_ssh_command self 0 (Some 1) s))) (Some 1)
    = Some [("A", "1")].
Proof.
  intros W self s.
  apply (compose_ssh_command_frame W self 0 (Some 1) false s ["ls"] [("A", "1")]);
    reflexivity.
Defined.

(** ** [Node.scp] and [Node.scp2] *)

(** C4. Neither transfer method ever reaches its transfer: with the source
    file missing the [assert] fails, and with the source file present the
    first read of the unbound name [node] raises [NameError]. The only
    call made outside is the test that the source exists: no copy process
    is run, no session is opened and no file is sent. *)
Theorem scp_raises_before_transfer :
  forall (W : World) (self : Node) (source dest : Path) (user : string) (s : state),
    (NodePy.scp W self source dest s
     = (Raise (if w_exists W (trace s) source
               then NameError "node" else AssertionError),
        mkState (heap s) (trace s ++ [EvExists source]))) /\
    (NodePy.scp2 W self source dest user s
     = (Raise (if w_exists W (trace s) source
               then NameError "node" else AssertionError),
        mkState (heap s) (trace s ++ [EvExists source]))).
Proof.
  intros W self source dest user s. split.
  - unfold NodePy.scp, path_exists. unfold bind at 1. rewrite ask_run.
    destruct (w_exists W (trace s) source); reflexivity.
  - unfold NodePy.scp2, path_exists. unfold bind at 1. rewrite ask_run.
    destruct (w_exists W (trace s) source); reflexivity.
Qed.

(** ** Substrings *)

Lemma prefix_spec needle : forall hay,
  String.prefix needle hay = true <-> exists post, hay = needle +:+ post.
Proof.
  induction needle as [|a needle IH]; intros hay.
  - split; [intros _; exists hay; reflexivity | intros _; destruct hay; reflexivity].
  - destruct hay as [|b hay]; simpl.
    + split; [discriminate | intros [post H]; discriminate].
    + destruct (ascii_dec a b) as [->|Hne].
      * rewrite IH. split; intros [post H]; exists post.
        -- rewrite H. reflexivity.
        -- injection H as H. exact H.
      * split; [discriminate | intros [post H]; simpl in H; congruence].
Qed.

Lemma contains_unfold needle hay :
  Str.contains needle hay
  = if String.prefix needle hay then true
    else match hay with
         | EmptyString => false
         | String _ rest => Str.contains needle rest
         end.
Proof. destruct hay; reflexivity. Qed.

Lemma contains_spec needle : forall hay,
  Str.contains needle hay = true <-> is_substring needle hay.
Proof.
  induction hay as [|c hay IH]; rewrite contains_unfold.
  - destruct (String.prefix needle "") eqn:Hp.
    + split; [intros _ | reflexivity].
      apply prefix_spec in Hp. destruct Hp as [post Hp].
      exists "", post. exact Hp.
    + split; [discriminate |].
      intros (pre & post & H).
      destruct pre; simpl in H; [| discriminate].
      assert (String.prefix needle "" = true) by (apply prefix_spec; exists post; exact H).
      congruence.
  - destruct (String.prefix needle (String c hay)) eqn:Hp.
    + split; [intros _ | reflexivity].
      apply prefix_spec in Hp. destruct Hp as [post Hp].
      exists "", post. exact Hp.
    + rewrite IH. split.
      * intros (pre & post & H). exists (String c pre), post. simpl. rewrite H. reflexivity.
      * intros (pre & post & H). destruct pre as [|c' pre]; simpl in H.
        -- assert (String.prefix needle (String c hay) = true)
             by (apply prefix_spec; exists post; exact H).
           congruence.
        -- injection H as _ H. exists pre, post. exact H.
Qed.

(** ** [_make] and [_create_containers] *)

Definition conflictb (e : ProcessError) : bool :=
  Str.contains DcosDocker.conflict_error_substring (failure_text e)
  || Str.contains DcosDocker.other_conflict_error_substring (failure_text e).

Lemma conflictb_spec e : conflictb e = true <-> has_conflict_signature e.
Proof.
  unfold conflictb, has_conflict_signature.
  rewrite orb_true_iff, !contains_spec. reflexivity.
Qed.

Lemma conflictb_false e : conflictb e = false <-> ~ has_conflict_signature e.
Proof.
  rewrite <- conflictb_spec. destruct (conflictb e); split; congruence.
Qed.

Section Lifecycle.
Import DcosDocker.
Variable W : World.
Variable self : DCOS_Docker.
Variable variables : list (string * string).

Lemma _make_run target s :
  nth_error (heap s) (_variables self) = Some (ODict variables) ->
  _make W self target s
  = (match make_outcome W self variables target (trace s) with
     | Completed _ => Ok tt
     | NonZeroExit e => Raise (CalledProcessError e)
     | NotStarted msg => Raise (OSError msg)
     end,
     add_events s [make_event self variables target]).
Proof.
  intros Hv. unfold _make.
  assert (Hl : load_dict (_variables self) s = (Ok variables, s)).
  { unfold load_dict, load, bind. rewrite Hv. reflexivity. }
  erewrite bind_ok by exact Hl.
  unfold run_subprocess, bind, make_outcome, make_args. rewrite ask_run.
  destruct (w_run_subprocess W (trace s) _ _ _); reflexivity.
Qed.

Lemma _create_containers_once_run s :
  nth_error (heap s) (_variables self) = Some (ODict variables) ->
  _create_containers_once W self s
  = match make_outcome W self variables "all" (trace s) with
    | Completed _ => (Ok tt, add_events s [make_event self variables "all"])
    | NonZeroExit e =>
        if conflictb e
        then (Raise ConflictingContainerError,
              add_events s [make_event self variables "all";
                            EvPrint (Py.str (pe_stderr e))])
        else (Raise (CalledProcessError e),
              add_events s [make_event self variables "all"])
    | NotStarted msg =>
        (Raise (OSError msg), add_events s [make_event self variables "all"])
    end.
Proof.
  intros Hv. unfold _create_containers_once, try_except.
  rewrite (_make_run "all" s Hv).
  destruct (make_outcome W self variables "all" (trace s)) as [p|e|msg];
    try reflexivity.
  fold (failure_text e). fold (conflictb e).
  destruct (conflictb e); [| reflexivity].
  unfold bind, print, emit, raise, add_events. simpl.
  rewrite <- app_assoc. reflexivity.
Qed.

(** One round of the retry loop. *)
Lemma create_with_tries_step n s :
  nth_error (heap s) (_variables self) = Some (ODict variables) ->
  create_with_tries W self (S n) s
  = match make_outcome W self variables "all" (trace s) with
    | Completed _ => (Ok tt, add_events s [make_event self variables "all"])
    | NonZeroExit e =>
        if conflictb e
        then match n with
             | O => (Raise ConflictingContainerError,
                     add_events s [make_event self variables "all";
                                   EvPrint (Py.str (pe_stderr e))])
             | S _ => create_with_tries W self n
                        (add_events s [make_event self variables "all";
                                       EvPrint (Py.str (pe_stderr e));
                                       EvLogWarning retry_warning;
                                       EvSleep 10])
             end
        else (Raise (CalledProcessError e),
              add_events s [make_event self variables "all"])
    | NotStarted msg =>
        (Raise (OSError msg), add_events s [make_event self variables "all"])
    end.
Proof.
  intros Hv. unfold create_with_tries.
  cbn [retry].
  replace (Z.eqb (Z.of_nat (S n)) 0) with false
    by (symmetry; apply Z.eqb_neq; lia).
  unfold try_except. rewrite (_create_containers_once_run s Hv).
  destruct (make_outcome W self variables "all" (trace s)) as [p|e|msg];
    try reflexivity.
  destruct (conflictb e); [| reflexivity].
  cbn [is_ConflictingContainerError].
  replace (Z.of_nat (S n) - 1)%Z with (Z.of_nat n) by lia.
  destruct n as [|n].
  - reflexivity.
  - replace (Z.eqb (Z.of_nat (S n)) 0) with false
      by (symmetry; apply Z.eqb_neq; lia).
    unfold bind, sleep, log_warning, emit, add_events. cbn [heap trace].
    rewrite <- !app_assoc. reflexivity.
Qed.

End Lifecycle.

Lemma subprocess_runs_app evs1 evs2 :
  subprocess_runs (evs1 ++ evs2) = subprocess_runs evs1 ++ subprocess_runs evs2.
Proof.
  induction evs1 as [|e evs1 IH]; [reflexivity |].
  destruct e; simpl; rewrite IH; reflexivity.
Qed.

Lemma sleeps_app evs1 evs2 : sleeps (evs1 ++ evs2) = sleeps evs1 ++ sleeps evs2.
Proof.
  induction evs1 as [|e evs1 IH]; [reflexivity |].
  destruct e; simpl; rewrite IH; reflexivity.
Qed.

Lemma add_events_add_events s evs1 evs2 :
  add_events (add_events s evs1) evs2 = add_events s (evs1 ++ evs2).
Proof. unfold add_events. simpl. rewrite app_assoc. reflexivity. Qed.

Section RetryBounds.
Import DcosDocker.
Variable W : World.
Variable self : DCOS_Docker.
Variable variables : list (string * string).

(** The loop ends within its tries: it makes between one and [n] attempts,
    all with the same command line, and sleeps ten units between two
    attempts. *)
Lemma create_with_tries_total n : forall s,
  nth_error (heap s) (_variables self) = Some (ODict variables) ->
  exists evs k,
    snd (create_with_tries W self (S n) s) = add_events s evs /\
    fst (create_with_tries W self (S n) s) <> Diverge /\
    k <= n /\
    subprocess_runs evs = repeat (make_args variables "all") (S k) /\
    sleeps evs = repeat 10%Z k.
Proof.
  induction n as [|n IH]; intros s Hv; rewrite (create_with_tries_step W self variables _ s Hv).
  - destruct (make_outcome W self variables "all" (trace s)) as [p|e|msg].
    + eexists _, 0. repeat split; try reflexivity; try discriminate; try lia.
    + destruct (conflictb e).
      * eexists _, 0. repeat split; try reflexivity; try discriminate; try lia.
      * eexists _, 0. repeat split; try reflexivity; try discriminate; try lia.
    + eexists _, 0. repeat split; try reflexivity; try discriminate; try lia.
  - destruct (make_outcome W self variables "all" (trace s)) as [p|e|msg].
    + eexists _, 0. repeat split; try reflexivity; try discriminate; try lia.
    + destruct (conflictb e).
      * destruct (IH (add_events s [make_event self variables "all";
                                    EvPrint (Py.str (pe_stderr e)); EvLogWarning retry_warning; EvSleep 10]) Hv)
          as (evs & k & Hs & Hd & Hk & Hr & Hsl).
        exists ([make_event self variables "all";
                 EvPrint (Py.str (pe_stderr e)); EvLogWarning retry_warning; EvSleep 10] ++ evs), (S k).
        rewrite Hs, add_events_add_events.
        repeat split; try assumption; try lia.
        -- rewrite subprocess_runs_app, Hr. reflexivity.
        -- rewrite sleeps_app, Hsl. reflexivity.
      * eexists _, 0. repeat split; try reflexivity; try discriminate; try lia.
    + eexists _, 0. repeat split; try reflexivity; try discriminate; try lia.
Qed.

(** When every attempt meets a name conflict, all the tries are used and
    the last conflict is raised. *)
Lemma create_with_tries_exhausted n : forall s,
  nth_error (heap s) (_variables self) = Some (ODict variables) ->
  (forall h, exists e, make_outcome W self variables "all" h = NonZeroExit e /\
                       has_conflict_signature e) ->
  exists evs,
    create_with_tries W self (S n) s
    = (Raise ConflictingContainerError, add_events s evs) /\
    subprocess_runs evs = repeat (make_args variables "all") (S n) /\
    sleeps evs = repeat 10%Z n.
Proof.
  induction n as [|n IH]; intros s Hv Hall;
    rewrite (create_with_tries_step W self variables _ s Hv);
    destruct (Hall (trace s)) as (e & -> & Hc);
    apply conflictb_spec in Hc; rewrite Hc.
  - eexists. repeat split.
  - destruct (IH (add_events s [make_event self variables "all";
                                EvPrint (Py.str (pe_stderr e)); EvLogWarning retry_warning; EvSleep 10]) Hv Hall)
      as (evs & Hrun & Hr & Hsl).
    exists ([make_event self variables "all";
             EvPrint (Py.str (pe_stderr e)); EvLogWarning retry_warning; EvSleep 10] ++ evs).
    rewrite Hrun, add_events_add_events.
    repeat split.
    + rewrite subprocess_runs_app, Hr. reflexivity.
    + rewrite sleeps_app, Hsl. reflexivity.
Qed.

End RetryBounds.

(** C2. A failed create attempt is tried again exactly when the error text
    followed by the output text of the failure holds one of the two
    name-conflict signatures and a try is left; the wait before the next
    attempt is 10; a failure without a signature is raised again as it is,
    with no further attempt. The method starts with 30 tries, always ends,
    after at most 30 attempts, and when every attempt meets a conflict it
    makes 30 attempts with 29 waits of 10 and raises the last conflict. *)
Theorem create_containers_retry_policy :
  forall (W : World) (self : DcosDocker.DCOS_Docker)
         (variables : list (string * string)) (s : state)
         (e : ProcessError) (n : nat),
    nth_error (heap s) (DcosDocker._variables self) = Some (ODict variables) ->
    make_outcome W self variables "all" (trace s) = NonZeroExit e ->
    DcosDocker._create_containers W self = create_with_tries W self 30 /\
    (has_conflict_signature e ->
     create_with_tries W self (S n) s
     = match n with
       | O => (Raise ConflictingContainerError,
               add_events s [make_event self variables "all";
                             EvPrint (Py.str (pe_stderr e))])
       | S _ => create_with_tries W self n
                  (add_events s [make_event self variables "all";
                                 EvPrint (Py.str (pe_stderr e));
                                 EvLogWarning retry_warning;
                                 EvSleep 10])
       end) /\
    (~ has_conflict_signature e ->
     create_with_tries W self (S n) s
     = (Raise (CalledProcessError e),
        add_events s [make_event self variables "all"])) /\
    (exists evs k,
       snd (DcosDocker._create_containers W self s) = add_events s evs /\
       fst (DcosDocker._create_containers W self s) <> Diverge /\
       k < 30 /\
       subprocess_runs evs = repeat (make_args variables "all") (S k) /\
       sleeps evs = repeat 10%Z k) /\
    ((forall h, exists e', make_outcome W self variables "all" h = NonZeroExit e' /\
                           has_conflict_signature e') ->
     exists evs,
       DcosDocker._create_containers W self s
       = (Raise ConflictingContainerError, add_events s evs) /\
       subprocess_runs evs = repeat (make_args variables "all") 30 /\
       sleeps evs = repeat 10%Z 29).
Proof.
  intros W self variables s e n Hv Hout.
  split; [reflexivity |].
  split; [| split; [| split]].
  - intros Hc. rewrite (create_with_tries_step W self variables n s Hv), Hout.
    apply conflictb_spec in Hc. rewrite Hc. reflexivity.
  - intros Hc. rewrite (create_with_tries_step W self variables n s Hv), Hout.
    apply conflictb_false in Hc. rewrite Hc. reflexivity.
  - destruct (create_with_tries_total W self variables 29 s Hv)
      as (evs & k & H1 & H2 & H3 & H4 & H5).
    exists evs, k. repeat split; try assumption. lia.
  - intros Hall. apply (create_with_tries_exhausted W self variables 29 s Hv Hall).
Qed.

Lemma create_containers_retry_policy_witness :
  create_with_tries (Demo.world 30 0) Demo.cluster 2 Demo.created
  = create_with_tries (Demo.world 30 0) Demo.cluster 1
      (add_events Demo.created
         [make_event Demo.cluster Demo.parameters "all";
          EvPrint (Py.str (pe_stderr Demo.conflict_error));
          EvLogWarning retry_warning;
          EvSleep 10]).
Proof.
  apply (create_containers_retry_policy (Demo.world 30 0) Demo.cluster
           Demo.parameters Demo.created Demo.conflict_error 1
           eq_refl eq_refl).
  apply conflictb_spec. vm_compute. reflexivity.
Defined.

(** ** [_nodes] *)

Section Nodes.
Import DcosDocker.
Variable W : World.
Variable self : DCOS_Docker.

Lemma node_key_eq :
  Pathlib.div (Pathlib.div (Pathlib.div (_path self) "include") "ssh") "id_rsa"
  = node_key self.
Proof.
  unfold node_key, Pathlib.div, Pathlib.joinpath. simpl.
  rewrite <- !app_assoc. reflexivity.
Qed.

Lemma set_add_fresh (node : loc) (nodes : list loc) :
  (forall r, In r nodes -> r < node) -> set_add node nodes = nodes ++ [node].
Proof.
  intros H. unfold set_add.
  destruct (existsb (Nat.eqb node) nodes) eqn:He; [| reflexivity].
  apply existsb_exists in He. destruct He as (r & Hin & Heq).
  apply Nat.eqb_eq in Heq. subst r. apply H in Hin. lia.
Qed.

Lemma inspect_all_length base k : forall i h,
  List.length (fst (inspect_all W base k i h)) <= k /\
  (snd (inspect_all W base k i h) = None ->
   List.length (fst (inspect_all W base k i h)) = k).
Proof.
  induction k as [|k IH]; intros i h; simpl.
  - split; auto.
  - destruct (w_container_ip W h _) as [ip|msg]; simpl; [| split; [lia | discriminate]].
    destruct (IPv4Address ip) as [a|]; simpl; [| split; [lia | discriminate]].
    specialize (IH (S i) (h ++ [EvContainersGet (base +:+ Str.of_Z (Z.of_nat i))])).
    destruct (inspect_all W base k (S i) _) as [found stopped]. simpl in *.
    destruct IH as [IH1 IH2]. split; [lia | intros H; rewrite IH2 by exact H; reflexivity].
Qed.

Lemma _nodes_loop_unfold fuel base num_nodes (nodes : list loc) :
  _nodes_loop fuel W self base num_nodes nodes
  = if Z.ltb (Z.of_nat (List.length nodes)) num_nodes then
      match fuel with
      | O => fun s => (Diverge, s)
      | S fuel' =>
          let container_name :=
            base +:+ Str.of_Z (Z.of_nat (List.length nodes) + 1) in
          ip_address <- containers_get_ip W container_name ;;
          ip <- match IPv4Address ip_address with
                | Some ip => ret ip
                | None => raise (AddressValueError ip_address)
                end ;;
          let key := Pathlib.div (Pathlib.div (Pathlib.div (_path self) "include")
                                              "ssh") "id_rsa" in
          node <- alloc (ONode (mkNode ip key)) ;;
          _nodes_loop fuel' W self base num_nodes (set_add node nodes)
      end
    else ret nodes.
Proof. destruct fuel; reflexivity. Qed.

(** The loop, with [k] rounds to go, against the one-by-one inspection. *)
Lemma _nodes_loop_run base num_nodes k : forall fuel (nodes : list loc) s,
  k <= fuel ->
  (Z.of_nat (List.length nodes) + Z.of_nat k)%Z = Z.max num_nodes (Z.of_nat (List.length nodes)) ->
  (forall r, In r nodes -> r < List.length (heap s)) ->
  _nodes_loop fuel W self base num_nodes nodes s
  = let (found, stopped) :=
      inspect_all W base k (S (List.length nodes)) (trace s) in
    (match stopped with
     | None => Ok (nodes ++ seq (List.length (heap s)) k)
     | Some e => Raise e
     end,
     mkState (heap s ++ node_objects self found)
             (trace s ++ query_events base (S (List.length nodes))
                          (match stopped with
                           | None => List.length found
                           | Some _ => S (List.length found)
                           end))).
Proof.
  induction k as [|k IH]; intros fuel nodes s Hfuel Hk Hfresh.
  - assert (Hlt : Z.ltb (Z.of_nat (List.length nodes)) num_nodes = false)
      by (apply Z.ltb_ge; lia).
    rewrite _nodes_loop_unfold, Hlt. cbn [inspect_all]. unfold ret.
    cbn [node_objects map query_events seq].
    rewrite !app_nil_r. destruct s; reflexivity.
  - assert (Hlt : Z.ltb (Z.of_nat (List.length nodes)) num_nodes = true)
      by (apply Z.ltb_lt; lia).
    destruct fuel as [|fuel]; [lia |].
    rewrite _nodes_loop_unfold, Hlt. cbn [inspect_all]. cbv zeta.
    replace (Z.of_nat (List.length nodes) + 1)%Z
      with (Z.of_nat (S (List.length nodes))) by lia.
    unfold containers_get_ip. unfold bind at 1. unfold bind at 1. rewrite ask_run.
    destruct (w_container_ip W (trace s) _) as [ip|msg].
    + cbn [ret]. destruct (IPv4Address ip) as [a|].
      * unfold bind at 1. cbn [ret].
        unfold bind at 1. unfold alloc at 1. cbn [heap trace].
        rewrite node_key_eq.
        rewrite set_add_fresh by exact Hfresh.
        rewrite IH.
        -- cbn [heap trace]. rewrite !length_app. cbn [List.length].
           replace (List.length nodes + 1) with (S (List.length nodes)) by lia.
           destruct (inspect_all W base k (S (S (List.length nodes))) _)
             as [found stopped].
           replace (List.length (heap s) + 1) with (S (List.length (heap s))) by lia.
           unfold query_events, node_objects.
           destruct stopped; cbn [List.length seq map];
             rewrite <- !app_assoc; reflexivity.
        -- lia.
        -- rewrite length_app. cbn [List.length]. lia.
        -- intros r Hin. cbn [heap]. rewrite length_app. cbn [List.length].
           apply in_app_or in Hin. destruct Hin as [Hin|[<-|[]]].
           ++ apply Hfresh in Hin. lia.
           ++ lia.
      * unfold bind, raise. cbn. rewrite app_nil_r. reflexivity.
    + cbn. rewrite app_nil_r. reflexivity.
Qed.

End Nodes.

(** ** [str] and [int] on integers *)

Lemma to_Z_of_Z n : Str.to_Z (Str.of_Z n) = Some n.
Proof.
  unfold Str.to_Z, Str.of_Z.
  rewrite NilZero.isi.
  - simpl. rewrite DecimalZ.of_to. reflexivity.
  - destruct n; simpl; try discriminate.
    intros H. injection H as H. apply (DecimalPos.Unsigned.to_uint_nonnil p H).
  - destruct n; simpl; try discriminate.
    intros H. injection H as H. apply (DecimalPos.Unsigned.to_uint_nonnil p H).
Qed.

(** ** The role accessors *)

Section Roles.
Import DcosDocker.
Variable W : World.
Variable self : DCOS_Docker.
Variable variables : list (string * string).

Lemma dict_getitem_run s key v :
  nth_error (heap s) (_variables self) = Some (ODict variables) ->
  Py.dict_get String.eqb key variables = Some v ->
  dict_getitem (_variables self) key s = (Ok v, s).
Proof.
  intros Hv Hk. unfold dict_getitem.
  assert (Hl : load_dict (_variables self) s = (Ok variables, s)).
  { unfold load_dict, load, bind. rewrite Hv. reflexivity. }
  erewrite bind_ok by exact Hl. rewrite Hk. reflexivity.
Qed.

Lemma docker_from_env_run s :
  docker_from_env W s
  = (match w_docker_from_env W (trace s) with
     | None => Ok tt
     | Some msg => Raise (DockerException msg)
     end, add_events s [EvDockerFromEnv]).
Proof.
  unfold docker_from_env, bind. rewrite ask_run.
  destruct (w_docker_from_env W (trace s)); reflexivity.
Qed.

Lemma _nodes_run fuel base num_nodes s :
  Z.to_nat num_nodes <= fuel ->
  _nodes fuel W self base num_nodes s
  = match w_docker_from_env W (trace s) with
    | Some msg => (Raise (DockerException msg), add_events s [EvDockerFromEnv])
    | None =>
        let (found, stopped) :=
          inspect_all W base (Z.to_nat num_nodes) 1 (trace s ++ [EvDockerFromEnv]) in
        (match stopped with
         | None => Ok (seq (List.length (heap s)) (Z.to_nat num_nodes))
         | Some e => Raise e
         end,
         mkState (heap s ++ node_objects self found)
                 (trace s ++ [EvDockerFromEnv]
                          ++ query_events base 1
                               (match stopped with
                                | None => List.length found
                                | Some _ => S (List.length found)
                                end)))
    end.
Proof.
  intros Hfuel. unfold _nodes. unfold bind at 1. rewrite docker_from_env_run.
  destruct (w_docker_from_env W (trace s)) as [msg|]; [reflexivity |].
  rewrite (_nodes_loop_run W self base num_nodes (Z.to_nat num_nodes) fuel []
             (add_events s [EvDockerFromEnv]) Hfuel).
  - unfold add_events. cbn [heap trace List.length].
    destruct (inspect_all W base (Z.to_nat num_nodes) 1 (trace s ++ [EvDockerFromEnv]))
      as [found stopped].
    rewrite <- app_assoc. reflexivity.
  - simpl List.length. lia.
  - intros r [].
Qed.

Lemma role_nodes_run fuel ctr_key count_key base num_nodes s :
  nth_error (heap s) (_variables self) = Some (ODict variables) ->
  Py.dict_get String.eqb ctr_key variables = Some base ->
  Py.dict_get String.eqb count_key variables = Some (Str.of_Z num_nodes) ->
  role_nodes fuel W self ctr_key count_key s
  = _nodes fuel W self base num_nodes s.
Proof.
  intros Hv Hb Hc. unfold role_nodes.
  erewrite bind_ok by (apply dict_getitem_run; eassumption).
  erewrite bind_ok by (apply dict_getitem_run; eassumption).
  unfold int. rewrite to_Z_of_Z. reflexivity.
Qed.

End Roles.

(** C1 (as the code has it). A role accessor makes its client of the
    runtime and then asks the runtime once for each
    of the containers P1, ..., PN, in this order. When every one is found
    with a valid address it returns N new, pairwise different [Node]
    objects, the i-th holding the address inspected for Pi and the key
    [<working directory>/include/ssh/id_rsa]; the addresses are those the
    runtime reported, so they are pairwise distinct exactly when the
    reported ones are. When a container is missing or has no valid address
    the accessor raises at that query, without waiting and without asking
    again, and returns no set at all; when the client cannot be made it
    raises before any query. *)
Theorem role_accessor_resolution :
  forall (W : World) (self : DcosDocker.DCOS_Docker)
         (variables : list (string * string)) (s : state)
         (ctr_key count_key base : string) (num_nodes : Z) (fuel : nat),
    nth_error (heap s) (DcosDocker._variables self) = Some (ODict variables) ->
    Py.dict_get String.eqb ctr_key variables = Some base ->
    Py.dict_get String.eqb count_key variables = Some (Str.of_Z num_nodes) ->
    Z.to_nat num_nodes <= fuel ->
    let r := DcosDocker.role_nodes fuel W self ctr_key count_key s in
    match w_docker_from_env W (trace s) with
    | Some msg =>
        fst r = Raise (DockerException msg) /\
        trace (snd r) = trace s ++ [EvDockerFromEnv]
    | None =>
        let connected := trace s ++ [EvDockerFromEnv] in
        let found := fst (inspect_all W base (Z.to_nat num_nodes) 1 connected) in
        let stopped := snd (inspect_all W base (Z.to_nat num_nodes) 1 connected) in
        match stopped with
        | Some e =>
            fst r = Raise e /\
            trace (snd r) = connected ++ query_events base 1 (S (List.length found))
        | None =>
            exists nodes,
              fst r = Ok nodes /\
              NoDup nodes /\
              List.length nodes = Z.to_nat num_nodes /\
              List.length found = Z.to_nat num_nodes /\
              map (nth_error (heap (snd r))) nodes
              = map (fun a => Some (ONode (mkNode a (node_key self)))) found /\
              trace (snd r) = connected ++ query_events base 1 (Z.to_nat num_nodes)
        end
    end.
Proof.
  intros W self variables s ctr_key count_key base num_nodes fuel Hv Hb Hc Hfuel.
  cbv zeta.
  rewrite (role_nodes_run W self variables fuel ctr_key count_key base num_nodes s Hv Hb Hc).
  rewrite (_nodes_run W self fuel base num_nodes s Hfuel).
  destruct (w_docker_from_env W (trace s)) as [msg|]; [split; reflexivity |].
  pose proof (inspect_all_length W base (Z.to_nat num_nodes) 1
                (trace s ++ [EvDockerFromEnv])) as [Hle Hlen].
  destruct (inspect_all W base (Z.to_nat num_nodes) 1 (trace s ++ [EvDockerFromEnv]))
    as [found stopped].
  cbn [fst snd] in *.
  destruct stopped as [e|].
  - split; [reflexivity |]. cbn [snd trace]. rewrite <- app_assoc. reflexivity.
  - specialize (Hlen eq_refl).
    exists (seq (List.length (heap s)) (Z.to_nat num_nodes)).
    split; [reflexivity |]. split; [apply seq_NoDup |].
    split; [apply length_seq |]. split; [exact Hlen |].
    split; [| cbn [snd trace]; rewrite Hlen, <- app_assoc; reflexivity].
    cbn [heap]. rewrite <- Hlen. unfold node_objects.
    clear. generalize (heap s). intros h.
    revert h. induction found as [|a found IH]; intros h; [reflexivity |].
    cbn [List.length seq map]. f_equal.
    + rewrite nth_error_at. reflexivity.
    + replace (h ++ ONode (mkNode a (node_key self)) :: map _ found)
        with ((h ++ [ONode (mkNode a (node_key self))])
              ++ map (fun a0 => ONode (mkNode a0 (node_key self))) found)
        by (rewrite <- app_assoc; reflexivity).
      replace (S (List.length h))
        with (List.length (h ++ [ONode (mkNode a (node_key self))]))
        by (rewrite length_app; simpl; lia).
      apply IH.
Qed.

Lemma role_accessor_resolution_witness :
  exists nodes,
    fst (DcosDocker.role_nodes 2 (Demo.world 0 0) Demo.cluster
           "PUBLIC_AGENT_CTR" "PUBLIC_AGENTS" Demo.created) = Ok nodes /\
    NoDup nodes /\
    List.length nodes = 2 /\
    List.length [mkIPv4 172 17 0 2; mkIPv4 172 17 0 3] = 2 /\
    map (nth_error (heap (snd (DcosDocker.role_nodes 2 (Demo.world 0 0) Demo.cluster
                                 "PUBLIC_AGENT_CTR" "PUBLIC_AGENTS" Demo.created))))
        nodes
    = map (fun a => Some (ONode (mkNode a (node_key Demo.cluster))))
          [mkIPv4 172 17 0 2; mkIPv4 172 17 0 3] /\
    trace (snd (DcosDocker.role_nodes 2 (Demo.world 0 0) Demo.cluster
                  "PUBLIC_AGENT_CTR" "PUBLIC_AGENTS" Demo.created))
    = (trace Demo.created ++ [EvDockerFromEnv])
      ++ query_events "dcos-public-agent-0b1f-" 1 2.
Proof.
  exact (role_accessor_resolution (Demo.world 0 0) Demo.cluster Demo.parameters
           Demo.created "PUBLIC_AGENT_CTR" "PUBLIC_AGENTS"
           "dcos-public-agent-0b1f-" 2 2 eq_refl eq_refl eq_refl (le_n 2)).
Defined.

(** C1 as the specification words it does not hold: on a host where the first master container
    is not there at the first query and is there from the second query on,
    [masters] does not wait for it; it raises at the first query. *)
Lemma role_accessor_does_not_block :
  ~ blocks_until_resolved (Demo.world 0 1) Demo.cluster 1
      "MASTER_CTR" "MASTERS" "dcos-master-0b1f-" 1 Demo.created.
Proof.
  unfold blocks_until_resolved. intros H.
  assert (Hev : eventually_inspectable (Demo.world 0 1) "dcos-master-0b1f-" 1
                  (trace Demo.created)).
  { exists [EvContainersGet "dcos-master-0b1f-1"].
    intros i Hi. assert (i = 1) by lia. subst i.
    exists "172.17.0.2", (mkIPv4 172 17 0 2). split; reflexivity. }
  destruct (H Hev) as (nodes & Hok & _).
  vm_compute in Hok. discriminate Hok.
Qed.

Example masters_raise_at_once :
  DcosDocker.masters 1 (Demo.world 0 1) Demo.cluster Demo.created
  = (Raise (DockerException "No such container: dcos-master-0b1f-1"),
     mkState [ODict Demo.parameters]
             [EvDockerFromEnv; EvContainersGet "dcos-master-0b1f-1"]).
Proof. reflexivity. Qed.

Example same_address_twice :
  exists n1 n2 s',
    DcosDocker.public_agents 2 one_address_world Demo.cluster Demo.created
    = (Ok [n1; n2], s') /\
    n1 <> n2 /\
    nth_error (heap s') n1 = Some (ONode (mkNode (mkIPv4 172 17 0 2) (node_key Demo.cluster))) /\
    nth_error (heap s') n2 = Some (ONode (mkNode (mkIPv4 172 17 0 2) (node_key Demo.cluster))).
Proof.
  exists 1, 2.
  exists (snd (DcosDocker.public_agents 2 one_address_world Demo.cluster Demo.created)).
  split; [vm_compute; reflexivity |].
  split; [discriminate |]. split; vm_compute; reflexivity.
Qed.

(** ** The parameter set over the life of a cluster *)

(** From [s] to [s'] objects were only added and calls only appended, and
    every child process run had a command line accepted by [P]. *)
Definition extends_with (P : list string -> Prop) (s s' : state) : Prop :=
  exists added evs,
    s' = mkState (heap s ++ added) (trace s ++ evs) /\
    Forall P (subprocess_runs evs).

Lemma extends_with_refl P s : extends_with P s s.
Proof.
  exists [], []. rewrite !app_nil_r. destruct s. split; [reflexivity | constructor].
Qed.

Lemma extends_with_trans P s1 s2 s3 :
  extends_with P s1 s2 -> extends_with P s2 s3 -> extends_with P s1 s3.
Proof.
  intros (a1 & e1 & -> & H1) (a2 & e2 & -> & H2).
  exists (a1 ++ a2), (e1 ++ e2). cbn [heap trace].
  rewrite !app_assoc. split; [reflexivity |].
  rewrite subprocess_runs_app. apply Forall_app. split; assumption.
Qed.

Lemma extends_with_events P s evs :
  Forall P (subprocess_runs evs) -> extends_with P s (add_events s evs).
Proof.
  intros H. exists [], evs. rewrite app_nil_r. split; [reflexivity | exact H].
Qed.

Lemma extends_with_lookup P s s' r o :
  extends_with P s s' ->
  nth_error (heap s) r = Some o -> nth_error (heap s') r = Some o.
Proof.
  intros (added & evs & -> & _) H. cbn [heap]. apply nth_error_old. exact H.
Qed.

Section Fixed.
Import DcosDocker.
Variable W : World.
Variable self : DCOS_Docker.
Variable variables : list (string * string).

(** The command lines the cluster may run: [make], the parameter set, one
    of the three targets. *)
Definition lifecycle_run (args : list string) : Prop :=
  exists target, In target lifecycle_targets /\ args = make_args variables target.

Lemma _nodes_loop_extends P base num_nodes fuel : forall (nodes : list loc) s,
  extends_with P s (snd (_nodes_loop fuel W self base num_nodes nodes s)).
Proof.
  induction fuel as [|fuel IH]; intros nodes s; rewrite _nodes_loop_unfold;
    destruct (Z.ltb _ _); try apply extends_with_refl.
  cbv zeta. unfold containers_get_ip. unfold bind at 1. unfold bind at 1.
  rewrite ask_run.
  assert (Hq : forall name, extends_with P s
                 (mkState (heap s) (trace s ++ [EvContainersGet name]))).
  { intros name. exists [], [EvContainersGet name]. rewrite app_nil_r.
    split; [reflexivity | constructor]. }
  destruct (w_container_ip W (trace s) _) as [ip|msg]; [| apply Hq].
  cbn [ret]. destruct (IPv4Address ip) as [a|]; [| apply Hq].
  unfold bind at 1. cbn [ret]. unfold bind at 1. unfold alloc at 1.
  cbn [heap trace].
  eapply extends_with_trans; [| apply IH].
  eexists [_], [_]. split; [reflexivity | constructor].
Qed.

Lemma _nodes_extends P fuel base num_nodes s :
  extends_with P s (snd (_nodes fuel W self base num_nodes s)).
Proof.
  unfold _nodes. unfold bind at 1. rewrite docker_from_env_run.
  assert (Hq : extends_with P s (add_events s [EvDockerFromEnv])).
  { apply extends_with_events. constructor. }
  destruct (w_docker_from_env W (trace s)); [exact Hq |].
  eapply extends_with_trans; [exact Hq | apply _nodes_loop_extends].
Qed.

Lemma role_nodes_extends P fuel ctr_key count_key s :
  extends_with P s (snd (role_nodes fuel W self ctr_key count_key s)).
Proof.
  unfold role_nodes, dict_getitem, load_dict, load.
  unfold bind at 1. unfold bind at 1. unfold bind at 1.
  destruct (nth_error (heap s) (_variables self)) as [o|]; [| apply extends_with_refl].
  destruct o; try apply extends_with_refl.
  cbn [ret]. destruct (Py.dict_get String.eqb ctr_key d); [| apply extends_with_refl].
  cbn [ret].
  unfold bind at 1. unfold bind at 1. unfold bind at 1.
  destruct (nth_error (heap s) (_variables self)) as [o|]; [| apply extends_with_refl].
  destruct o; try apply extends_with_refl.
  cbn [ret]. destruct (Py.dict_get String.eqb count_key d0); [| apply extends_with_refl].
  cbn [ret]. unfold int. unfold bind at 1.
  destruct (Str.to_Z s1); [| apply extends_with_refl].
  cbn [ret]. apply _nodes_extends.
Qed.

Lemma lifecycle_run_make target :
  In target lifecycle_targets ->
  Forall lifecycle_run (subprocess_runs [make_event self variables target]).
Proof.
  intros Hin. constructor; [| constructor]. exists target. split; [exact Hin | reflexivity].
Qed.

Lemma _make_extends target s :
  In target lifecycle_targets ->
  nth_error (heap s) (_variables self) = Some (ODict variables) ->
  extends_with lifecycle_run s (snd (_make W self target s)).
Proof.
  intros Hin Hv. rewrite (_make_run W self variables target s Hv). cbn [snd].
  apply extends_with_events. apply lifecycle_run_make. exact Hin.
Qed.

Lemma run_action_extends fuel a s :
  nth_error (heap s) (_variables self) = Some (ODict variables) ->
  extends_with lifecycle_run s (snd (run_action W self fuel a s)).
Proof.
  intros Hv. destruct a; cbn [run_action].
  - destruct (create_with_tries_total W self variables 29 s Hv)
      as (evs & k & Hs & _ & _ & Hruns & _).
    change (_create_containers W self) with (create_with_tries W self 30).
    rewrite Hs. apply extends_with_events. rewrite Hruns.
    apply Forall_forall. intros args Hin. apply repeat_spec in Hin. subst args.
    exists "all". split; [left; reflexivity | reflexivity].
  - unfold postflight. apply _make_extends; [right; left; reflexivity | exact Hv].
  - unfold destroy. unfold bind.
    rewrite (_make_run W self variables "clean" s Hv).
    destruct (make_outcome W self variables "clean" (trace s)).
    + unfold rmtree, bind. rewrite ask_run.
      cbn [heap trace add_events].
      destruct (w_rmtree W _ _); cbn [snd ret];
        (eexists [], [_; _]; rewrite app_nil_r, <- app_assoc;
         split; [reflexivity |]);
        (constructor; [| constructor];
         exists "clean"; split; [right; right; left; reflexivity | reflexivity]).
    + cbn [snd]. apply extends_with_events. apply lifecycle_run_make.
      right; right; left; reflexivity.
    + cbn [snd]. apply extends_with_events. apply lifecycle_run_make.
      right; right; left; reflexivity.
  - unfold masters, bind.
    pose proof (role_nodes_extends lifecycle_run fuel "MASTER_CTR" "MASTERS" s) as H.
    destruct (role_nodes fuel W self "MASTER_CTR" "MASTERS" s) as [[nodes|e|] s1];
      exact H.
  - unfold agents, bind.
    pose proof (role_nodes_extends lifecycle_run fuel "AGENT_CTR" "AGENTS" s) as H.
    destruct (role_nodes fuel W self "AGENT_CTR" "AGENTS" s) as [[nodes|e|] s1];
      exact H.
  - unfold public_agents, bind.
    pose proof (role_nodes_extends lifecycle_run fuel "PUBLIC_AGENT_CTR" "PUBLIC_AGENTS" s) as H.
    destruct (role_nodes fuel W self "PUBLIC_AGENT_CTR" "PUBLIC_AGENTS" s)
      as [[nodes|e|] s1]; exact H.
Qed.

Lemma run_actions_extends fuel actions : forall s,
  nth_error (heap s) (_variables self) = Some (ODict variables) ->
  extends_with lifecycle_run s (run_actions W self fuel actions s).
Proof.
  induction actions as [|a actions IH]; intros s Hv; cbn [run_actions].
  - apply extends_with_refl.
  - pose proof (run_action_extends fuel a s Hv) as Ha.
    eapply extends_with_trans; [exact Ha |].
    apply IH. eapply extends_with_lookup; eassumption.
Qed.

End Fixed.

(** Two conflicts, then success: three attempts. *)
Lemma create_succeeds_at_third_attempt W self variables s e1 e2 p :
  nth_error (heap s) (DcosDocker._variables self) = Some (ODict variables) ->
  make_outcome W self variables "all" (trace s) = NonZeroExit e1 ->
  has_conflict_signature e1 ->
  make_outcome W self variables "all"
    (trace s ++ [make_event self variables "all";
                 EvPrint (Py.str (pe_stderr e1)); EvLogWarning retry_warning; EvSleep 10])
  = NonZeroExit e2 ->
  has_conflict_signature e2 ->
  make_outcome W self variables "all"
    ((trace s ++ [make_event self variables "all";
                  EvPrint (Py.str (pe_stderr e1)); EvLogWarning retry_warning; EvSleep 10])
     ++ [make_event self variables "all";
         EvPrint (Py.str (pe_stderr e2)); EvLogWarning retry_warning; EvSleep 10])
  = Completed p ->
  DcosDocker._create_containers W self s
  = (Ok tt,
     add_events s [make_event self variables "all";
                   EvPrint (Py.str (pe_stderr e1)); EvLogWarning retry_warning; EvSleep 10;
                   make_event self variables "all";
                   EvPrint (Py.str (pe_stderr e2)); EvLogWarning retry_warning; EvSleep 10;
                   make_event self variables "all"]).
Proof.
  intros Hv H1 Hc1 H2 Hc2 H3.
  apply conflictb_spec in Hc1. apply conflictb_spec in Hc2.
  change (DcosDocker._create_containers W self) with (create_with_tries W self 30).
  rewrite (create_with_tries_step W self variables 29 s Hv), H1, Hc1.
  set (s1 := add_events s [make_event self variables "all";
                           EvPrint (Py.str (pe_stderr e1)); EvLogWarning retry_warning; EvSleep 10]).
  rewrite (create_with_tries_step W self variables 28 s1 Hv).
  change (trace s1) with (trace s ++ [make_event self variables "all";
                                      EvPrint (Py.str (pe_stderr e1)); EvLogWarning retry_warning; EvSleep 10]).
  rewrite H2, Hc2.
  set (s2 := add_events s1 [make_event self variables "all";
                            EvPrint (Py.str (pe_stderr e2)); EvLogWarning retry_warning; EvSleep 10]).
  rewrite (create_with_tries_step W self variables 27 s2 Hv).
  change (trace s2)
    with ((trace s ++ [make_event self variables "all";
                       EvPrint (Py.str (pe_stderr e1)); EvLogWarning retry_warning; EvSleep 10])
          ++ [make_event self variables "all";
              EvPrint (Py.str (pe_stderr e2)); EvLogWarning retry_warning; EvSleep 10]).
  rewrite H3. subst s2 s1.
  unfold add_events. cbn [heap trace]. rewrite <- !app_assoc. reflexivity.
Qed.

(** C7. Whatever is called on a constructed cluster, in whatever order and
    however often (the create action with its retries, postflight,
    destroy, the role accessors), the parameter set stays the object it
    was, with the items it had, and every child process that is run is
    [make], the [KEY=VALUE] arguments of these very items in their order,
    and one of the three targets. In particular a create action that meets
    a name conflict twice and then succeeds runs three times the same
    command line. *)
Theorem parameter_set_fixed :
  forall (W : World) (self : DcosDocker.DCOS_Docker)
         (variables : list (string * string)) (s : state)
         (fuel : nat) (actions : list action),
    nth_error (heap s) (DcosDocker._variables self) = Some (ODict variables) ->
    (nth_error (heap (run_actions W self fuel actions s)) (DcosDocker._variables self)
     = Some (ODict variables)) /\
    (exists evs,
       trace (run_actions W self fuel actions s) = trace s ++ evs /\
       Forall (fun args =>
                 exists target,
                   In target ["all"; "postflight"; "clean"] /\
                   args = ["make"]
                          ++ map (fun kv => fst kv +:+ "=" +:+ snd kv) variables
                          ++ [target])
              (subprocess_runs evs)) /\
    (forall e1 e2 p,
       make_outcome W self variables "all" (trace s) = NonZeroExit e1 ->
       has_conflict_signature e1 ->
       make_outcome W self variables "all"
         (trace s ++ [make_event self variables "all";
                      EvPrint (Py.str (pe_stderr e1)); EvLogWarning retry_warning; EvSleep 10])
       = NonZeroExit e2 ->
       has_conflict_signature e2 ->
       make_outcome W self variables "all"
         ((trace s ++ [make_event self variables "all";
                       EvPrint (Py.str (pe_stderr e1)); EvLogWarning retry_warning; EvSleep 10])
          ++ [make_event self variables "all";
              EvPrint (Py.str (pe_stderr e2)); EvLogWarning retry_warning; EvSleep 10])
       = Completed p ->
       exists evs,
         DcosDocker._create_containers W self s = (Ok tt, add_events s evs) /\
         subprocess_runs evs
         = [make_args variables "all"; make_args variables "all";
            make_args variables "all"]).
Proof.
  intros W self variables s fuel actions Hv.
  pose proof (run_actions_extends W self variables fuel actions s Hv) as Hext.
  split; [| split].
  - eapply extends_with_lookup; eassumption.
  - destruct Hext as (added & evs & Heq & Hruns).
    exists evs. rewrite Heq. split; [reflexivity | exact Hruns].
  - intros e1 e2 p H1 Hc1 H2 Hc2 H3.
    eexists. split.
    + apply (create_succeeds_at_third_attempt W self variables s e1 e2 p);
        assumption.
    + reflexivity.
Qed.

Lemma parameter_set_fixed_witness :
  (nth_error
     (heap (run_actions (Demo.world 2 0) Demo.cluster 3
              [ACreateContainers; APostflight; AMasters; APostflight; ADestroy]
              Demo.created))
     (DcosDocker._variables Demo.cluster)
   = Some (ODict Demo.parameters)) /\
  (exists evs,
     DcosDocker._create_containers (Demo.world 2 0) Demo.cluster Demo.created
     = (Ok tt, add_events Demo.created evs) /\
     subprocess_runs evs
     = [make_args Demo.parameters "all"; make_args Demo.parameters "all";
        make_args Demo.parameters "all"]).
Proof.
  destruct (parameter_set_fixed (Demo.world 2 0) Demo.cluster Demo.parameters
              Demo.created 3
              [ACreateContainers; APostflight; AMasters; APostflight; ADestroy]
              eq_refl) as (H1 & _ & H3).
  split; [exact H1 |].
  apply (H3 Demo.conflict_error Demo.conflict_error
            (mkCompletedProcess (make_args Demo.parameters "all") 0
                                (Py.VBytes "") (Py.VBytes ""))).
  - reflexivity.
  - apply conflictb_spec. vm_compute. reflexivity.
  - reflexivity.
  - apply conflictb_spec. vm_compute. reflexivity.
  - reflexivity.
Defined.

(** ** [DCOS_Docker.__init__] *)

Lemma os_call_run e answer s :
  os_call e answer s
  = (match answer (trace s) with
     | None => Ok tt
     | Some msg => Raise (OSError msg)
     end, add_events s [e]).
Proof.
  unfold os_call, bind. rewrite ask_run. destruct (answer (trace s)); reflexivity.
Qed.

Section Construction.
Import DcosDocker.
Variable W : World.

Lemma for_each_files_run path items : forall s,
  for_each items (fun item =>
    let host_path := fst item in
    let installer_path := snd item in
    match Pathlib.relative_to installer_path (Pathlib.of_string "/genconf") with
    | None =>
        raise (ValueError ("'" +:+ Pathlib.to_string installer_path
                           +:+ "' does not start with '/genconf'"))
    | Some relative_installer_path =>
        let destination_path :=
          Pathlib.joinpath (Pathlib.div path "genconf") relative_installer_path in
        copyfile W (Pathlib.to_string host_path)
                 (Pathlib.to_string destination_path)
    end) s
  = (match fst (stage_files W path items (trace s)) with
     | None => Ok tt
     | Some e => Raise e
     end,
     add_events s (snd (stage_files W path items (trace s)))).
Proof.
  induction items as [|[host_path installer_path] items IH]; intros s.
  - cbn. unfold ret, add_events. rewrite app_nil_r. destruct s; reflexivity.
  - cbn [for_each stage_files fst snd]. cbv zeta. unfold bind at 1.
    destruct (Pathlib.relative_to installer_path (Pathlib.of_string "/genconf"))
      as [relative|].
    + unfold copyfile. rewrite os_call_run.
      destruct (w_copyfile W (trace s) _ _) as [msg|].
      * reflexivity.
      * rewrite IH. cbn [trace add_events].
        destruct (stage_files W path items _) as [stopped evs].
        cbn [fst snd]. rewrite add_events_add_events. reflexivity.
    + unfold raise, no_genconf_prefix, add_events. cbn [fst snd].
      rewrite app_nil_r. destruct s; reflexivity.
Qed.

Lemma copy_files_to_installer_run path files items s :
  nth_error (heap s) files = Some (OFiles items) ->
  copy_files_to_installer W path files s
  = (match fst (stage_files W path items (trace s)) with
     | None => Ok tt
     | Some e => Raise e
     end,
     add_events s (snd (stage_files W path items (trace s)))).
Proof.
  intros Hf. unfold copy_files_to_installer.
  assert (Hl : load_files files s = (Ok items, s)).
  { unfold load_files, load, bind. rewrite Hf. reflexivity. }
  erewrite bind_ok by exact Hl. apply for_each_files_run.
Qed.

Lemma choose_storage_driver_run s :
  choose_storage_driver W s
  = (match w_docker_driver W (trace s) with
     | inl host => Ok (chosen_storage_driver host)
     | inr msg => Raise (DockerException msg)
     end,
     add_events s [EvDockerInfo]).
Proof.
  unfold choose_storage_driver, docker_info_driver, bind. rewrite ask_run.
  destruct (w_docker_driver W (trace s)) as [host|msg]; [| reflexivity].
  cbn [ret]. unfold chosen_storage_driver, supported_storage_drivers.
  cbn [existsb]. rewrite orb_false_r.
  destruct (String.eqb host "overlay"); [reflexivity |].
  destruct (String.eqb host "aufs"); reflexivity.
Qed.

End Construction.

Lemma dict_setitem_snoc h d tr k v :
  dict_setitem (List.length h) k v (mkState (h ++ [ODict d]) tr)
  = (Ok tt, mkState (h ++ [ODict (Py.dict_set String.eqb k v d)]) tr).
Proof.
  unfold dict_setitem, load_dict, load. unfold bind at 1. unfold bind at 1.
  cbn [heap]. rewrite nth_error_snoc. cbn [ret].
  unfold store. cbn [heap trace]. rewrite update_snoc. reflexivity.
Qed.

Lemma load_config_old h new tr r d :
  nth_error h r = Some (OConfig d) ->
  load_config r (mkState (h ++ new) tr) = (Ok d, mkState (h ++ new) tr).
Proof.
  intros H. unfold load_config. erewrite bind_ok by (apply load_old; eassumption).
  reflexivity.
Qed.

Section ConstructionRun.
Import DcosDocker.
Variable W : World.

Lemma __init___run masters agents public_agents extra_config generate_config_path
    dcos_docker_path custom_ca_key live files tmp_dir_path s config items :
  nth_error (heap s) extra_config = Some (OConfig config) ->
  nth_error (heap s) files = Some (OFiles items) ->
  __init__ W masters agents public_agents extra_config generate_config_path
           dcos_docker_path custom_ca_key live files tmp_dir_path s
  = construction W masters agents public_agents config generate_config_path
                 dcos_docker_path custom_ca_key live items tmp_dir_path s.
Proof.
  intros Hc Hf. unfold __init__, construction. cbv zeta.
  unfold uuid4. unfold bind at 1. rewrite ask_run.
  set (random := w_uuid4 W (trace s)).
  set (path := Pathlib.div tmp_dir_path ("dcos-docker-" +:+ random)).
  unfold staging_events. fold random. fold path.
  unfold copytree. unfold bind at 1. rewrite os_call_run.
  unfold add_events; cbn [heap trace firstn]; rewrite <- ?app_assoc; cbn [app].
  destruct (w_copytree W _ _ _ _) as [msg|]; [reflexivity |].
  unfold copyfile at 1. unfold bind at 1. rewrite os_call_run.
  unfold add_events; cbn [heap trace firstn]; rewrite <- ?app_assoc; cbn [app].
  destruct (w_copyfile W _ _ _) as [msg|]; [reflexivity |].
  unfold bind at 1.
  rewrite (copy_files_to_installer_run W path files items
             (mkState (heap s) _) Hf).
  unfold add_events; cbn [heap trace firstn]; rewrite <- ?app_assoc; cbn [app].
  destruct (stage_files W path items _) as [stopped evsf]. cbn [fst snd].
  destruct stopped as [e|]; [reflexivity |].
  unfold bind at 1. rewrite choose_storage_driver_run.
  unfold add_events; cbn [heap trace firstn]; rewrite <- ?app_assoc; cbn [app].
  destruct (w_docker_driver W _) as [host|msg]; [| reflexivity].
  unfold bind at 1. unfold alloc at 1. cbn [heap trace].
  unfold bind at 1.
  rewrite (load_config_old (heap s) _ _ extra_config config Hc).
  assert (Hfinal :
    forall (k : unit -> M DCOS_Docker),
    (match config with
     | [] => ret tt
     | _ :: _ => dict_setitem (List.length (heap s)) "EXTRA_GENCONF_CONFIG"
                              (w_yaml_dump W config)
     end ;;
     match custom_ca_key with
     | None => ret tt
     | Some key =>
         dict_setitem (List.length (heap s)) "MASTER_MOUNTS"
           ("-v " +:+ Pathlib.to_string key +:+ ":" +:+
            Pathlib.to_string
              (Pathlib.of_string "/var/lib/dcos/pki/tls/CA/private/custom_ca.key"))
     end ;;
     k tt)
      (mkState (heap s ++
                [ODict [("DOCKER_STORAGEDRIVER", chosen_storage_driver host);
                        ("MESOS_SYSTEMD_ENABLE_SUPPORT", "false");
                        ("MASTERS", Str.of_Z masters);
                        ("AGENTS", Str.of_Z agents);
                        ("PUBLIC_AGENTS", Str.of_Z public_agents);
                        ("MASTER_CTR", "dcos-master-" +:+ random +:+ "-");
                        ("AGENT_CTR", "dcos-agent-" +:+ random +:+ "-");
                        ("PUBLIC_AGENT_CTR", "dcos-public-agent-" +:+ random +:+ "-")]])
               (trace s ++ EvUuid4
                :: EvCopytree (Pathlib.to_string dcos_docker_path)
                     (Pathlib.to_string path) "dcos_generate_config.sh"
                :: EvCopyfile (Pathlib.to_string generate_config_path)
                     (Pathlib.to_string (Pathlib.div path "dcos_generate_config.sh"))
                :: evsf ++ [EvDockerInfo]))
    = k tt (mkState (heap s ++ [ODict (parameter_set W host random masters agents
                                         public_agents config custom_ca_key)])
                    (trace s ++ EvUuid4
                     :: EvCopytree (Pathlib.to_string dcos_docker_path)
                          (Pathlib.to_string path) "dcos_generate_config.sh"
                     :: EvCopyfile (Pathlib.to_string generate_config_path)
                          (Pathlib.to_string (Pathlib.div path "dcos_generate_config.sh"))
                     :: evsf ++ [EvDockerInfo]))).
  { intros k. unfold parameter_set.
    destruct config as [|c config]; destruct custom_ca_key as [key|];
      unfold bind at 1;
      try rewrite dict_setitem_snoc; try rewrite ret_run;
      unfold bind at 1;
      try rewrite dict_setitem_snoc; try rewrite ret_run;
      reflexivity. }
  rewrite (Hfinal (fun _ =>
             _create_containers W (mkDCOS_Docker live path (List.length (heap s))) ;;
             ret (mkDCOS_Docker live path (List.length (heap s))))).
  unfold bind at 1.
  destruct (_create_containers W _ _) as [[u|e|] s']; reflexivity.
Qed.

End ConstructionRun.

Section ConstructionOk.
Import DcosDocker.
Variable W : World.

(** What a construction that succeeds went through. *)
Lemma __init___ok masters agents public_agents extra_config generate_config_path
    dcos_docker_path custom_ca_key live files tmp_dir_path s config items self s' :
  nth_error (heap s) extra_config = Some (OConfig config) ->
  nth_error (heap s) files = Some (OFiles items) ->
  __init__ W masters agents public_agents extra_config generate_config_path
           dcos_docker_path custom_ca_key live files tmp_dir_path s
  = (Ok self, s') ->
  let random := w_uuid4 W (trace s) in
  let path := Pathlib.div tmp_dir_path ("dcos-docker-" +:+ random) in
  let staging := staging_events random generate_config_path dcos_docker_path
                                tmp_dir_path in
  let staged := stage_files W path items (trace s ++ staging) in
  exists host evs k,
    fst staged = None /\
    w_docker_driver W (trace s ++ staging ++ snd staged) = inl host /\
    self = mkDCOS_Docker live path (List.length (heap s)) /\
    s' = mkState (heap s ++ [ODict (parameter_set W host random masters agents
                                      public_agents config custom_ca_key)])
                 (trace s ++ staging ++ snd staged ++ [EvDockerInfo] ++ evs) /\
    k < 30 /\
    subprocess_runs evs
    = repeat (make_args (parameter_set W host random masters agents
                           public_agents config custom_ca_key) "all") (S k) /\
    sleeps evs = repeat 10%Z k.
Proof.
  intros Hc Hf. rewrite (__init___run W _ _ _ _ _ _ _ _ _ _ s config items Hc Hf).
  unfold construction. cbv zeta.
  destruct (w_copytree W _ _ _ _); [discriminate |].
  destruct (w_copyfile W _ _ _); [discriminate |].
  destruct (fst (stage_files W _ items _)) eqn:Hstaged; [discriminate |].
  destruct (w_docker_driver W _) as [host|msg] eqn:Hprobe; [| discriminate].
  set (self0 := mkDCOS_Docker live _ _).
  set (assembled := mkState _ _).
  assert (Hv : nth_error (heap assembled) (_variables self0)
               = Some (ODict (parameter_set W host (w_uuid4 W (trace s)) masters agents
                                public_agents config custom_ca_key))).
  { apply nth_error_snoc. }
  destruct (create_with_tries_total W self0 _ 29 assembled Hv)
    as (evs & k & Hs & _ & Hk & Hruns & Hsl).
  change (create_with_tries W self0 30) with (_create_containers W self0) in Hs.
  destruct (_create_containers W self0 assembled) as [[u|e|] s1];
    intros H; try discriminate.
  injection H as <- <-. cbn [snd] in Hs.
  exists host, evs, k. repeat split; try assumption; try lia.
  rewrite Hs. unfold add_events, assembled. cbn [heap trace].
  rewrite <- !app_assoc. reflexivity.
Qed.

Lemma parameter_set_driver host random masters agents public_agents config ca :
  Py.dict_get String.eqb "DOCKER_STORAGEDRIVER"
    (parameter_set W host random masters agents public_agents config ca)
  = Some (chosen_storage_driver host).
Proof. destruct config, ca; reflexivity. Qed.

End ConstructionOk.

Lemma chosen_storage_driver_spec host :
  (In host ["overlay"; "aufs"] -> chosen_storage_driver host = host) /\
  (~ In host ["overlay"; "aufs"] -> chosen_storage_driver host = "aufs").
Proof.
  unfold chosen_storage_driver. split.
  - intros [<-|[<-|[]]]; reflexivity.
  - intros Hn.
    destruct (String.eqb_spec host "overlay") as [->|_];
      [exfalso; apply Hn; left; reflexivity |].
    destruct (String.eqb_spec host "aufs") as [->|_];
      [exfalso; apply Hn; right; left; reflexivity |].
    reflexivity.
Qed.

(** C8. The probe of the runtime's storage driver is answered either with
    a failure, which ends the construction, or with the host's driver; and
    the [DOCKER_STORAGEDRIVER] parameter of a constructed cluster is that
    driver when it is [overlay] or [aufs], and [aufs] for any other. *)
Theorem storage_driver_choice :
  forall (W : World) (masters agents public_agents : Z) (extra_config : loc)
         (generate_config_path dcos_docker_path : Path)
         (custom_ca_key : option Path) (live : bool) (files : loc)
         (tmp_dir_path : Path) (s : state)
         (config : list (string * Yaml)) (items : list (Path * Path))
         (self : DcosDocker.DCOS_Docker) (s' : state),
    nth_error (heap s) extra_config = Some (OConfig config) ->
    nth_error (heap s) files = Some (OFiles items) ->
    DcosDocker.__init__ W masters agents public_agents extra_config
      generate_config_path dcos_docker_path custom_ca_key live files
      tmp_dir_path s = (Ok self, s') ->
    exists probed host variables,
      (exists later, trace s' = probed ++ EvDockerInfo :: later) /\
      w_docker_driver W probed = inl host /\
      DcosDocker.choose_storage_driver W (mkState (heap s) probed)
      = (Ok (chosen_storage_driver host), mkState (heap s) (probed ++ [EvDockerInfo])) /\
      nth_error (heap s') (DcosDocker._variables self) = Some (ODict variables) /\
      (exists value,
         Py.dict_get String.eqb "DOCKER_STORAGEDRIVER" variables = Some value /\
         (In host ["overlay"; "aufs"] -> value = host) /\
         (~ In host ["overlay"; "aufs"] -> value = "aufs")).
Proof.
  intros W masters agents public_agents extra_config generate_config_path
         dcos_docker_path custom_ca_key live files tmp_dir_path s config items
         self s' Hc Hf Hrun.
  destruct (__init___ok W _ _ _ _ _ _ _ _ _ _ s config items self s' Hc Hf Hrun)
    as (host & evs & k & _ & Hprobe & -> & -> & _).
  exists (trace s
          ++ staging_events (w_uuid4 W (trace s)) generate_config_path
               dcos_docker_path tmp_dir_path
          ++ snd (stage_files W
                    (Pathlib.div tmp_dir_path ("dcos-docker-" +:+ w_uuid4 W (trace s)))
                    items
                    (trace s ++ staging_events (w_uuid4 W (trace s))
                                  generate_config_path dcos_docker_path tmp_dir_path))).
  exists host.
  exists (parameter_set W host (w_uuid4 W (trace s)) masters agents public_agents
            config custom_ca_key).
  split; [| split; [| split; [| split]]].
  - exists evs. cbn [trace]. rewrite <- !app_assoc. reflexivity.
  - exact Hprobe.
  - rewrite choose_storage_driver_run. cbn [trace]. rewrite Hprobe. reflexivity.
  - cbn [heap DcosDocker._variables]. apply nth_error_snoc.
  - exists (chosen_storage_driver host).
    split; [apply parameter_set_driver | apply chosen_storage_driver_spec].
Qed.

Lemma storage_driver_choice_witness :
  let W := one_address_world in
  let run := DcosDocker.__init__ W 1 0 2 0
               (Pathlib.of_string "/home/me/dcos_generate_config.sh")
               (Pathlib.of_string "/home/me/dcos-docker")
               None false 1 (Pathlib.of_string "/tmp") Demo.caller in
  exists probed host variables,
    (exists later, trace (snd run) = probed ++ EvDockerInfo :: later) /\
    w_docker_driver W probed = inl host /\
    DcosDocker.choose_storage_driver W (mkState (heap Demo.caller) probed)
    = (Ok (chosen_storage_driver host),
       mkState (heap Demo.caller) (probed ++ [EvDockerInfo])) /\
    nth_error (heap (snd run)) 2 = Some (ODict variables) /\
    (exists value,
       Py.dict_get String.eqb "DOCKER_STORAGEDRIVER" variables = Some value /\
       (In host ["overlay"; "aufs"] -> value = host) /\
       (~ In host ["overlay"; "aufs"] -> value = "aufs")).
Proof.
  intros W run.
  apply (storage_driver_choice W 1 0 2 0
           (Pathlib.of_string "/home/me/dcos_generate_config.sh")
           (Pathlib.of_string "/home/me/dcos-docker")
           None false 1 (Pathlib.of_string "/tmp") Demo.caller
           [("cluster_docker_credentials_enabled", YBool true)]
           [(Pathlib.of_string "/home/me/license.txt",
             Pathlib.of_string "/genconf/license.txt")]
           (DcosDocker.mkDCOS_Docker false (Pathlib.of_string "/tmp/dcos-docker-0b1f") 2)
           (snd run)).
  - reflexivity.
  - reflexivity.
  - vm_compute. reflexivity.
Defined.

Example devicemapper_host_gets_aufs :
  exists self s' variables,
    DcosDocker.__init__ one_address_world 1 0 2 0
      (Pathlib.of_string "/home/me/dcos_generate_config.sh")
      (Pathlib.of_string "/home/me/dcos-docker")
      None false 1 (Pathlib.of_string "/tmp") Demo.caller = (Ok self, s') /\
    nth_error (heap s') (DcosDocker._variables self) = Some (ODict variables) /\
    Py.dict_get String.eqb "DOCKER_STORAGEDRIVER" variables = Some "aufs".
Proof.
  eexists _, _, _. split; [vm_compute; reflexivity |].
  split; vm_compute; reflexivity.
Qed.

(** ** The files for the installer *)





Section Staging.
Variable W : World.
Variable path : Path.




End Staging.

(** *** Where the copies lead *)








(** For the caller of [Demo], whose one installer path has no [..], the
    words of the specification do hold. *)
Example license_is_confined :
  installer_files_confined (Demo.world 0 0) 1 0 2 0
    (Pathlib.of_string "/home/me/dcos_generate_config.sh")
    (Pathlib.of_string "/home/me/dcos-docker")
    None false 1 (Pathlib.of_string "/tmp") Demo.caller
    [(Pathlib.of_string "/home/me/license.txt",
      Pathlib.of_string "/genconf/license.txt")].
Proof.
  unfold installer_files_confined. intros host_path installer_path [H|[]].
  injection H as <- <-. split.
  - intros _ self s' Hrun.
    exists (Pathlib.of_string "/tmp/dcos-docker-0b1f/genconf/license.txt").
    vm_compute in Hrun. injection Hrun as _ <-. split.
    + vm_compute. right. right. right. left. reflexivity.
    + split; [reflexivity |]. exists ["license.txt"]. reflexivity.
  - intros Hout. exfalso. apply Hout.
    split; [reflexivity |]. exists ["license.txt"]. reflexivity.
Qed.

(** The copy asked for on the way leads out of the working directory. *)
Example climbing_copy_leaves_working_directory :
  exists self s',
    DcosDocker.__init__ (Demo.world 0 0) 1 0 2 0
      (Pathlib.of_string "/home/me/dcos_generate_config.sh")
      (Pathlib.of_string "/home/me/dcos-docker")
      None false 1 (Pathlib.of_string "/tmp") climbing_caller = (Ok self, s') /\
    In (EvCopyfile "/home/me/evil" "/tmp/dcos-docker-0b1f/genconf/../../../etc/passwd")
       (trace s') /\
    resolved (Pathlib.of_string "/tmp/dcos-docker-0b1f/genconf/../../../etc/passwd")
    = Pathlib.of_string "/etc/passwd" /\
    ~ inside (DcosDocker._path self)
             (Pathlib.of_string "/tmp/dcos-docker-0b1f/genconf/../../../etc/passwd").
Proof.
  eexists _, _. split; [vm_compute; reflexivity |].
  split; [vm_compute; right; right; right; left; reflexivity |].
  split; [vm_compute; reflexivity |].
  intros [_ [rest Hrest]]. vm_compute in Hrest. discriminate Hrest.
Qed.

Example license_is_staged :
  exists self s',
    DcosDocker.__init__ (Demo.world 0 0) 1 0 2 0
      (Pathlib.of_string "/home/me/dcos_generate_config.sh")
      (Pathlib.of_string "/home/me/dcos-docker")
      None false 1 (Pathlib.of_string "/tmp") Demo.caller = (Ok self, s') /\
    In (EvCopyfile "/home/me/license.txt" "/tmp/dcos-docker-0b1f/genconf/license.txt")
       (trace s').
Proof.
  eexists _, _. split; [vm_compute; reflexivity |].
  vm_compute. right. right. right. left. reflexivity.
Qed.

(** ** [DCOS_Docker_Backend.create] *)


Section Factory.
Import DcosDocker.
Variable W : World.

Lemma copy_config_run extra_config s config :
  config_items (heap s) extra_config = Some config ->
  exists added r,
    copy_config extra_config s = (Ok r, mkState (heap s ++ added) (trace s)) /\
    nth_error (heap s ++ added) r = Some (OConfig config) /\
    List.length (heap s) <= r /\
    Forall (fun o => exists d, o = OConfig d) added.
Proof.
  intros Hc. destruct s as [h tr]. cbn [heap trace] in *.
  assert (Hempty :
    (e <- alloc (OConfig []) ;; items <- load_config e ;; alloc (OConfig items))
      (mkState h tr)
    = (Ok (List.length h + 1), mkState (h ++ [OConfig []; OConfig []]) tr)).
  { unfold bind at 1. unfold alloc at 1. cbn [heap trace].
    unfold load_config, load. unfold bind at 1. unfold bind at 1.
    cbn [heap]. rewrite nth_error_snoc. cbn [ret].
    unfold alloc. cbn [heap trace]. rewrite length_app, <- app_assoc. reflexivity. }
  assert (Hat : nth_error (h ++ [OConfig []; OConfig []]) (List.length h + 1)
                = Some (OConfig [])).
  { rewrite nth_error_new. reflexivity. }
  unfold copy_config. destruct extra_config as [r|].
  - cbn in Hc. destruct (nth_error h r) as [[ | | d | | ]|] eqn:Hr; try discriminate.
    injection Hc as ->.
    assert (Hl : load_config r (mkState h tr) = (Ok config, mkState h tr)).
    { unfold load_config, load, bind. cbn [heap]. rewrite Hr. reflexivity. }
    erewrite bind_ok by exact Hl.
    destruct config as [|c config].
    + exists [OConfig []; OConfig []], (List.length h + 1).
      repeat split; try assumption; try lia.
      repeat constructor; eexists; reflexivity.
    + erewrite bind_ok by exact Hl.
      exists [OConfig (c :: config)], (List.length h).
      repeat split; try lia.
      * apply nth_error_snoc.
      * repeat constructor. eexists; reflexivity.
  - injection Hc as <-.
    exists [OConfig []; OConfig []], (List.length h + 1).
    repeat split; try assumption; try lia.
    repeat constructor; eexists; reflexivity.
Qed.

Lemma copy_files_run files s items :
  file_items (heap s) files = Some items ->
  exists added r,
    copy_files files s = (Ok r, mkState (heap s ++ added) (trace s)) /\
    nth_error (heap s ++ added) r = Some (OFiles items) /\
    List.length (heap s) <= r /\
    Forall (fun o => exists d, o = OFiles d) added.
Proof.
  intros Hc. destruct s as [h tr]. cbn [heap trace] in *.
  assert (Hempty :
    (e <- alloc (OFiles []) ;; items <- load_files e ;; alloc (OFiles items))
      (mkState h tr)
    = (Ok (List.length h + 1), mkState (h ++ [OFiles []; OFiles []]) tr)).
  { unfold bind at 1. unfold alloc at 1. cbn [heap trace].
    unfold load_files, load. unfold bind at 1. unfold bind at 1.
    cbn [heap]. rewrite nth_error_snoc. cbn [ret].
    unfold alloc. cbn [heap trace]. rewrite length_app, <- app_assoc. reflexivity. }
  assert (Hat : nth_error (h ++ [OFiles []; OFiles []]) (List.length h + 1)
                = Some (OFiles [])).
  { rewrite nth_error_new. reflexivity. }
  unfold copy_files. destruct files as [r|].
  - cbn in Hc. destruct (nth_error h r) as [[ | | | d | ]|] eqn:Hr; try discriminate.
    injection Hc as ->.
    assert (Hl : load_files r (mkState h tr) = (Ok items, mkState h tr)).
    { unfold load_files, load, bind. cbn [heap]. rewrite Hr. reflexivity. }
    erewrite bind_ok by exact Hl.
    destruct items as [|c items].
    + exists [OFiles []; OFiles []], (List.length h + 1).
      repeat split; try assumption; try lia.
      repeat constructor; eexists; reflexivity.
    + erewrite bind_ok by exact Hl.
      exists [OFiles (c :: items)], (List.length h).
      repeat split; try lia.
      * apply nth_error_snoc.
      * repeat constructor. eexists; reflexivity.
  - injection Hc as <-.
    exists [OFiles []; OFiles []], (List.length h + 1).
    repeat split; try assumption; try lia.
    repeat constructor; eexists; reflexivity.
Qed.

End Factory.

Lemma file_items_old h added files items :
  file_items h files = Some items -> file_items (h ++ added) files = Some items.
Proof.
  destruct files as [r|]; [| exact (fun H => H)]. cbn.
  destruct (nth_error h r) as [o|] eqn:Hr; [| discriminate].
  rewrite (nth_error_old h added r o Hr). exact (fun H => H).
Qed.



(** ** Failures and removals *)

Lemma removals_app evs1 evs2 : removals (evs1 ++ evs2) = removals evs1 ++ removals evs2.
Proof.
  induction evs1 as [|e evs1 IH]; [reflexivity |].
  destruct e; simpl; rewrite IH; reflexivity.
Qed.

Lemma failures_app W evs1 : forall h evs2,
  failures W h (evs1 ++ evs2)
  = map (fun f => (fst f, snd f ++ evs2)) (failures W h evs1)
    ++ failures W (h ++ evs1) evs2.
Proof.
  induction evs1 as [|ev evs1 IH]; intros h evs2.
  - cbn. rewrite app_nil_r. reflexivity.
  - cbn [app failures]. rewrite IH, map_app, <- !app_assoc. cbn [app].
    destruct (answer_failed W h ev); reflexivity.
Qed.

Lemma accounted_later f evs :
  accounted f -> accounted (fst f, snd f ++ evs).
Proof.
  destruct f as [ev rest]. cbn [fst snd].
  destruct ev; try contradiction.
  - destruct ignore_errors; [exact (fun H => H) | contradiction].
  - destruct rest as [|ev' rest]; [contradiction |].
    destruct ev'; try contradiction. exact (fun H => H).
Qed.

Lemma Forall_accounted_app W h evs1 evs2 :
  Forall accounted (failures W h evs1) ->
  Forall accounted (failures W (h ++ evs1) evs2) ->
  Forall accounted (failures W h (evs1 ++ evs2)).
Proof.
  intros H1 H2. rewrite failures_app. apply Forall_app. split; [| exact H2].
  apply Forall_map. eapply Forall_impl; [| exact H1].
  intros f Hf. apply accounted_later. exact Hf.
Qed.

Section Accounting.
Import DcosDocker.
Variable W : World.
Variable self : DCOS_Docker.
Variable variables : list (string * string).

Lemma make_failed target h :
  answer_failed W h (make_event self variables target)
  = match make_outcome W self variables target h with
    | Completed _ => false
    | _ => true
    end.
Proof. reflexivity. Qed.

(** A create action that ends well met nothing but conflicts that it
    printed; and it removes nothing, however it ends. *)
Lemma create_with_tries_accounted n : forall s,
  nth_error (heap s) (_variables self) = Some (ODict variables) ->
  exists evs,
    snd (create_with_tries W self (S n) s) = add_events s evs /\
    removals evs = [] /\
    (fst (create_with_tries W self (S n) s) = Ok tt ->
     Forall accounted (failures W (trace s) evs)).
Proof.
  induction n as [|n IH]; intros s Hv;
    rewrite (create_with_tries_step W self variables _ s Hv).
  - destruct (make_outcome W self variables "all" (trace s)) as [p|e|msg] eqn:Ho.
    + eexists. split; [reflexivity |]. split; [reflexivity |].
      intros _. cbn [failures]. rewrite make_failed, Ho. constructor.
    + destruct (conflictb e); eexists; (split; [reflexivity |]);
        (split; [reflexivity | discriminate]).
    + eexists. split; [reflexivity |]. split; [reflexivity | discriminate].
  - destruct (make_outcome W self variables "all" (trace s)) as [p|e|msg] eqn:Ho.
    + eexists. split; [reflexivity |]. split; [reflexivity |].
      intros _. cbn [failures]. rewrite make_failed, Ho. constructor.
    + destruct (conflictb e).
      * set (round := [make_event self variables "all";
                       EvPrint (Py.str (pe_stderr e));
                       EvLogWarning retry_warning; EvSleep 10]).
        destruct (IH (add_events s round) Hv) as (evs & Hs & Hrm & Hacc).
        exists (round ++ evs).
        rewrite Hs, add_events_add_events.
        split; [reflexivity |]. split.
        -- rewrite removals_app, Hrm. reflexivity.
        -- intros Hok. apply Forall_accounted_app.
           ++ unfold round. cbn [failures]. rewrite make_failed, Ho.
              cbn. repeat constructor.
           ++ apply Hacc. exact Hok.
      * eexists. split; [reflexivity |]. split; [reflexivity | discriminate].
    + eexists. split; [reflexivity |]. split; [reflexivity | discriminate].
Qed.

Lemma _nodes_loop_accounted base num_nodes fuel : forall (nodes : list loc) s res s',
  _nodes_loop fuel W self base num_nodes nodes s = (res, s') ->
  exists added evs,
    s' = mkState (heap s ++ added) (trace s ++ evs) /\
    removals evs = [] /\
    (forall r, res = Ok r -> failures W (trace s) evs = []).
Proof.
  induction fuel as [|fuel IH]; intros nodes s res s' Hrun;
    rewrite _nodes_loop_unfold in Hrun;
    destruct (Z.ltb _ _);
    try (injection Hrun as <- <-; exists [], []; rewrite !app_nil_r; destruct s;
         split; [reflexivity | split; [reflexivity | intros r H; reflexivity]]).
  cbv zeta in Hrun. unfold containers_get_ip in Hrun.
  unfold bind at 1 in Hrun. unfold bind at 1 in Hrun.
  rewrite ask_run in Hrun.
  destruct (w_container_ip W (trace s) _) as [ip|msg] eqn:Hq.
  2:{ injection Hrun as <- <-.
      exists [], [EvContainersGet
                    (base +:+ Str.of_Z (Z.of_nat (List.length nodes) + 1))].
      rewrite app_nil_r.
      split; [reflexivity | split; [reflexivity | intros r H; discriminate H]]. }
  cbn [ret] in Hrun. destruct (IPv4Address ip) as [a|].
  2:{ injection Hrun as <- <-.
      exists [], [EvContainersGet
                    (base +:+ Str.of_Z (Z.of_nat (List.length nodes) + 1))].
      rewrite app_nil_r.
      split; [reflexivity | split; [reflexivity | intros r H; discriminate H]]. }
  unfold bind at 1 in Hrun. cbn [ret] in Hrun.
  unfold bind at 1 in Hrun. unfold alloc at 1 in Hrun.
  cbn [heap trace] in Hrun.
  destruct (IH _ _ _ _ Hrun) as (added & evs & Hs & Hrm & Hf).
  cbn [heap trace] in Hs.
  eexists (_ :: added), (_ :: evs). rewrite Hs.
  split; [rewrite <- !app_assoc; reflexivity |]. split.
  - cbn [removals]. exact Hrm.
  - intros r Hok. cbn [failures answer_failed]. rewrite Hq. cbn [app].
    apply (Hf r Hok).
Qed.

Lemma _nodes_accounted fuel base num_nodes s res s' :
  _nodes fuel W self base num_nodes s = (res, s') ->
  exists added evs,
    s' = mkState (heap s ++ added) (trace s ++ evs) /\
    removals evs = [] /\
    (forall r, res = Ok r -> failures W (trace s) evs = []).
Proof.
  unfold _nodes. unfold bind at 1. rewrite docker_from_env_run.
  destruct (w_docker_from_env W (trace s)) as [msg|] eqn:Hclient; intros Hrun.
  - injection Hrun as <- <-. exists [], [EvDockerFromEnv]. rewrite app_nil_r.
    split; [reflexivity | split; [reflexivity | intros r H; discriminate H]].
  - destruct (_nodes_loop_accounted base num_nodes fuel [] _ res s' Hrun)
      as (added & evs & Hs & Hrm & Hf).
    cbn [add_events heap trace] in Hs, Hf.
    exists added, (EvDockerFromEnv :: evs). rewrite Hs.
    split; [rewrite <- app_assoc; reflexivity |]. split.
    + cbn [removals]. exact Hrm.
    + intros r Hok. cbn [failures answer_failed]. rewrite Hclient. cbn [app].
      apply (Hf r Hok).
Qed.

Lemma role_nodes_accounted fuel ctr_key count_key s res s' :
  role_nodes fuel W self ctr_key count_key s = (res, s') ->
  exists added evs,
    s' = mkState (heap s ++ added) (trace s ++ evs) /\
    removals evs = [] /\
    (forall r, res = Ok r -> failures W (trace s) evs = []).
Proof.
  assert (Hstop : forall (e : exn),
            (@Raise (list loc) e, s) = (res, s') ->
            exists added evs,
              s' = mkState (heap s ++ added) (trace s ++ evs) /\
              removals evs = [] /\
              (forall r, res = Ok r -> failures W (trace s) evs = [])).
  { intros e H. injection H as <- <-. exists [], []. rewrite !app_nil_r. destruct s.
    split; [reflexivity | split; [reflexivity | intros r H; discriminate H]]. }
  unfold role_nodes, dict_getitem, load_dict, load.
  unfold bind at 1. unfold bind at 1. unfold bind at 1.
  destruct (nth_error (heap s) (_variables self)) as [o|]; [| apply Hstop].
  destruct o; try apply Hstop.
  cbn [ret]. destruct (Py.dict_get String.eqb ctr_key d); [| apply Hstop].
  cbn [ret].
  unfold bind at 1. unfold bind at 1. unfold bind at 1.
  destruct (nth_error (heap s) (_variables self)) as [o|]; [| apply Hstop].
  destruct o; try apply Hstop.
  cbn [ret]. destruct (Py.dict_get String.eqb count_key d0); [| apply Hstop].
  cbn [ret]. unfold int. unfold bind at 1.
  destruct (Str.to_Z s1); [| apply Hstop].
  cbn [ret]. apply _nodes_accounted.
Qed.

End Accounting.

Section AccountingActions.
Import DcosDocker.
Variable W : World.

Lemma destroy_run self variables s :
  nth_error (heap s) (_variables self) = Some (ODict variables) ->
  destroy W self s
  = match make_outcome W self variables "clean" (trace s) with
    | Completed _ =>
        (Ok tt, add_events s [make_event self variables "clean";
                              EvRmtree (Pathlib.to_string (_path self)) true])
    | NonZeroExit e =>
        (Raise (CalledProcessError e),
         add_events s [make_event self variables "clean"])
    | NotStarted msg =>
        (Raise (OSError msg), add_events s [make_event self variables "clean"])
    end.
Proof.
  intros Hv. unfold destroy, bind. rewrite (_make_run W self variables "clean" s Hv).
  destruct (make_outcome W self variables "clean" (trace s)); try reflexivity.
  unfold rmtree, bind. rewrite ask_run. cbn [heap trace add_events].
  destruct (w_rmtree W _ _); cbn [ret]; unfold add_events; cbn [heap trace];
    rewrite <- app_assoc; reflexivity.
Qed.

Lemma run_action_accounted self variables fuel a s res s' :
  nth_error (heap s) (_variables self) = Some (ODict variables) ->
  run_action W self fuel a s = (res, s') ->
  exists added evs,
    s' = mkState (heap s ++ added) (trace s ++ evs) /\
    (a <> ADestroy -> removals evs = []) /\
    (res = Ok tt -> Forall accounted (failures W (trace s) evs)).
Proof.
  intros Hv Hrun.
  assert (Hroles : forall ctr_key count_key,
            (role_nodes fuel W self ctr_key count_key ;; ret tt) s = (res, s') ->
            exists added evs,
              s' = mkState (heap s ++ added) (trace s ++ evs) /\
              (a <> ADestroy -> removals evs = []) /\
              (res = Ok tt -> Forall accounted (failures W (trace s) evs))).
  { intros ctr_key count_key H. unfold bind in H.
    destruct (role_nodes fuel W self ctr_key count_key s) as [r0 s0] eqn:Hr.
    destruct (role_nodes_accounted W self fuel ctr_key count_key s r0 s0 Hr)
      as (added & evs & -> & Hrm & Hf).
    exists added, evs.
    destruct r0 as [nodes|e|]; injection H as <- <-;
      (split; [reflexivity | split; [intros _; exact Hrm |]]).
    - intros _. rewrite (Hf nodes eq_refl). constructor.
    - discriminate.
    - discriminate. }
  destruct a; cbn [run_action] in Hrun.
  - change (_create_containers W self) with (create_with_tries W self 30) in Hrun.
    destruct (create_with_tries_accounted W self variables 29 s Hv)
      as (evs & Hs & Hrm & Hacc).
    rewrite Hrun in Hs, Hacc. cbn [fst snd] in Hs, Hacc. subst s'.
    exists [], evs. rewrite app_nil_r.
    split; [reflexivity | split; [intros _; exact Hrm | exact Hacc]].
  - unfold postflight in Hrun.
    rewrite (_make_run W self variables "postflight" s Hv) in Hrun.
    injection Hrun as <- <-.
    exists [], [make_event self variables "postflight"]. rewrite app_nil_r.
    split; [reflexivity | split; [reflexivity |]].
    cbn [failures]. rewrite make_failed.
    destruct (make_outcome W self variables "postflight" (trace s));
      [constructor | discriminate | discriminate].
  - rewrite (destroy_run self variables s Hv) in Hrun.
    destruct (make_outcome W self variables "clean" (trace s)) eqn:Ho;
      injection Hrun as <- <-.
    + exists [], [make_event self variables "clean";
                  EvRmtree (Pathlib.to_string (_path self)) true].
      rewrite app_nil_r.
      split; [reflexivity | split; [intros H; contradiction H; reflexivity |]].
      intros _. cbn [failures]. rewrite make_failed, Ho. cbn [app].
      destruct (answer_failed W _ _); repeat constructor.
    + exists [], [make_event self variables "clean"]. rewrite app_nil_r.
      split; [reflexivity | split; [reflexivity | discriminate]].
    + exists [], [make_event self variables "clean"]. rewrite app_nil_r.
      split; [reflexivity | split; [reflexivity | discriminate]].
  - apply (Hroles "MASTER_CTR" "MASTERS"). exact Hrun.
  - apply (Hroles "AGENT_CTR" "AGENTS"). exact Hrun.
  - apply (Hroles "PUBLIC_AGENT_CTR" "PUBLIC_AGENTS"). exact Hrun.
Qed.

Lemma stage_files_quiet path items : forall h,
  removals (snd (stage_files W path items h)) = [] /\
  (fst (stage_files W path items h) = None ->
   failures W h (snd (stage_files W path items h)) = []).
Proof.
  induction items as [|[host inst] items IH]; intros h; cbn [stage_files].
  - split; reflexivity.
  - destruct (Pathlib.relative_to inst _) as [rel|]; [| split; [reflexivity | discriminate]].
    cbv zeta. destruct (w_copyfile W h _ _) as [msg|] eqn:Hcopy;
      [split; [reflexivity | discriminate] |].
    specialize (IH (h ++ [EvCopyfile (Pathlib.to_string host)
                            (Pathlib.to_string
                               (Pathlib.joinpath (Pathlib.div path "genconf") rel))])).
    destruct (stage_files W path items _) as [stopped evs]. cbn [fst snd] in *.
    destruct IH as [IH1 IH2]. split; [exact IH1 |].
    intros Hnone. cbn [failures answer_failed]. rewrite Hcopy. cbn [app].
    apply IH2. exact Hnone.
Qed.

(** A construction removes nothing, and one that succeeds met no failure
    but the conflicts its create action printed. *)
Lemma __init___accounted masters agents public_agents extra_config
    generate_config_path dcos_docker_path custom_ca_key live files tmp_dir_path
    s config items res s' :
  nth_error (heap s) extra_config = Some (OConfig config) ->
  nth_error (heap s) files = Some (OFiles items) ->
  __init__ W masters agents public_agents extra_config generate_config_path
           dcos_docker_path custom_ca_key live files tmp_dir_path s = (res, s') ->
  exists evs,
    trace s' = trace s ++ evs /\
    removals evs = [] /\
    (forall self, res = Ok self -> Forall accounted (failures W (trace s) evs)).
Proof.
  intros Hc Hf. rewrite (__init___run W _ _ _ _ _ _ _ _ _ _ s config items Hc Hf).
  unfold construction. cbv zeta.
  set (random := w_uuid4 W (trace s)).
  set (path := Pathlib.div tmp_dir_path ("dcos-docker-" +:+ random)).
  set (staging := staging_events random generate_config_path dcos_docker_path
                                 tmp_dir_path).
  assert (Hstaging : removals staging = []) by reflexivity.
  destruct (w_copytree W _ _ _ _) eqn:Htree.
  { intros H. injection H as <- <-. eexists. split; [reflexivity |].
    split; [reflexivity | discriminate]. }
  destruct (w_copyfile W _ _ _) eqn:Hfile.
  { intros H. injection H as <- <-. eexists. split; [reflexivity |].
    split; [reflexivity | discriminate]. }
  destruct (stage_files_quiet path items (trace s ++ staging)) as [Hq1 Hq2].
  destruct (fst (stage_files W path items (trace s ++ staging))) eqn:Hstaged.
  { intros H. injection H as <- <-.
    exists (staging ++ snd (stage_files W path items (trace s ++ staging))).
    split; [reflexivity |].
    split; [rewrite removals_app, Hq1; reflexivity | discriminate]. }
  destruct (w_docker_driver W _) as [host|msg] eqn:Hprobe.
  2:{ intros H. injection H as <- <-.
      exists (staging ++ snd (stage_files W path items (trace s ++ staging))
              ++ [EvDockerInfo]).
      split; [reflexivity |].
      split; [rewrite !removals_app, Hq1; reflexivity | discriminate]. }
  set (self0 := mkDCOS_Docker live path (List.length (heap s))).
  set (variables := parameter_set W host random masters agents public_agents
                                  config custom_ca_key).
  set (assembled := mkState _ _).
  assert (Hv : nth_error (heap assembled) (_variables self0) = Some (ODict variables))
    by apply nth_error_snoc.
  destruct (create_with_tries_accounted W self0 variables 29 assembled Hv)
    as (evs & Hs & Hrm & Hacc).
  change (create_with_tries W self0 30) with (_create_containers W self0) in *.
  assert (Hfront : failures W (trace s) (staging ++ snd (stage_files W path items
                                                         (trace s ++ staging))
                                         ++ [EvDockerInfo]) = []).
  { rewrite failures_app.
    assert (Hs0 : failures W (trace s) staging = []).
    { clear - Htree Hfile. subst staging path random.
      unfold staging_events in *.
      cbn [firstn failures answer_failed app] in *.
      rewrite <- ?app_assoc. cbn [app].
      rewrite Htree, Hfile. reflexivity. }
    rewrite Hs0. cbn [map app].
    rewrite failures_app, (Hq2 eq_refl). cbn [map app failures answer_failed].
    rewrite <- app_assoc, Hprobe. reflexivity. }
  destruct (_create_containers W self0 assembled) as [[u|e|] s1] eqn:Hcreate;
    cbn [fst snd] in Hs, Hacc; intros H; injection H as <- <-; subst s1;
    exists (staging ++ snd (stage_files W path items (trace s ++ staging))
            ++ [EvDockerInfo] ++ evs);
    (split; [unfold add_events, assembled; cbn [heap trace];
             rewrite <- !app_assoc; reflexivity |]);
    (split; [rewrite !removals_app, Hq1, Hrm; reflexivity |]);
    try discriminate.
  intros self _.
  replace (staging ++ snd (stage_files W path items (trace s ++ staging))
           ++ [EvDockerInfo] ++ evs)
    with ((staging ++ snd (stage_files W path items (trace s ++ staging))
           ++ [EvDockerInfo]) ++ evs)
    by (rewrite <- !app_assoc; reflexivity).
  apply Forall_accounted_app.
  - rewrite Hfront. constructor.
  - destruct u. unfold assembled in Hacc. cbn [trace] in Hacc.
    apply Hacc. reflexivity.
Qed.

End AccountingActions.

Lemma run_as_root_accounted W self args live env s a d res s' :
  nth_error (heap s) args = Some (OList a) ->
  env_items (heap s) env = Some d ->
  NodePy.run_as_root W self args live env s = (res, s') ->
  exists evs,
    trace s' = trace s ++ evs /\
    removals evs = [] /\
    (forall p, res = Ok p -> failures W (trace s) evs = []).
Proof.
  intros Ha Hd.
  destruct (compose_ssh_command_run self args env s a d Ha Hd)
    as (added & r & Hrun & Hres & _).
  unfold NodePy.run_as_root.
  erewrite bind_ok by exact Hrun.
  assert (Hl : load_list r (mkState (heap s ++ added) (trace s))
               = (Ok (NodePy.ssh_head self ++ export_fragments d ++ a),
                  mkState (heap s ++ added) (trace s))).
  { unfold load_list, load. unfold bind. simpl. rewrite Hres. reflexivity. }
  erewrite bind_ok by exact Hl.
  unfold run_subprocess, bind. rewrite ask_run. cbn [heap trace].
  intros H.
  exists [EvRunSubprocess (NodePy.ssh_head self ++ export_fragments d ++ a) None live].
  destruct (w_run_subprocess W (trace s)
              (NodePy.ssh_head self ++ export_fragments d ++ a) None live) eqn:Ho;
    injection H as <- <-;
    (split; [reflexivity | split; [reflexivity |]]).
  - intros p0 _. unfold failures, answer_failed. rewrite Ho. reflexivity.
  - discriminate.
  - discriminate.
Qed.

(** C6. [destroy] runs [make ... clean] first. When that fails the error
    is raised and the working directory is left alone; when it succeeds
    the working directory is removed next, with [ignore_errors], and
    [destroy] ends well whatever becomes of the removal. No other
    operation of a cluster, nor its construction, nor a command run on a
    node removes a directory; and in an operation that ends well the only
    failed calls are this removal and the name conflicts that the create
    action printed before it tried again. *)
Theorem destroy_cleans_then_removes :
  forall (W : World) (self : DcosDocker.DCOS_Docker)
         (variables : list (string * string)) (s : state),
    nth_error (heap s) (DcosDocker._variables self) = Some (ODict variables) ->
    (DcosDocker.destroy W self s
     = match make_outcome W self variables "clean" (trace s) with
       | Completed _ =>
           (Ok tt,
            add_events s [make_event self variables "clean";
                          EvRmtree (Pathlib.to_string (DcosDocker._path self)) true])
       | NonZeroExit e =>
           (Raise (CalledProcessError e),
            add_events s [make_event self variables "clean"])
       | NotStarted msg =>
           (Raise (OSError msg), add_events s [make_event self variables "clean"])
       end) /\
    (forall fuel a res s',
       run_action W self fuel a s = (res, s') ->
       exists evs,
         trace s' = trace s ++ evs /\
         (a <> ADestroy -> removals evs = []) /\
         (res = Ok tt -> Forall accounted (failures W (trace s) evs))) /\
    (forall masters agents public_agents extra_config generate_config_path
            dcos_docker_path custom_ca_key live files tmp_dir_path
            s0 config items res s0',
       nth_error (heap s0) extra_config = Some (OConfig config) ->
       nth_error (heap s0) files = Some (OFiles items) ->
       DcosDocker.__init__ W masters agents public_agents extra_config
         generate_config_path dcos_docker_path custom_ca_key live files
         tmp_dir_path s0 = (res, s0') ->
       exists evs,
         trace s0' = trace s0 ++ evs /\
         removals evs = [] /\
         (forall cluster, res = Ok cluster ->
                          Forall accounted (failures W (trace s0) evs))) /\
    (forall node args live env s0 a d res s0',
       nth_error (heap s0) args = Some (OList a) ->
       env_items (heap s0) env = Some d ->
       NodePy.run_as_root W node args live env s0 = (res, s0') ->
       exists evs,
         trace s0' = trace s0 ++ evs /\
         removals evs = [] /\
         (forall p, res = Ok p -> failures W (trace s0) evs = [])).
Proof.
  intros W self variables s Hv. split; [| split; [| split]].
  - apply destroy_run. exact Hv.
  - intros fuel a res s' Hrun.
    destruct (run_action_accounted W self variables fuel a s res s' Hv Hrun)
      as (added & evs & -> & Hrm & Hacc).
    exists evs. split; [reflexivity | split; assumption].
  - intros. eapply __init___accounted; eassumption.
  - intros. eapply run_as_root_accounted; eassumption.
Qed.

Lemma destroy_cleans_then_removes_witness :
  DcosDocker.destroy one_address_world Demo.cluster Demo.created
  = (Ok tt,
     add_events Demo.created
       [make_event Demo.cluster Demo.parameters "clean";
        EvRmtree "/tmp/dcos-docker-0b1f" true]) /\
  w_rmtree one_address_world
    (trace Demo.created ++ [make_event Demo.cluster Demo.parameters "clean"])
    "/tmp/dcos-docker-0b1f" = Some "Permission denied".
Proof.
  split; [| reflexivity].
  exact (proj1 (destroy_cleans_then_removes one_address_world Demo.cluster
                  Demo.parameters Demo.created eq_refl)).
Defined.

(** * Further properties of the code *)

(** ** Commands run on a node *)

Lemma load_list_at r s l :
  nth_error (heap s) r = Some (OList l) -> load_list r s = (Ok l, s).
Proof. intros H. unfold load_list, load, bind. rewrite H. reflexivity. Qed.

Lemma env_items_old h added env d :
  env_items h env = Some d -> env_items (h ++ added) env = Some d.
Proof.
  destruct env as [e|]; simpl; [| auto].
  destruct (nth_error h e) as [[]|] eqn:He; try discriminate.
  intros H. rewrite (nth_error_old h added e _ He). exact H.
Qed.

Lemma export_fragments_length d :
  List.length (export_fragments d) = 2 * List.length d.
Proof.
  unfold export_fragments.
  induction d as [|kv d IH]; cbn [flat_map List.length app]; [reflexivity |].
  rewrite IH. lia.
Qed.

(** X1. [run_as_root] runs one child process: the command line
    [compose_ssh_command] builds for the same arguments, with no working
    directory and the caller's logging flag. It returns the finished
    process, raises the [CalledProcessError] of a non-zero exit as it is,
    and changes no object the caller holds. *)
Theorem run_as_root_runs_composed_command :
  forall (W : World) (self : Node) (args : loc) (env : option loc)
         (live : bool) (s : state) (a : list string) (d : list (string * string)),
    nth_error (heap s) args = Some (OList a) ->
    env_items (heap s) env = Some d ->
    let argv := NodePy.ssh_head self ++ export_fragments d ++ a in
    exists added,
      NodePy.run_as_root W self args live env s
      = (match w_run_subprocess W (trace s) argv None live with
         | Completed p => Ok p
         | NonZeroExit e => Raise (CalledProcessError e)
         | NotStarted msg => Raise (OSError msg)
         end,
         mkState (heap s ++ added)
                 (trace s ++ [EvRunSubprocess argv None live])).
Proof.
  intros W self args env live s a d Ha Hd argv.
  destruct (compose_ssh_command_run self args env s a d Ha Hd)
    as (added & r & Hrun & Hres & _).
  exists added. unfold NodePy.run_as_root.
  erewrite bind_ok by exact Hrun.
  erewrite bind_ok by (apply load_list_at; exact Hres).
  fold argv. unfold run_subprocess, bind. rewrite ask_run. cbn [heap trace].
  destruct (w_run_subprocess W (trace s) argv None live); reflexivity.
Qed.

Lemma run_as_root_runs_composed_command_witness :
  exists added,
    NodePy.run_as_root (Demo.world 0 0) demo_node 0 true (Some 1) shell_caller
    = (Ok (mkCompletedProcess
             (NodePy.ssh_head demo_node ++ ["export A='1'"; "&&"; "echo"; "$USER"])
             0 (Py.VBytes "") (Py.VBytes "")),
       mkState (heap shell_caller ++ added)
               [EvRunSubprocess
                  (NodePy.ssh_head demo_node ++ ["export A='1'"; "&&"; "echo"; "$USER"])
                  None true]).
Proof.
  exact (run_as_root_runs_composed_command (Demo.world 0 0) demo_node 0 (Some 1) true
           shell_caller ["echo"; "$USER"] [("A", "1")] eq_refl eq_refl).
Defined.

(** X2. [popen_as_root] starts the command line [compose_ssh_command]
    builds and hands the started process back without waiting for it: the
    only error it can raise is that the child could not be started, never a
    [CalledProcessError]. *)
Theorem popen_as_root_does_not_wait :
  forall (W : World) (self : Node) (args : loc) (env : option loc)
         (s : state) (a : list string) (d : list (string * string)),
    nth_error (heap s) args = Some (OList a) ->
    env_items (heap s) env = Some d ->
    let argv := NodePy.ssh_head self ++ export_fragments d ++ a in
    exists added,
      NodePy.popen_as_root W self args env s
      = (match w_popen W (trace s) argv with
         | None => Ok argv
         | Some msg => Raise (OSError msg)
         end,
         mkState (heap s ++ added) (trace s ++ [EvPopen argv])).
Proof.
  intros W self args env s a d Ha Hd argv.
  destruct (compose_ssh_command_run self args env s a d Ha Hd)
    as (added & r & Hrun & Hres & _).
  exists added. unfold NodePy.popen_as_root.
  erewrite bind_ok by exact Hrun.
  erewrite bind_ok by (apply load_list_at; exact Hres).
  fold argv. unfold popen. unfold bind. rewrite os_call_run. cbn [heap trace].
  destruct (w_popen W (trace s) argv); reflexivity.
Qed.

Lemma popen_as_root_does_not_wait_witness :
  exists added,
    NodePy.popen_as_root (Demo.world 0 0) demo_node 0 (Some 1) shell_caller
    = (Ok (NodePy.ssh_head demo_node ++ ["export A='1'"; "&&"; "echo"; "$USER"]),
       mkState (heap shell_caller ++ added)
               [EvPopen (NodePy.ssh_head demo_node
                         ++ ["export A='1'"; "&&"; "echo"; "$USER"])]).
Proof.
  exact (popen_as_root_does_not_wait (Demo.world 0 0) demo_node 0 (Some 1)
           shell_caller ["echo"; "$USER"] [("A", "1")] eq_refl eq_refl).
Defined.

(** X3. Every call of [compose_ssh_command] returns a new list: it is
    neither [args] nor an earlier result, two calls with the same arguments
    return two different lists with the same items, [args] and [env] still
    hold what they held, and the list has eleven items for the [ssh] head,
    two for each variable of [env] and the items of [args]. *)
Theorem compose_ssh_command_result_is_new :
  forall (self : Node) (args : loc) (env : option loc) (s : state)
         (a : list string) (d : list (string * string)),
    nth_error (heap s) args = Some (OList a) ->
    env_items (heap s) env = Some d ->
    exists r1 s1 r2 s2,
      NodePy.compose_ssh_command self args env s = (Ok r1, s1) /\
      NodePy.compose_ssh_command self args env s1 = (Ok r2, s2) /\
      List.length (heap s) <= r1 /\ r1 < r2 /\
      nth_error (heap s2) r1
        = Some (OList (NodePy.ssh_head self ++ export_fragments d ++ a)) /\
      nth_error (heap s2) r2
        = Some (OList (NodePy.ssh_head self ++ export_fragments d ++ a)) /\
      nth_error (heap s2) args = Some (OList a) /\
      env_items (heap s2) env = Some d /\
      List.length (NodePy.ssh_head self ++ export_fragments d ++ a)
      = 11 + 2 * List.length d + List.length a.
Proof.
  intros self args env s a d Ha Hd.
  destruct (compose_ssh_command_run self args env s a d Ha Hd)
    as (added1 & r1 & Hrun1 & Hres1 & Hr1).
  set (s1 := mkState (heap s ++ added1) (trace s)) in *.
  assert (Ha1 : nth_error (heap s1) args = Some (OList a))
    by (apply nth_error_old; exact Ha).
  assert (Hd1 : env_items (heap s1) env = Some d)
    by (apply env_items_old; exact Hd).
  destruct (compose_ssh_command_run self args env s1 a d Ha1 Hd1)
    as (added2 & r2 & Hrun2 & Hres2 & Hr2).
  exists r1, s1, r2, (mkState (heap s1 ++ added2) (trace s1)).
  assert (Hlt : r1 < List.length (heap s1)).
  { apply nth_error_Some. unfold s1. cbn [heap]. rewrite Hres1. discriminate. }
  repeat split; try assumption; cbn [heap].
  - lia.
  - apply nth_error_old. exact Hres1.
  - apply nth_error_old. exact Ha1.
  - apply env_items_old. exact Hd1.
  - rewrite !length_app, export_fragments_length. reflexivity.
Qed.

Lemma compose_ssh_command_result_is_new_witness :
  exists r1 s1 r2 s2,
    NodePy.compose_ssh_command demo_node 0 (Some 1) shell_caller = (Ok r1, s1) /\
    NodePy.compose_ssh_command demo_node 0 (Some 1) s1 = (Ok r2, s2) /\
    2 <= r1 /\ r1 < r2 /\
    nth_error (heap s2) r1 = nth_error (heap s2) r2 /\
    nth_error (heap s2) 0 = Some (OList ["echo"; "$USER"]).
Proof.
  destruct (compose_ssh_command_result_is_new demo_node 0 (Some 1) shell_caller
              ["echo"; "$USER"] [("A", "1")] eq_refl eq_refl)
    as (r1 & s1 & r2 & s2 & H1 & H2 & Hr1 & Hr2 & Hc1 & Hc2 & Ha & _).
  exists r1, s1, r2, s2. repeat split; try assumption.
  rewrite Hc1, Hc2. reflexivity.
Defined.

(** ** Names and paths of a constructed cluster *)

Lemma append_assoc (a b c : string) : (a +:+ b) +:+ c = a +:+ b +:+ c.
Proof. induction a as [|x a IH]; simpl; [reflexivity | rewrite IH; reflexivity]. Qed.

Lemma append_inj_l (pre a b : string) : pre +:+ a = pre +:+ b -> a = b.
Proof.
  induction pre as [|x pre IH]; simpl; intros H; [exact H |].
  injection H as H. auto.
Qed.

Lemma append_inj_length (a : string) : forall (b x y : string),
  String.length a = String.length b -> a +:+ x = b +:+ y -> a = b.
Proof.
  induction a as [|c a IH]; intros [|c' b] x y Hl H; simpl in *;
    try discriminate; [reflexivity |].
  injection H as Hc H. injection Hl as Hl.
  rewrite Hc, (IH b x y Hl H). reflexivity.
Qed.

Lemma split_no_separator c : forall s,
  Py.has_char c s = false -> Str.split c s = [s].
Proof.
  induction s as [|a s IH]; simpl; intros H; [reflexivity |].
  apply orb_false_iff in H. destruct H as [Ha Hs].
  rewrite Ha, (IH Hs). reflexivity.
Qed.

Lemma split_head c a s :
  Ascii.eqb a c = false ->
  exists p ps, Str.split c (String a s) = String a p :: ps.
Proof.
  intros Ha. simpl. rewrite Ha.
  destruct (Str.split c s) as [|p ps]; eauto.
Qed.

Lemma join_app sep (ns : list string) : forall (l : list string),
  ns <> [] -> l <> [] ->
  Str.join sep (ns ++ l) = Str.join sep ns +:+ sep +:+ Str.join sep l.
Proof.
  induction ns as [|n ns IH]; intros l Hns Hl; [congruence |].
  destruct ns as [|n' ns].
  - destruct l as [|x l]; [congruence |]. reflexivity.
  - change (Str.join sep ((n :: n' :: ns) ++ l))
      with (n +:+ sep +:+ Str.join sep ((n' :: ns) ++ l)).
    rewrite IH by (auto; discriminate).
    change (Str.join sep (n :: n' :: ns))
      with (n +:+ sep +:+ Str.join sep (n' :: ns)).
    rewrite !append_assoc. reflexivity.
Qed.

Lemma to_string_names p :
  Pathlib.names p <> [] ->
  Pathlib.to_string p = Pathlib.root p +:+ Str.join "/" (Pathlib.names p).
Proof.
  intros H. unfold Pathlib.to_string.
  destruct (Pathlib.root p); [| reflexivity].
  destruct (Pathlib.names p); [congruence | reflexivity].
Qed.

(** The working directory [tmp_dir_path / 'dcos-docker-<random>'] always
    has a last name that starts with [dcos-docker-]. *)
Lemma working_directory_names tmp random :
  exists first more,
    Pathlib.div tmp ("dcos-docker-" +:+ random)
    = mkPath (Pathlib.root tmp) (Pathlib.names tmp ++ first :: more).
Proof.
  unfold Pathlib.div, Pathlib.of_string.
  change (Pathlib.splitroot ("dcos-docker-" +:+ random))
    with (EmptyString, "dcos-docker-" +:+ random).
  destruct (split_head "/" "d" ("cos-docker-" +:+ random) eq_refl) as (p & ps & Hs).
  change (String "d" ("cos-docker-" +:+ random)) with ("dcos-docker-" +:+ random) in Hs.
  rewrite Hs. exists (String "d" p), (filter Pathlib.keep_name ps). reflexivity.
Qed.

Lemma working_directory_plain tmp random :
  Py.has_char "/" random = false ->
  Pathlib.div tmp ("dcos-docker-" +:+ random)
  = mkPath (Pathlib.root tmp) (Pathlib.names tmp ++ ["dcos-docker-" +:+ random]).
Proof.
  intros H. unfold Pathlib.div, Pathlib.of_string.
  change (Pathlib.splitroot ("dcos-docker-" +:+ random))
    with (EmptyString, "dcos-docker-" +:+ random).
  cbv beta iota.
  rewrite (split_no_separator "/" ("dcos-docker-" +:+ random)) by (simpl; exact H).
  reflexivity.
Qed.

Lemma to_string_child r ns :
  exists pre, forall name,
    Pathlib.to_string (mkPath r (ns ++ [name])) = pre +:+ name.
Proof.
  destruct ns as [|n ns].
  - exists r. intros name. rewrite to_string_names by discriminate. reflexivity.
  - exists (r +:+ Str.join "/" (n :: ns) +:+ "/"). intros name.
    rewrite to_string_names by (simpl; discriminate). cbn [Pathlib.root Pathlib.names].
    rewrite join_app by discriminate. rewrite !append_assoc. reflexivity.
Qed.

Section Constructed.
Import DcosDocker.
Variable W : World.


End Constructed.

Lemma demo_construction_ok :
  demo_construction (Demo.world 0 0) Demo.caller
  = (Ok demo_constructed, snd (demo_construction (Demo.world 0 0) Demo.caller)).
Proof. vm_compute. reflexivity. Qed.

(** X4. The parameter set of a constructed cluster: its keys are pairwise
    different; the eight base keys are always there, with the counts in
    decimal and the container prefixes built from the identifier of the
    working directory; [EXTRA_GENCONF_CONFIG] is there exactly when the
    extra configuration is not empty, with its YAML dump; [MASTER_MOUNTS]
    is there exactly when a CA key was given, and mounts that key at
    [/var/lib/dcos/pki/tls/CA/private/custom_ca.key]. *)
Theorem parameter_set_entries :
  forall (W : World) (masters agents public_agents : Z) (extra_config : loc)
         (generate_config_path dcos_docker_path : Path)
         (custom_ca_key : option Path) (live : bool) (files : loc)
         (tmp_dir_path : Path) (s : state)
         (config : list (string * Yaml)) (items : list (Path * Path))
         (self : DcosDocker.DCOS_Docker) (s' : state),
    nth_error (heap s) extra_config = Some (OConfig config) ->
    nth_error (heap s) files = Some (OFiles items) ->
    DcosDocker.__init__ W masters agents public_agents extra_config
      generate_config_path dcos_docker_path custom_ca_key live files
      tmp_dir_path s = (Ok self, s') ->
    let random := w_uuid4 W (trace s) in
    exists variables,
      nth_error (heap s') (DcosDocker._variables self) = Some (ODict variables) /\
      NoDup (map fst variables) /\
      List.length variables
      = 8 + (match config with [] => 0 | _ :: _ => 1 end)
          + (match custom_ca_key with None => 0 | Some _ => 1 end) /\
      Py.dict_get String.eqb "MESOS_SYSTEMD_ENABLE_SUPPORT" variables = Some "false" /\
      Py.dict_get String.eqb "MASTERS" variables = Some (Str.of_Z masters) /\
      Py.dict_get String.eqb "AGENTS" variables = Some (Str.of_Z agents) /\
      Py.dict_get String.eqb "PUBLIC_AGENTS" variables = Some (Str.of_Z public_agents) /\
      Py.dict_get String.eqb "MASTER_CTR" variables
        = Some ("dcos-master-" +:+ random +:+ "-") /\
      Py.dict_get String.eqb "AGENT_CTR" variables
        = Some ("dcos-agent-" +:+ random +:+ "-") /\
      Py.dict_get String.eqb "PUBLIC_AGENT_CTR" variables
        = Some ("dcos-public-agent-" +:+ random +:+ "-") /\
      Py.dict_get String.eqb "EXTRA_GENCONF_CONFIG" variables
        = match config with
          | [] => None
          | _ :: _ => Some (w_yaml_dump W config)
          end /\
      Py.dict_get String.eqb "MASTER_MOUNTS" variables
        = match custom_ca_key with
          | None => None
          | Some key =>
              Some ("-v " +:+ Pathlib.to_string key
                    +:+ ":/var/lib/dcos/pki/tls/CA/private/custom_ca.key")
          end.
Proof.
  intros W masters agents public_agents extra_config gcp ddp custom_ca_key live
         files tmp s config items self s' Hc Hf Hrun random.
  destruct (__init___ok W _ _ _ _ _ _ _ _ _ _ s config items self s' Hc Hf Hrun)
    as (host & evs & k & _ & _ & Hself & Hs' & _).
  subst self s'. cbn [DcosDocker._variables heap].
  eexists. split; [apply nth_error_snoc |].
  fold random.
  destruct config as [|c config], custom_ca_key as [key|];
    (split; [cbn [parameter_set map fst app];
             repeat (constructor; [simpl; intuition discriminate |]); constructor |]);
    repeat split; reflexivity.
Qed.

Lemma parameter_set_entries_witness :
  exists variables,
    nth_error (heap (snd (demo_construction (Demo.world 0 0) Demo.caller))) 2
    = Some (ODict variables) /\
    List.length variables = 9 /\
    Py.dict_get String.eqb "MASTERS" variables = Some "1" /\
    Py.dict_get String.eqb "EXTRA_GENCONF_CONFIG" variables
    = Some "cluster_docker_credentials_enabled: true" /\
    Py.dict_get String.eqb "MASTER_MOUNTS" variables = None.
Proof.
  destruct (parameter_set_entries (Demo.world 0 0) 1 0 2 0
              (Pathlib.of_string "/home/me/dcos_generate_config.sh")
              (Pathlib.of_string "/home/me/dcos-docker")
              None false 1 (Pathlib.of_string "/tmp") Demo.caller
              [("cluster_docker_credentials_enabled", YBool true)]
              [(Pathlib.of_string "/home/me/license.txt",
                Pathlib.of_string "/genconf/license.txt")]
              demo_constructed
              (snd (demo_construction (Demo.world 0 0) Demo.caller))
              eq_refl eq_refl demo_construction_ok)
    as (variables & Hv & _ & Hlen & _ & Hm & _ & _ & _ & _ & _ & He & Hk).
  exists variables. repeat split; assumption.
Defined.



(** X6. In a constructed cluster no container name is asked for under two
    roles: the names built from [MASTER_CTR], [AGENT_CTR] and
    [PUBLIC_AGENT_CTR] are different whatever the numbers. *)
Theorem roles_name_different_containers :
  forall (W : World) (masters agents public_agents : Z) (extra_config : loc)
         (generate_config_path dcos_docker_path : Path)
         (custom_ca_key : option Path) (live : bool) (files : loc)
         (tmp_dir_path : Path) (s : state)
         (config : list (string * Yaml)) (items : list (Path * Path))
         (self : DcosDocker.DCOS_Docker) (s' : state),
    nth_error (heap s) extra_config = Some (OConfig config) ->
    nth_error (heap s) files = Some (OFiles items) ->
    DcosDocker.__init__ W masters agents public_agents extra_config
      generate_config_path dcos_docker_path custom_ca_key live files
      tmp_dir_path s = (Ok self, s') ->
    exists variables master_ctr agent_ctr public_agent_ctr,
      nth_error (heap s') (DcosDocker._variables self) = Some (ODict variables) /\
      Py.dict_get String.eqb "MASTER_CTR" variables = Some master_ctr /\
      Py.dict_get String.eqb "AGENT_CTR" variables = Some agent_ctr /\
      Py.dict_get String.eqb "PUBLIC_AGENT_CTR" variables = Some public_agent_ctr /\
      forall ev k l m n,
        (In ev (query_events master_ctr k l) ->
         ~ In ev (query_events agent_ctr m n) /\
         ~ In ev (query_events public_agent_ctr m n)) /\
        (In ev (query_events agent_ctr k l) ->
         ~ In ev (query_events public_agent_ctr m n)).
Proof.
  intros W masters agents public_agents extra_config gcp ddp custom_ca_key live
         files tmp s config items self s' Hc Hf Hrun.
  destruct (__init___ok W _ _ _ _ _ _ _ _ _ _ s config items self s' Hc Hf Hrun)
    as (host & evs & k & _ & _ & Hself & Hs' & _).
  set (random := w_uuid4 W (trace s)) in *.
  exists (parameter_set W host random masters agents public_agents config custom_ca_key),
         ("dcos-master-" +:+ random +:+ "-"),
         ("dcos-agent-" +:+ random +:+ "-"),
         ("dcos-public-agent-" +:+ random +:+ "-").
  split; [subst self s'; cbn [DcosDocker._variables heap]; apply nth_error_snoc |].
  split; [destruct config, custom_ca_key; reflexivity |].
  split; [destruct config, custom_ca_key; reflexivity |].
  split; [destruct config, custom_ca_key; reflexivity |].
  intros ev k0 l m n. unfold query_events.
  split; [intros Hin; split | intros Hin]; intros Hin';
    apply in_map_iff in Hin; destruct Hin as (x & Hx & _);
    apply in_map_iff in Hin'; destruct Hin' as (y & Hy & _);
    rewrite <- Hx in Hy; simpl in Hy; discriminate.
Qed.

Lemma roles_name_different_containers_witness :
  exists variables master_ctr agent_ctr public_agent_ctr,
    nth_error (heap (snd (demo_construction (Demo.world 0 0) Demo.caller))) 2
    = Some (ODict variables) /\
    Py.dict_get String.eqb "MASTER_CTR" variables = Some master_ctr /\
    Py.dict_get String.eqb "AGENT_CTR" variables = Some agent_ctr /\
    Py.dict_get String.eqb "PUBLIC_AGENT_CTR" variables = Some public_agent_ctr /\
    forall ev, In ev (query_events agent_ctr 1 2) ->
               ~ In ev (query_events public_agent_ctr 1 2).
Proof.
  destruct (roles_name_different_containers (Demo.world 0 0) 1 0 2 0
              (Pathlib.of_string "/home/me/dcos_generate_config.sh")
              (Pathlib.of_string "/home/me/dcos-docker")
              None false 1 (Pathlib.of_string "/tmp") Demo.caller
              [("cluster_docker_credentials_enabled", YBool true)]
              [(Pathlib.of_string "/home/me/license.txt",
                Pathlib.of_string "/genconf/license.txt")]
              demo_constructed
              (snd (demo_construction (Demo.world 0 0) Demo.caller))
              eq_refl eq_refl demo_construction_ok)
    as (variables & m & a & p & Hv & Hm & Ha & Hp & Hdiff).
  exists variables, m, a, p. repeat split; try assumption.
  intros ev. exact (proj2 (Hdiff ev 1 2 1 2)).
Defined.

Lemma first_of_two_ok :
  demo_construction two_clusters_world Demo.caller
  = (Ok demo_constructed, snd (demo_construction two_clusters_world Demo.caller)).
Proof. vm_compute. reflexivity. Qed.

Lemma second_of_two_ok :
  demo_construction two_clusters_world
    (snd (demo_construction two_clusters_world Demo.caller))
  = (Ok (DcosDocker.mkDCOS_Docker false (Pathlib.of_string "/tmp/dcos-docker-77aa") 3),
     snd (demo_construction two_clusters_world
            (snd (demo_construction two_clusters_world Demo.caller)))).
Proof. vm_compute. reflexivity. Qed.

Lemma second_caller_config :
  nth_error (heap (snd (demo_construction two_clusters_world Demo.caller))) 0
  = Some (OConfig [("cluster_docker_credentials_enabled", YBool true)]) /\
  nth_error (heap (snd (demo_construction two_clusters_world Demo.caller))) 1
  = Some (OFiles [(Pathlib.of_string "/home/me/license.txt",
                   Pathlib.of_string "/genconf/license.txt")]).
Proof. vm_compute. split; reflexivity. Qed.

Lemma two_identifiers :
  w_uuid4 two_clusters_world (trace Demo.caller)
  <> w_uuid4 two_clusters_world
       (trace (snd (demo_construction two_clusters_world Demo.caller))) /\
  Py.has_char "/" (w_uuid4 two_clusters_world (trace Demo.caller)) = false /\
  Py.has_char "/"
    (w_uuid4 two_clusters_world
       (trace (snd (demo_construction two_clusters_world Demo.caller)))) = false.
Proof. vm_compute. repeat split; try reflexivity. discriminate. Qed.

(** X7. Two constructions under the same temporary directory whose
    identifiers differ do not collide: their working directories differ
    (identifiers hold no slash), and no container name of the one is a
    container name of the other (identifiers of the same length, as those
    of [uuid4] are). *)
Theorem constructions_do_not_collide :
  forall (W1 W2 : World) (masters1 agents1 public_agents1 : Z)
         (masters2 agents2 public_agents2 : Z) (extra_config1 extra_config2 : loc)
         (generate_config_path1 dcos_docker_path1 : Path)
         (generate_config_path2 dcos_docker_path2 : Path)
         (custom_ca_key1 custom_ca_key2 : option Path) (live1 live2 : bool)
         (files1 files2 : loc) (tmp_dir_path : Path) (s1 s2 : state)
         (config1 config2 : list (string * Yaml)) (items1 items2 : list (Path * Path))
         (cluster1 cluster2 : DcosDocker.DCOS_Docker) (s1' s2' : state),
    nth_error (heap s1) extra_config1 = Some (OConfig config1) ->
    nth_error (heap s1) files1 = Some (OFiles items1) ->
    nth_error (heap s2) extra_config2 = Some (OConfig config2) ->
    nth_error (heap s2) files2 = Some (OFiles items2) ->
    DcosDocker.__init__ W1 masters1 agents1 public_agents1 extra_config1
      generate_config_path1 dcos_docker_path1 custom_ca_key1 live1 files1
      tmp_dir_path s1 = (Ok cluster1, s1') ->
    DcosDocker.__init__ W2 masters2 agents2 public_agents2 extra_config2
      generate_config_path2 dcos_docker_path2 custom_ca_key2 live2 files2
      tmp_dir_path s2 = (Ok cluster2, s2') ->
    let random1 := w_uuid4 W1 (trace s1) in
    let random2 := w_uuid4 W2 (trace s2) in
    random1 <> random2 ->
    (Py.has_char "/" random1 = false -> Py.has_char "/" random2 = false ->
     Pathlib.to_string (DcosDocker._path cluster1)
     <> Pathlib.to_string (DcosDocker._path cluster2)) /\
    (String.length random1 = String.length random2 ->
     exists variables1 variables2,
       nth_error (heap s1') (DcosDocker._variables cluster1) = Some (ODict variables1) /\
       nth_error (heap s2') (DcosDocker._variables cluster2) = Some (ODict variables2) /\
       forall key1 key2 base1 base2 suffix1 suffix2,
         In key1 ["MASTER_CTR"; "AGENT_CTR"; "PUBLIC_AGENT_CTR"] ->
         In key2 ["MASTER_CTR"; "AGENT_CTR"; "PUBLIC_AGENT_CTR"] ->
         Py.dict_get String.eqb key1 variables1 = Some base1 ->
         Py.dict_get String.eqb key2 variables2 = Some base2 ->
         base1 +:+ suffix1 <> base2 +:+ suffix2).
Proof.
  intros W1 W2 m1 a1 p1 m2 a2 p2 ec1 ec2 gcp1 ddp1 gcp2 ddp2 ca1 ca2 live1 live2
         files1 files2 tmp s1 s2 config1 config2 items1 items2 c1 c2 s1' s2'
         Hc1 Hf1 Hc2 Hf2 Hrun1 Hrun2 random1 random2 Hne.
  destruct (__init___ok W1 _ _ _ _ _ _ _ _ _ _ s1 config1 items1 c1 s1' Hc1 Hf1 Hrun1)
    as (host1 & evs1 & k1 & _ & _ & Hself1 & Hs1' & _).
  destruct (__init___ok W2 _ _ _ _ _ _ _ _ _ _ s2 config2 items2 c2 s2' Hc2 Hf2 Hrun2)
    as (host2 & evs2 & k2 & _ & _ & Hself2 & Hs2' & _).
  fold random1 in Hself1, Hs1'. fold random2 in Hself2, Hs2'.
  split.
  - intros Hp1 Hp2. subst c1 c2. cbn [DcosDocker._path].
    rewrite (working_directory_plain tmp random1 Hp1),
            (working_directory_plain tmp random2 Hp2).
    destruct (to_string_child (Pathlib.root tmp) (Pathlib.names tmp)) as (pre & Hpre).
    rewrite !Hpre. intros Heq. apply append_inj_l in Heq.
    apply (append_inj_l "dcos-docker-") in Heq. contradiction.
  - intros Hlen. eexists _, _.
    split; [subst c1 s1'; cbn [DcosDocker._variables heap]; apply nth_error_snoc |].
    split; [subst c2 s2'; cbn [DcosDocker._variables heap]; apply nth_error_snoc |].
    intros key1 key2 base1 base2 x y Hk1 Hk2 Hb1 Hb2 Heq.
    simpl in Hk1, Hk2.
    destruct Hk1 as [<-|[<-|[<-|[]]]]; destruct Hk2 as [<-|[<-|[<-|[]]]];
      destruct config1, ca1; simpl in Hb1; injection Hb1 as <-;
      destruct config2, ca2; simpl in Hb2; injection Hb2 as <-;
      simpl in Heq; try discriminate;
      repeat (injection Heq as Heq);
      rewrite !append_assoc in Heq;
      apply (append_inj_length _ _ _ _ Hlen) in Heq; contradiction.
Qed.

Lemma constructions_do_not_collide_witness :
  Pathlib.to_string (DcosDocker._path demo_constructed)
  <> Pathlib.to_string
       (DcosDocker._path
          (DcosDocker.mkDCOS_Docker false (Pathlib.of_string "/tmp/dcos-docker-77aa") 3)).
Proof.
  exact (proj1 (constructions_do_not_collide two_clusters_world two_clusters_world
                  1 0 2 1 0 2 0 0
                  (Pathlib.of_string "/home/me/dcos_generate_config.sh")
                  (Pathlib.of_string "/home/me/dcos-docker")
                  (Pathlib.of_string "/home/me/dcos_generate_config.sh")
                  (Pathlib.of_string "/home/me/dcos-docker")
                  None None false false 1 1 (Pathlib.of_string "/tmp")
                  Demo.caller (snd (demo_construction two_clusters_world Demo.caller))
                  [("cluster_docker_credentials_enabled", YBool true)]
                  [("cluster_docker_credentials_enabled", YBool true)]
                  [(Pathlib.of_string "/home/me/license.txt",
                    Pathlib.of_string "/genconf/license.txt")]
                  [(Pathlib.of_string "/home/me/license.txt",
                    Pathlib.of_string "/genconf/license.txt")]
                  demo_constructed
                  (DcosDocker.mkDCOS_Docker false
                     (Pathlib.of_string "/tmp/dcos-docker-77aa") 3)
                  (snd (demo_construction two_clusters_world Demo.caller))
                  (snd (demo_construction two_clusters_world
                          (snd (demo_construction two_clusters_world Demo.caller))))
                  eq_refl eq_refl
                  (proj1 second_caller_config) (proj2 second_caller_config)
                  first_of_two_ok second_of_two_ok (proj1 two_identifiers))
           (proj1 (proj2 two_identifiers)) (proj2 (proj2 two_identifiers))).
Defined.

Section ResolvedNodes.
Import DcosDocker.
Variable W : World.
Variable self : DCOS_Docker.

(** What a successful [_nodes] leaves: the new objects are the nodes, one
    for each container, in the order of the containers. *)
Lemma _nodes_ok fuel base num_nodes s nodes s' :
  Z.to_nat num_nodes <= fuel ->
  _nodes fuel W self base num_nodes s = (Ok nodes, s') ->
  exists found,
    List.length found = Z.to_nat num_nodes /\
    nodes = seq (List.length (heap s)) (Z.to_nat num_nodes) /\
    s' = mkState (heap s ++ node_objects self found)
                 (trace s ++ [EvDockerFromEnv]
                          ++ query_events base 1 (Z.to_nat num_nodes)).
Proof.
  intros Hfuel Hrun. rewrite (_nodes_run W self fuel base num_nodes s Hfuel) in Hrun.
  destruct (w_docker_from_env W (trace s)) as [msg|]; [discriminate |].
  pose proof (inspect_all_length W base (Z.to_nat num_nodes) 1
                (trace s ++ [EvDockerFromEnv])) as [_ Hlen].
  destruct (inspect_all W base (Z.to_nat num_nodes) 1 (trace s ++ [EvDockerFromEnv]))
    as [found stopped].
  cbn [fst snd] in Hlen. destruct stopped as [e|]; [discriminate |].
  specialize (Hlen eq_refl). injection Hrun as Hn Hs.
  exists found. rewrite Hlen in Hs. auto.
Qed.

Lemma node_objects_at h found i :
  i < List.length found ->
  exists ip, nth_error (h ++ node_objects self found) (List.length h + i)
             = Some (ONode (mkNode ip (node_key self))).
Proof.
  intros Hi. rewrite nth_error_new. unfold node_objects. rewrite nth_error_map.
  destruct (nth_error found i) as [ip|] eqn:Hn.
  - exists ip. reflexivity.
  - apply nth_error_None in Hn. lia.
Qed.

End ResolvedNodes.

(** X8. Every node [_nodes] returns for a constructed cluster is reached
    with the key of the cluster: the [ssh] head composed for it has
    [<working directory>/include/ssh/id_rsa] after [-i] and the inspected
    address of the node as its target. *)
Theorem resolved_nodes_use_cluster_key :
  forall (W : World) (masters agents public_agents : Z) (extra_config : loc)
         (generate_config_path dcos_docker_path : Path)
         (custom_ca_key : option Path) (live : bool) (files : loc)
         (tmp_dir_path : Path) (s : state)
         (config : list (string * Yaml)) (items : list (Path * Path))
         (self : DcosDocker.DCOS_Docker) (s' : state),
    nth_error (heap s) extra_config = Some (OConfig config) ->
    nth_error (heap s) files = Some (OFiles items) ->
    DcosDocker.__init__ W masters agents public_agents extra_config
      generate_config_path dcos_docker_path custom_ca_key live files
      tmp_dir_path s = (Ok self, s') ->
    forall (fuel : nat) (base : string) (num_nodes : Z) (s1 s2 : state)
           (nodes : list loc) (r : loc),
      Z.to_nat num_nodes <= fuel ->
      DcosDocker._nodes fuel W self base num_nodes s1 = (Ok nodes, s2) ->
      In r nodes ->
      exists ip,
        nth_error (heap s2) r = Some (ONode (mkNode ip (node_key self))) /\
        NodePy.ssh_head (mkNode ip (node_key self))
        = ["ssh"; "-q"; "-o"; "StrictHostKeyChecking=no";
           "-i"; Pathlib.to_string (DcosDocker._path self) +:+ "/include/ssh/id_rsa";
           "-l"; "root";
           "-o"; "PreferredAuthentications=publickey";
           IP.to_string ip].
Proof.
  intros W masters agents public_agents extra_config gcp ddp custom_ca_key live
         files tmp s config items self s' Hc Hf Hrun fuel base num_nodes s1 s2
         nodes r Hfuel Hnodes Hin.
  destruct (__init___ok W _ _ _ _ _ _ _ _ _ _ s config items self s' Hc Hf Hrun)
    as (host & evs & k & _ & _ & Hself & _).
  destruct (_nodes_ok W self fuel base num_nodes s1 nodes s2 Hfuel Hnodes)
    as (found & Hlen & Hn & Hs2).
  subst nodes. apply in_seq in Hin.
  destruct (node_objects_at self (heap s1) found (r - List.length (heap s1)))
    as (ip & Hat); [lia |].
  replace (List.length (heap s1) + (r - List.length (heap s1))) with r in Hat by lia.
  exists ip. split; [rewrite Hs2; exact Hat |].
  unfold NodePy.ssh_head. cbn [_ssh_key_path ip_address].
  do 5 f_equal.
  destruct (working_directory_names tmp (w_uuid4 W (trace s))) as (first & more & Hwd).
  assert (Hnames : Pathlib.names (DcosDocker._path self) <> []).
  { rewrite Hself. cbn [DcosDocker._path]. rewrite Hwd. cbn [Pathlib.names].
    intros H. apply app_eq_nil in H. destruct H as [_ H]. discriminate. }
  rewrite to_string_names by (unfold node_key; cbn [Pathlib.names];
                              intros H; apply app_eq_nil in H; destruct H; discriminate).
  rewrite (to_string_names (DcosDocker._path self) Hnames).
  unfold node_key. cbn [Pathlib.root Pathlib.names].
  rewrite join_app by (auto; discriminate).
  rewrite append_assoc. reflexivity.
Qed.

Lemma resolved_nodes_use_cluster_key_witness :
  exists ip,
    nth_error
      (heap (snd (DcosDocker._nodes 1 (Demo.world 0 0) demo_constructed
                    "dcos-master-0b1f-" 1
                    (snd (demo_construction (Demo.world 0 0) Demo.caller))))) 3
    = Some (ONode (mkNode ip (node_key demo_constructed))) /\
    NodePy.ssh_head (mkNode ip (node_key demo_constructed))
    = ["ssh"; "-q"; "-o"; "StrictHostKeyChecking=no";
       "-i"; "/tmp/dcos-docker-0b1f" +:+ "/include/ssh/id_rsa";
       "-l"; "root";
       "-o"; "PreferredAuthentications=publickey";
       IP.to_string ip].
Proof.
  refine (resolved_nodes_use_cluster_key (Demo.world 0 0) 1 0 2 0
            (Pathlib.of_string "/home/me/dcos_generate_config.sh")
            (Pathlib.of_string "/home/me/dcos-docker")
            None false 1 (Pathlib.of_string "/tmp") Demo.caller
            [("cluster_docker_credentials_enabled", YBool true)]
            [(Pathlib.of_string "/home/me/license.txt",
              Pathlib.of_string "/genconf/license.txt")]
            demo_constructed
            (snd (demo_construction (Demo.world 0 0) Demo.caller))
            eq_refl eq_refl demo_construction_ok
            1 "dcos-master-0b1f-" 1
            (snd (demo_construction (Demo.world 0 0) Demo.caller))
            (snd (DcosDocker._nodes 1 (Demo.world 0 0) demo_constructed
                    "dcos-master-0b1f-" 1
                    (snd (demo_construction (Demo.world 0 0) Demo.caller))))
            [3] 3 _ _ _).
  - vm_compute. lia.
  - vm_compute. reflexivity.
  - simpl. auto.
Defined.

(** X9. A role accessor keeps no result: a second call makes a client
    again, asks the runtime for the same containers again and returns node
    objects none of which was returned by the first call, which stay as
    they were. *)
Theorem role_accessor_makes_new_nodes :
  forall (W : World) (self : DcosDocker.DCOS_Docker)
         (variables : list (string * string)) (s : state)
         (ctr_key count_key base : string) (num_nodes : Z) (fuel : nat)
         (nodes1 nodes2 : list loc) (s1 s2 : state),
    nth_error (heap s) (DcosDocker._variables self) = Some (ODict variables) ->
    Py.dict_get String.eqb ctr_key variables = Some base ->
    Py.dict_get String.eqb count_key variables = Some (Str.of_Z num_nodes) ->
    Z.to_nat num_nodes <= fuel ->
    DcosDocker.role_nodes fuel W self ctr_key count_key s = (Ok nodes1, s1) ->
    DcosDocker.role_nodes fuel W self ctr_key count_key s1 = (Ok nodes2, s2) ->
    (forall r, In r nodes1 -> ~ In r nodes2) /\
    List.length nodes1 = Z.to_nat num_nodes /\
    List.length nodes2 = Z.to_nat num_nodes /\
    (forall r, In r nodes1 -> nth_error (heap s2) r = nth_error (heap s1) r) /\
    trace s2 = trace s ++ [EvDockerFromEnv]
                       ++ query_events base 1 (Z.to_nat num_nodes)
                       ++ [EvDockerFromEnv]
                       ++ query_events base 1 (Z.to_nat num_nodes).
Proof.
  intros W self variables s ctr_key count_key base num_nodes fuel nodes1 nodes2
         s1 s2 Hv Hb Hc Hfuel Hrun1 Hrun2.
  rewrite (role_nodes_run W self variables fuel ctr_key count_key base num_nodes s
             Hv Hb Hc) in Hrun1.
  destruct (_nodes_ok W self fuel base num_nodes s nodes1 s1 Hfuel Hrun1)
    as (found1 & Hlen1 & Hn1 & Hs1).
  assert (Hv1 : nth_error (heap s1) (DcosDocker._variables self) = Some (ODict variables)).
  { rewrite Hs1. cbn [heap]. apply nth_error_old. exact Hv. }
  rewrite (role_nodes_run W self variables fuel ctr_key count_key base num_nodes s1
             Hv1 Hb Hc) in Hrun2.
  destruct (_nodes_ok W self fuel base num_nodes s1 nodes2 s2 Hfuel Hrun2)
    as (found2 & Hlen2 & Hn2 & Hs2).
  assert (Hheap1 : List.length (heap s1) = List.length (heap s) + Z.to_nat num_nodes).
  { rewrite Hs1. cbn [heap]. unfold node_objects.
    rewrite length_app, length_map, Hlen1. reflexivity. }
  repeat split.
  - intros r H1 H2. subst nodes1 nodes2.
    apply in_seq in H1. apply in_seq in H2. lia.
  - subst nodes1. apply length_seq.
  - subst nodes2. apply length_seq.
  - intros r H1. subst nodes1. apply in_seq in H1.
    rewrite Hs2. cbn [heap].
    destruct (nth_error (heap s1) r) as [o|] eqn:Ho.
    + apply nth_error_old. exact Ho.
    + apply nth_error_None in Ho. lia.
  - rewrite Hs2, Hs1. cbn [trace]. rewrite <- !app_assoc. reflexivity.
Qed.

Lemma role_accessor_makes_new_nodes_witness :
  let first := DcosDocker.role_nodes 2 (Demo.world 0 0) Demo.cluster
                 "PUBLIC_AGENT_CTR" "PUBLIC_AGENTS" Demo.created in
  let second := DcosDocker.role_nodes 2 (Demo.world 0 0) Demo.cluster
                  "PUBLIC_AGENT_CTR" "PUBLIC_AGENTS" (snd first) in
  fst first = Ok [1; 2] /\ fst second = Ok [3; 4] /\
  (forall r, In r [1; 2] -> ~ In r [3; 4]) /\
  trace (snd second)
  = trace Demo.created ++ [EvDockerFromEnv]
                       ++ query_events "dcos-public-agent-0b1f-" 1 2
                       ++ [EvDockerFromEnv]
                       ++ query_events "dcos-public-agent-0b1f-" 1 2.
Proof.
  intros first second.
  assert (H1 : first = (Ok [1; 2], snd first)) by (vm_compute; reflexivity).
  assert (H2 : DcosDocker.role_nodes 2 (Demo.world 0 0) Demo.cluster
                 "PUBLIC_AGENT_CTR" "PUBLIC_AGENTS" (snd first)
               = (Ok [3; 4], snd second)) by (vm_compute; reflexivity).
  destruct (role_accessor_makes_new_nodes (Demo.world 0 0) Demo.cluster
              Demo.parameters Demo.created "PUBLIC_AGENT_CTR" "PUBLIC_AGENTS"
              "dcos-public-agent-0b1f-" 2 2 [1; 2] [3; 4] (snd first) (snd second)
              eq_refl eq_refl eq_refl (le_n 2) H1 H2)
    as (Hnew & _ & _ & _ & Htrace).
  split; [rewrite H1; reflexivity |].
  split; [unfold second; rewrite H2; reflexivity |].
  split; [exact Hnew | exact Htrace].
Defined.

(** ** The outcome of a construction *)

Lemma run_events_app evs1 evs2 :
  run_events (evs1 ++ evs2) = run_events evs1 ++ run_events evs2.
Proof. apply filter_app. Qed.

Section CreateRuns.
Import DcosDocker.
Variable W : World.
Variable self : DCOS_Docker.
Variable variables : list (string * string).

Lemma create_with_tries_run_events n : forall s,
  nth_error (heap s) (_variables self) = Some (ODict variables) ->
  exists evs k,
    snd (create_with_tries W self (S n) s) = add_events s evs /\
    fst (create_with_tries W self (S n) s) <> Diverge /\
    k <= n /\
    run_events evs = repeat (make_event self variables "all") (S k).
Proof.
  induction n as [|n IH]; intros s Hv;
    rewrite (create_with_tries_step W self variables _ s Hv).
  - destruct (make_outcome W self variables "all" (trace s)) as [p|e|msg];
      [| destruct (conflictb e) |];
      eexists _, 0; repeat split; try reflexivity; try discriminate; try lia.
  - destruct (make_outcome W self variables "all" (trace s)) as [p|e|msg];
      [| destruct (conflictb e) |];
      try (eexists _, 0; repeat split; try reflexivity; try discriminate; lia).
    destruct (IH (add_events s [make_event self variables "all";
                                EvPrint (Py.str (pe_stderr e));
                                EvLogWarning retry_warning; EvSleep 10]) Hv)
      as (evs & k & Hs & Hd & Hk & Hr).
    exists ([make_event self variables "all";
             EvPrint (Py.str (pe_stderr e)); EvLogWarning retry_warning; EvSleep 10]
            ++ evs), (S k).
    rewrite Hs, add_events_add_events.
    repeat split; try assumption; try lia.
    rewrite run_events_app, Hr. reflexivity.
Qed.

End CreateRuns.

Section StagingRuns.
Variable W : World.

Lemma stage_files_no_runs path items : forall h,
  run_events (snd (stage_files W path items h)) = [].
Proof.
  induction items as [|[host inst] items IH]; intros h; simpl; [reflexivity |].
  destruct (Pathlib.relative_to inst (Pathlib.of_string "/genconf")); [| reflexivity].
  destruct (w_copyfile W h _ _); [reflexivity |].
  specialize (IH (h ++ [EvCopyfile (Pathlib.to_string host)
                          (Pathlib.to_string
                             (Pathlib.joinpath (Pathlib.div path "genconf") p))])).
  destruct (stage_files W path items _) as [stopped evs]. simpl in *. exact IH.
Qed.

End StagingRuns.

(** X10. A construction always ends, in one of two ways. Either it raises
    before the create action, and then it has run no child process and
    left the store as it was; or it has added the parameter set to the
    store and run [make ... all] between one and thirty times, each time
    in the working directory and with the logging flag of the constructor,
    and it ran no other child process; the object it returns, if any, is
    the cluster with that directory, flag and parameter set. *)
Theorem construction_outcome :
  forall (W : World) (masters agents public_agents : Z) (extra_config : loc)
         (generate_config_path dcos_docker_path : Path)
         (custom_ca_key : option Path) (live : bool) (files : loc)
         (tmp_dir_path : Path) (s : state)
         (config : list (string * Yaml)) (items : list (Path * Path))
         (res : result DcosDocker.DCOS_Docker) (s' : state),
    nth_error (heap s) extra_config = Some (OConfig config) ->
    nth_error (heap s) files = Some (OFiles items) ->
    DcosDocker.__init__ W masters agents public_agents extra_config
      generate_config_path dcos_docker_path custom_ca_key live files
      tmp_dir_path s = (res, s') ->
    let self :=
      DcosDocker.mkDCOS_Docker live
        (Pathlib.div tmp_dir_path ("dcos-docker-" +:+ w_uuid4 W (trace s)))
        (List.length (heap s)) in
    (exists e evs,
       res = Raise e /\ s' = add_events s evs /\ run_events evs = []) \/
    (exists variables evs k,
       s' = mkState (heap s ++ [ODict variables]) (trace s ++ evs) /\
       k < 30 /\
       run_events evs = repeat (make_event self variables "all") (S k) /\
       res <> Diverge /\
       (forall cluster, res = Ok cluster -> cluster = self)).
Proof.
  intros W masters agents public_agents extra_config gcp ddp custom_ca_key live
         files tmp s config items res s' Hc Hf Hrun self.
  rewrite (__init___run W _ _ _ _ _ _ _ _ _ _ s config items Hc Hf) in Hrun.
  unfold construction in Hrun. cbv zeta in Hrun.
  set (random := w_uuid4 W (trace s)) in *.
  set (path := Pathlib.div tmp ("dcos-docker-" +:+ random)) in *.
  set (staging := staging_events random gcp ddp tmp) in *.
  destruct (w_copytree W _ _ _ _) as [msg|].
  { left. injection Hrun as <- <-. exists (OSError msg), (firstn 2 staging).
    repeat split. }
  destruct (w_copyfile W _ _ _) as [msg|].
  { left. injection Hrun as <- <-. exists (OSError msg), staging. repeat split. }
  pose proof (stage_files_no_runs W path items (trace s ++ staging)) as Hquiet.
  destruct (stage_files W path items (trace s ++ staging)) as [stopped copies].
  cbn [fst snd] in *.
  destruct stopped as [e|].
  { left. injection Hrun as <- <-. exists e, (staging ++ copies).
    split; [reflexivity |]. split; [reflexivity |].
    rewrite run_events_app, Hquiet. reflexivity. }
  destruct (w_docker_driver W _) as [host|msg].
  2:{ left. injection Hrun as <- <-.
      exists (DockerException msg), (staging ++ copies ++ [EvDockerInfo]).
      split; [reflexivity |]. split; [reflexivity |].
      rewrite !run_events_app, Hquiet. reflexivity. }
  right.
  set (variables := parameter_set W host random masters agents public_agents
                      config custom_ca_key) in *.
  set (assembled := mkState (heap s ++ [ODict variables])
                            (trace s ++ staging ++ copies ++ [EvDockerInfo])) in *.
  fold self in Hrun.
  assert (Hv : nth_error (heap assembled) (DcosDocker._variables self)
               = Some (ODict variables)) by apply nth_error_snoc.
  destruct (create_with_tries_run_events W self variables 29 assembled Hv)
    as (evs & k & Hs & Hd & Hk & Hr).
  change (create_with_tries W self 30) with (DcosDocker._create_containers W self)
    in Hs, Hd.
  exists variables, (staging ++ copies ++ [EvDockerInfo] ++ evs), k.
  destruct (DcosDocker._create_containers W self assembled) as [[u|e|] s1];
    cbn [fst snd] in Hs, Hd; injection Hrun as <- <-; subst s1;
    (split; [unfold add_events, assembled; cbn [heap trace];
             rewrite <- !app_assoc; reflexivity |]);
    (split; [lia |]);
    (split; [rewrite !run_events_app, Hquiet, Hr; reflexivity |]);
    (split; [try discriminate; try congruence |]);
    intros c Hc'; congruence.
Qed.

Lemma construction_outcome_witness :
  let run := demo_construction (Demo.world 0 0) Demo.careless_caller in
  (exists e evs,
     fst run = Raise e /\ snd run = add_events Demo.careless_caller evs /\
     run_events evs = []) \/
  (exists variables evs k,
     snd run = mkState (heap Demo.careless_caller ++ [ODict variables])
                       (trace Demo.careless_caller ++ evs) /\
     k < 30 /\
     run_events evs = repeat (make_event demo_constructed variables "all") (S k) /\
     fst run <> Diverge /\
     (forall cluster, fst run = Ok cluster -> cluster = demo_constructed)).
Proof.
  intros run.
  exact (construction_outcome (Demo.world 0 0) 1 0 2 0
           (Pathlib.of_string "/home/me/dcos_generate_config.sh")
           (Pathlib.of_string "/home/me/dcos-docker")
           None false 1 (Pathlib.of_string "/tmp") Demo.careless_caller
           []
           [(Pathlib.of_string "/home/me/license.txt",
             Pathlib.of_string "/genconf/license.txt");
            (Pathlib.of_string "/home/me/hosts", Pathlib.of_string "/etc/hosts")]
           (fst run) (snd run) eq_refl eq_refl (surjective_pairing run)).
Defined.

(** X11. When the staging and the probe of the runtime succeed and the
    first [make ... all] does not end with a container-name conflict, the
    construction makes exactly that one invocation: it returns the cluster
    when the invocation succeeds, and raises the error of the invocation,
    unchanged, when it fails. *)
Theorem construction_first_attempt :
  forall (W : World) (masters agents public_agents : Z) (extra_config : loc)
         (generate_config_path dcos_docker_path : Path)
         (custom_ca_key : option Path) (live : bool) (files : loc)
         (tmp_dir_path : Path) (s : state)
         (config : list (string * Yaml)) (items : list (Path * Path))
         (host : string),
    nth_error (heap s) extra_config = Some (OConfig config) ->
    nth_error (heap s) files = Some (OFiles items) ->
    let random := w_uuid4 W (trace s) in
    let path := Pathlib.div tmp_dir_path ("dcos-docker-" +:+ random) in
    let staging := staging_events random generate_config_path dcos_docker_path
                                  tmp_dir_path in
    let staged := stage_files W path items (trace s ++ staging) in
    let self := DcosDocker.mkDCOS_Docker live path (List.length (heap s)) in
    let variables := parameter_set W host random masters agents public_agents
                       config custom_ca_key in
    let before := trace s ++ staging ++ snd staged ++ [EvDockerInfo] in
    w_copytree W (trace s ++ firstn 1 staging)
               (Pathlib.to_string dcos_docker_path) (Pathlib.to_string path)
               "dcos_generate_config.sh" = None ->
    w_copyfile W (trace s ++ firstn 2 staging)
               (Pathlib.to_string generate_config_path)
               (Pathlib.to_string (Pathlib.div path "dcos_generate_config.sh")) = None ->
    fst staged = None ->
    w_docker_driver W (trace s ++ staging ++ snd staged) = inl host ->
    (forall e, make_outcome W self variables "all" before = NonZeroExit e ->
               ~ has_conflict_signature e) ->
    DcosDocker.__init__ W masters agents public_agents extra_config
      generate_config_path dcos_docker_path custom_ca_key live files
      tmp_dir_path s
    = (match make_outcome W self variables "all" before with
       | Completed _ => Ok self
       | NonZeroExit e => Raise (CalledProcessError e)
       | NotStarted msg => Raise (OSError msg)
       end,
       mkState (heap s ++ [ODict variables])
               (before ++ [make_event self variables "all"])).
Proof.
  intros W masters agents public_agents extra_config gcp ddp custom_ca_key live
         files tmp s config items host Hc Hf random path staging staged self
         variables before Htree Hfile Hstaged Hprobe Hplain.
  rewrite (__init___run W _ _ _ _ _ _ _ _ _ _ s config items Hc Hf).
  unfold construction. cbv zeta.
  fold random. fold path. fold staging. rewrite Htree, Hfile.
  fold staged. rewrite Hstaged, Hprobe.
  fold variables. fold self. fold before.
  set (assembled := mkState (heap s ++ [ODict variables]) before).
  assert (Hv : nth_error (heap assembled) (DcosDocker._variables self)
               = Some (ODict variables)) by apply nth_error_snoc.
  change (DcosDocker._create_containers W self) with (create_with_tries W self 30).
  rewrite (create_with_tries_step W self variables 29 assembled Hv).
  change (trace assembled) with before.
  destruct (make_outcome W self variables "all" before) as [p|e|msg] eqn:Ho;
    try reflexivity.
  destruct (conflictb e) eqn:Hconf; [| reflexivity].
  apply conflictb_spec in Hconf. exfalso. exact (Hplain e eq_refl Hconf).
Qed.

Lemma construction_first_attempt_witness :
  exists variables before,
    demo_construction broken_make_world Demo.caller
    = (Raise (CalledProcessError make_error),
       mkState (heap Demo.caller ++ [ODict variables])
               (before ++ [make_event demo_constructed variables "all"])).
Proof.
  eexists _, _.
  refine (construction_first_attempt broken_make_world 1 0 2 0
            (Pathlib.of_string "/home/me/dcos_generate_config.sh")
            (Pathlib.of_string "/home/me/dcos-docker")
            None false 1 (Pathlib.of_string "/tmp") Demo.caller
            [("cluster_docker_credentials_enabled", YBool true)]
            [(Pathlib.of_string "/home/me/license.txt",
              Pathlib.of_string "/genconf/license.txt")]
            "overlay" eq_refl eq_refl _ _ _ _ _).
  - reflexivity.
  - reflexivity.
  - vm_compute. reflexivity.
  - reflexivity.
  - intros e He. injection He as <-. apply conflictb_false. vm_compute. reflexivity.
Defined.

(** ** Conflicts, factories and the end of a cluster *)

Lemma repr_body_app q (a b : string) :
  Py.repr_body q (a +:+ b) = Py.repr_body q a +:+ Py.repr_body q b.
Proof.
  induction a as [|c a IH]; simpl; [reflexivity |].
  rewrite IH, append_assoc. reflexivity.
Qed.

Lemma is_substring_append_l needle a b :
  is_substring needle a -> is_substring needle (a +:+ b).
Proof.
  intros (pre & post & ->). exists pre, (post +:+ b).
  rewrite !append_assoc. reflexivity.
Qed.

Lemma is_substring_append_r needle a b :
  is_substring needle b -> is_substring needle (a +:+ b).
Proof.
  intros (pre & post & ->). exists (a +:+ pre), post.
  rewrite !append_assoc. reflexivity.
Qed.

(** [repr] leaves a needle of plain characters as it is. *)
Lemma repr_bytes_keeps needle b :
  Py.repr_body Py.squote needle = needle ->
  Py.repr_body Py.dquote needle = needle ->
  is_substring needle b -> is_substring needle (Py.repr_bytes b).
Proof.
  intros Hs Hd (pre & post & ->). unfold Py.repr_bytes.
  set (q := if Py.has_char Py.squote (pre +:+ needle +:+ post)
                && negb (Py.has_char Py.dquote (pre +:+ needle +:+ post))
            then Py.dquote else Py.squote).
  assert (Hq : Py.repr_body q needle = needle).
  { unfold q. destruct (andb _ _); assumption. }
  rewrite !repr_body_app, Hq.
  exists (String "b" (String q (Py.repr_body q pre))),
         (Py.repr_body q post +:+ String q EmptyString).
  simpl. rewrite !append_assoc. reflexivity.
Qed.

Lemma str_keeps needle v :
  Py.repr_body Py.squote needle = needle ->
  Py.repr_body Py.dquote needle = needle ->
  carries needle v -> is_substring needle (Py.str v).
Proof.
  intros Hs Hd H. destruct v as [|b|t]; simpl in *.
  - contradiction.
  - apply repr_bytes_keeps; assumption.
  - exact H.
Qed.

(** X12. A container-name conflict is recognised in either stream of the
    failed process, bytes or text: when [stderr] or [stdout] holds one of
    the two signatures the attempt prints [stderr] and raises
    [_ConflictingContainerError]. *)
Theorem conflict_seen_in_either_stream :
  forall (W : World) (self : DcosDocker.DCOS_Docker)
         (variables : list (string * string)) (s : state) (e : ProcessError)
         (needle : string),
    nth_error (heap s) (DcosDocker._variables self) = Some (ODict variables) ->
    make_outcome W self variables "all" (trace s) = NonZeroExit e ->
    In needle ["Conflict. The container name"; "Conflict. The name"] ->
    carries needle (pe_stderr e) \/ carries needle (pe_stdout e) ->
    has_conflict_signature e /\
    DcosDocker._create_containers_once W self s
    = (Raise ConflictingContainerError,
       add_events s [make_event self variables "all";
                     EvPrint (Py.str (pe_stderr e))]).
Proof.
  intros W self variables s e needle Hv Ho Hneedle Hcarries.
  assert (Hsig : has_conflict_signature e).
  { assert (Hin : is_substring needle (failure_text e)).
    { unfold failure_text.
      destruct Hneedle as [<-|[<-|[]]]; destruct Hcarries as [H|H];
        first [ apply is_substring_append_l; apply str_keeps;
                [reflexivity | reflexivity | exact H]
              | apply is_substring_append_r; apply str_keeps;
                [reflexivity | reflexivity | exact H] ]. }
    destruct Hneedle as [<-|[<-|[]]]; [left | right]; exact Hin. }
  split; [exact Hsig |].
  rewrite (_create_containers_once_run W self variables s Hv), Ho.
  apply conflictb_spec in Hsig. rewrite Hsig. reflexivity.
Qed.

Lemma conflict_seen_in_either_stream_witness :
  has_conflict_signature Demo.conflict_error /\
  DcosDocker._create_containers_once (Demo.world 30 0) Demo.cluster Demo.created
  = (Raise ConflictingContainerError,
     add_events Demo.created
       [make_event Demo.cluster Demo.parameters "all";
        EvPrint (Py.str (pe_stderr Demo.conflict_error))]).
Proof.
  refine (conflict_seen_in_either_stream (Demo.world 30 0) Demo.cluster
            Demo.parameters Demo.created Demo.conflict_error "Conflict. The name"
            eq_refl eq_refl _ _).
  - simpl. auto.
  - left. exists "docker: Error response from daemon: ",
                 " /dcos-genconf is already in use". reflexivity.
Defined.

Lemma bind_same_start {A B} (m : M A) (k1 k2 : A -> M B) s :
  (forall a s1, m s = (Ok a, s1) -> k1 a s1 = k2 a s1) ->
  bind m k1 s = bind m k2 s.
Proof.
  intros H. unfold bind. destruct (m s) as [[a|e|] s1]; auto.
Qed.

Lemma copy_config_empty extra_config s :
  config_items (heap s) extra_config = Some [] ->
  DcosDocker.copy_config extra_config s = DcosDocker.copy_config None s.
Proof.
  intros Hc. destruct extra_config as [r|]; [| reflexivity].
  unfold config_items in Hc.
  destruct (nth_error (heap s) r) as [[]|] eqn:Hr; try discriminate.
  injection Hc as ->. unfold DcosDocker.copy_config.
  unfold bind at 1. unfold load_config at 1, load, bind at 1.
  rewrite Hr. reflexivity.
Qed.

Lemma copy_files_empty files s :
  file_items (heap s) files = Some [] ->
  DcosDocker.copy_files files s = DcosDocker.copy_files None s.
Proof.
  intros Hf. destruct files as [r|]; [| reflexivity].
  unfold file_items in Hf.
  destruct (nth_error (heap s) r) as [[]|] eqn:Hr; try discriminate.
  injection Hf as ->. unfold DcosDocker.copy_files.
  unfold bind at 1. unfold load_files at 1, load, bind at 1.
  rewrite Hr. reflexivity.
Qed.

(** Whatever it is given, [dict(extra_config or {})] only adds objects. *)
Lemma copy_config_extends extra_config s :
  exists added,
    snd (DcosDocker.copy_config extra_config s) = mkState (heap s ++ added) (trace s).
Proof.
  assert (Hnew : exists added,
            snd ((e <- alloc (OConfig []) ;; items <- load_config e ;;
                  alloc (OConfig items)) s)
            = mkState (heap s ++ added) (trace s)).
  { destruct (copy_config_run None s [] eq_refl) as (added & r & Hrun & _).
    exists added. unfold DcosDocker.copy_config in Hrun. rewrite Hrun. reflexivity. }
  assert (Hsame : exists added, s = mkState (heap s ++ added) (trace s)).
  { exists []. rewrite app_nil_r. destruct s; reflexivity. }
  destruct extra_config as [r|]; [| exact Hnew].
  unfold DcosDocker.copy_config. unfold bind at 1. unfold load_config at 1, load, bind at 1.
  destruct (nth_error (heap s) r) as [o|] eqn:Hr; [| exact Hsame].
  destruct o as [l|d|d|d|n]; try exact Hsame.
  cbn [ret]. destruct d as [|item d]; [exact Hnew |].
  unfold bind at 1. unfold load_config, load, bind at 1. rewrite Hr. cbn [ret].
  eexists. reflexivity.
Qed.

(** X13. [create] with an empty mapping does what it does with [None] in
    its place, whatever the other mapping is: this holds for the extra
    configuration and for the installer files, each on its own. *)
Theorem create_without_mappings :
  forall (W : World) (factory : DcosDocker.DCOS_Docker_Backend)
         (masters agents public_agents : Z) (extra_config : option loc)
         (custom_ca_key : option Path) (live : bool) (files : option loc)
         (s : state),
    (config_items (heap s) extra_config = Some [] ->
     DcosDocker.create W factory masters agents public_agents extra_config
       custom_ca_key live files s
     = DcosDocker.create W factory masters agents public_agents None
         custom_ca_key live files s) /\
    (file_items (heap s) files = Some [] ->
     DcosDocker.create W factory masters agents public_agents extra_config
       custom_ca_key live files s
     = DcosDocker.create W factory masters agents public_agents extra_config
         custom_ca_key live None s).
Proof.
  intros W factory masters agents public_agents extra_config custom_ca_key live
         files s.
  split.
  - intros Hc. unfold DcosDocker.create. unfold bind at 1.
    rewrite (copy_config_empty extra_config s Hc). reflexivity.
  - intros Hf. unfold DcosDocker.create. apply bind_same_start.
    intros c s1 Hcc.
    destruct (copy_config_extends extra_config s) as (added & Hs1).
    rewrite Hcc in Hs1. cbn [snd] in Hs1.
    assert (Hf1 : file_items (heap s1) files = Some []).
    { rewrite Hs1. cbn [heap]. apply file_items_old. exact Hf. }
    unfold bind at 1. rewrite (copy_files_empty files s1 Hf1). reflexivity.
Qed.

Lemma create_without_mappings_witness :
  DcosDocker.create (Demo.world 0 0) Demo.backend 1 0 2 (Some 0) None false (Some 1)
    empty_config_caller
  = DcosDocker.create (Demo.world 0 0) Demo.backend 1 0 2 None None false (Some 1)
      empty_config_caller /\
  DcosDocker.create (Demo.world 0 0) Demo.backend 1 0 2 (Some 0) None false (Some 1)
    empty_files_caller
  = DcosDocker.create (Demo.world 0 0) Demo.backend 1 0 2 (Some 0) None false None
      empty_files_caller.
Proof.
  split.
  - exact (proj1 (create_without_mappings (Demo.world 0 0) Demo.backend 1 0 2
                    (Some 0) None false (Some 1) empty_config_caller)
                 eq_refl).
  - exact (proj2 (create_without_mappings (Demo.world 0 0) Demo.backend 1 0 2
                    (Some 0) None false (Some 1) empty_files_caller)
                 eq_refl).
Defined.

(** X14. [destroy] undoes what the construction set up: when
    [make ... clean] succeeds it has run in the directory the build
    material was copied to, and that very directory is removed. *)
Theorem destroy_removes_constructed_directory :
  forall (W : World) (masters agents public_agents : Z) (extra_config : loc)
         (generate_config_path dcos_docker_path : Path)
         (custom_ca_key : option Path) (live : bool) (files : loc)
         (tmp_dir_path : Path) (s : state)
         (config : list (string * Yaml)) (items : list (Path * Path))
         (self : DcosDocker.DCOS_Docker) (s' : state),
    nth_error (heap s) extra_config = Some (OConfig config) ->
    nth_error (heap s) files = Some (OFiles items) ->
    DcosDocker.__init__ W masters agents public_agents extra_config
      generate_config_path dcos_docker_path custom_ca_key live files
      tmp_dir_path s = (Ok self, s') ->
    forall (variables : list (string * string)) (p : CompletedProcess)
           (s1 : state) (later : list event),
      nth_error (heap s1) (DcosDocker._variables self) = Some (ODict variables) ->
      trace s1 = trace s' ++ later ->
      make_outcome W self variables "clean" (trace s1) = Completed p ->
      exists directory,
        In (EvCopytree (Pathlib.to_string dcos_docker_path) directory
                       "dcos_generate_config.sh") (trace s1) /\
        DcosDocker.destroy W self s1
        = (Ok tt,
           add_events s1 [EvRunSubprocess (make_args variables "clean")
                                          (Some directory) live;
                          EvRmtree directory true]).
Proof.
  intros W masters agents public_agents extra_config gcp ddp custom_ca_key live
         files tmp s config items self s' Hc Hf Hrun variables p s1 later Hv Hlater Ho.
  destruct (__init___ok W _ _ _ _ _ _ _ _ _ _ s config items self s' Hc Hf Hrun)
    as (host & evs & k & _ & _ & Hself & Hs' & _).
  exists (Pathlib.to_string (DcosDocker._path self)). split.
  - rewrite Hlater, Hs', Hself. cbn [trace DcosDocker._path].
    apply in_or_app. left. apply in_or_app. right.
    apply in_or_app. left. unfold staging_events. simpl. auto.
  - rewrite (destroy_run W self variables s1 Hv), Ho.
    unfold make_event. rewrite Hself. reflexivity.
Qed.

Lemma destroy_removes_constructed_directory_witness :
  let s' := snd (demo_construction (Demo.world 0 0) Demo.caller) in
  exists variables directory,
    nth_error (heap s') 2 = Some (ODict variables) /\
    In (EvCopytree "/home/me/dcos-docker" directory "dcos_generate_config.sh")
       (trace s') /\
    DcosDocker.destroy (Demo.world 0 0) demo_constructed s'
    = (Ok tt,
       add_events s' [EvRunSubprocess (make_args variables "clean")
                                      (Some directory) false;
                      EvRmtree directory true]).
Proof.
  intros s'.
  assert (Hv : nth_error (heap s') 2
               = Some (ODict (Demo.parameters
                              ++ [("EXTRA_GENCONF_CONFIG",
                                   "cluster_docker_credentials_enabled: true")])))
    by (vm_compute; reflexivity).
  destruct (destroy_removes_constructed_directory (Demo.world 0 0) 1 0 2 0
              (Pathlib.of_string "/home/me/dcos_generate_config.sh")
              (Pathlib.of_string "/home/me/dcos-docker")
              None false 1 (Pathlib.of_string "/tmp") Demo.caller
              [("cluster_docker_credentials_enabled", YBool true)]
              [(Pathlib.of_string "/home/me/license.txt",
                Pathlib.of_string "/genconf/license.txt")]
              demo_constructed s'
              eq_refl eq_refl demo_construction_ok
              (Demo.parameters
               ++ [("EXTRA_GENCONF_CONFIG", "cluster_docker_credentials_enabled: true")])
              (mkCompletedProcess
                 (make_args (Demo.parameters
                             ++ [("EXTRA_GENCONF_CONFIG",
                                  "cluster_docker_credentials_enabled: true")]) "clean")
                 0 (Py.VBytes "") (Py.VBytes ""))
              s' [] Hv (eq_sym (app_nil_r _)) eq_refl)
    as (directory & Hin & Hrun).
  eexists _, directory. split; [exact Hv |]. split; [exact Hin | exact Hrun].
Defined.

(** X15. [postflight] on a constructed cluster runs
    [make <parameter set> postflight] once, in the working directory of the
    construction and with the logging flag the constructor was given; it
    raises the error of the invocation as it is and leaves the store
    alone. *)
Theorem postflight_after_construction :
  forall (W : World) (masters agents public_agents : Z) (extra_config : loc)
         (generate_config_path dcos_docker_path : Path)
         (custom_ca_key : option Path) (live : bool) (files : loc)
         (tmp_dir_path : Path) (s : state)
         (config : list (string * Yaml)) (items : list (Path * Path))
         (self : DcosDocker.DCOS_Docker) (s' : state),
    nth_error (heap s) extra_config = Some (OConfig config) ->
    nth_error (heap s) files = Some (OFiles items) ->
    DcosDocker.__init__ W masters agents public_agents extra_config
      generate_config_path dcos_docker_path custom_ca_key live files
      tmp_dir_path s = (Ok self, s') ->
    exists variables,
      nth_error (heap s') (DcosDocker._variables self) = Some (ODict variables) /\
      forall s1,
        nth_error (heap s1) (DcosDocker._variables self) = Some (ODict variables) ->
        let args := ["make"] ++ map DcosDocker.make_variable variables ++ ["postflight"] in
        let cwd := Some (Pathlib.to_string
                           (Pathlib.div tmp_dir_path
                              ("dcos-docker-" +:+ w_uuid4 W (trace s)))) in
        DcosDocker.postflight W self s1
        = (match w_run_subprocess W (trace s1) args cwd live with
           | Completed _ => Ok tt
           | NonZeroExit e => Raise (CalledProcessError e)
           | NotStarted msg => Raise (OSError msg)
           end,
           mkState (heap s1) (trace s1 ++ [EvRunSubprocess args cwd live])).
Proof.
  intros W masters agents public_agents extra_config gcp ddp custom_ca_key live
         files tmp s config items self s' Hc Hf Hrun.
  destruct (__init___ok W _ _ _ _ _ _ _ _ _ _ s config items self s' Hc Hf Hrun)
    as (host & evs & k & _ & _ & Hself & Hs' & _).
  eexists. split.
  - rewrite Hs', Hself. cbn [DcosDocker._variables heap]. apply nth_error_snoc.
  - intros s1 Hv args cwd. unfold DcosDocker.postflight.
    rewrite (_make_run W self _ "postflight" s1 Hv).
    unfold make_outcome, make_event, add_events. rewrite Hself. reflexivity.
Qed.

Lemma postflight_after_construction_witness :
  let s' := snd (demo_construction (Demo.world 0 0) Demo.caller) in
  exists variables,
    nth_error (heap s') 2 = Some (ODict variables) /\
    DcosDocker.postflight (Demo.world 0 0) demo_constructed s'
    = (Ok tt,
       mkState (heap s')
         (trace s' ++ [EvRunSubprocess
                         (["make"] ++ map DcosDocker.make_variable variables
                                   ++ ["postflight"])
                         (Some "/tmp/dcos-docker-0b1f") false])).
Proof.
  intros s'.
  destruct (postflight_after_construction (Demo.world 0 0) 1 0 2 0
              (Pathlib.of_string "/home/me/dcos_generate_config.sh")
              (Pathlib.of_string "/home/me/dcos-docker")
              None false 1 (Pathlib.of_string "/tmp") Demo.caller
              [("cluster_docker_credentials_enabled", YBool true)]
              [(Pathlib.of_string "/home/me/license.txt",
                Pathlib.of_string "/genconf/license.txt")]
              demo_constructed s'
              eq_refl eq_refl demo_construction_ok)
    as (variables & Hv & Hpost).
  exists variables. split; [exact Hv |]. exact (Hpost s' Hv).
Defined.

(** X16. A backend made without [tmp_dir_path] creates its clusters under
    [/tmp]: the working directory is [/tmp/dcos-docker-<random>], and the
    build material is copied there. *)
Theorem default_backend_works_under_tmp :
  forall (W : World) (generate_config_path dcos_docker_path : Path)
         (masters agents public_agents : Z) (extra_config : option loc)
         (custom_ca_key : option Path) (live : bool) (files : option loc)
         (s : state) (config : list (string * Yaml)) (items : list (Path * Path))
         (self : DcosDocker.DCOS_Docker) (s' : state),
    config_items (heap s) extra_config = Some config ->
    file_items (heap s) files = Some items ->
    DcosDocker.create W
      (DCOS_Docker_Backend__init__ generate_config_path dcos_docker_path None)
      masters agents public_agents extra_config custom_ca_key live files s
    = (Ok self, s') ->
    let random := w_uuid4 W (trace s) in
    Py.has_char "/" random = false ->
    Pathlib.to_string (DcosDocker._path self) = "/tmp/dcos-docker-" +:+ random /\
    In (EvCopytree (Pathlib.to_string dcos_docker_path)
                   ("/tmp/dcos-docker-" +:+ random) "dcos_generate_config.sh")
       (trace s').
Proof.
  intros W gcp ddp masters agents public_agents extra_config custom_ca_key live
         files s config items self s' Hc Hf Hrun random Hplain.
  destruct (copy_config_run extra_config s config Hc) as (added1 & c & Hcc & Hcat & _).
  set (s1 := mkState (heap s ++ added1) (trace s)) in *.
  assert (Hf1 : file_items (heap s1) files = Some items)
    by (apply file_items_old; exact Hf).
  destruct (copy_files_run files s1 items Hf1) as (added2 & f & Hcf & Hfat & _).
  set (s2 := mkState (heap s1 ++ added2) (trace s1)) in *.
  unfold DcosDocker.create in Hrun.
  rewrite (bind_ok (DcosDocker.copy_config extra_config) _ s c s1 Hcc) in Hrun.
  rewrite (bind_ok (DcosDocker.copy_files files) _ s1 f s2 Hcf) in Hrun.
  assert (Hc2 : nth_error (heap s2) c = Some (OConfig config))
    by (apply nth_error_old; exact Hcat).
  destruct (__init___ok W _ _ _ _ _ _ _ _ _ _ s2 config items self s' Hc2 Hfat Hrun)
    as (host & evs & k & _ & _ & Hself & Hs' & _).
  change (trace s2) with (trace s) in Hself, Hs'. fold random in Hself, Hs'.
  cbn [DcosDocker._tmp_dir_path DCOS_Docker_Backend__init__] in Hself, Hs'.
  assert (Hpath : Pathlib.to_string
                    (Pathlib.div (Pathlib.of_string "/tmp") ("dcos-docker-" +:+ random))
                  = "/tmp/dcos-docker-" +:+ random).
  { rewrite (working_directory_plain _ random Hplain). reflexivity. }
  split.
  - rewrite Hself. exact Hpath.
  - rewrite Hs'. cbn [trace]. apply in_or_app. right. apply in_or_app. left.
    unfold staging_events. rewrite Hpath. simpl. auto.
Qed.

Lemma default_backend_works_under_tmp_witness :
  let run := DcosDocker.create (Demo.world 0 0)
               (DCOS_Docker_Backend__init__
                  (Pathlib.of_string "/home/me/dcos_generate_config.sh")
                  (Pathlib.of_string "/home/me/dcos-docker") None)
               1 0 2 (Some 0) None false (Some 1) Demo.caller in
  In (EvCopytree "/home/me/dcos-docker" "/tmp/dcos-docker-0b1f"
                 "dcos_generate_config.sh")
     (trace (snd run)).
Proof.
  intros run.
  assert (Hrun : run = (Ok (DcosDocker.mkDCOS_Docker false
                              (Pathlib.of_string "/tmp/dcos-docker-0b1f") 4),
                        snd run)) by (vm_compute; reflexivity).
  exact (proj2 (default_backend_works_under_tmp (Demo.world 0 0)
                  (Pathlib.of_string "/home/me/dcos_generate_config.sh")
                  (Pathlib.of_string "/home/me/dcos-docker")
                  1 0 2 (Some 0) None false (Some 1) Demo.caller
                  [("cluster_docker_credentials_enabled", YBool true)]
                  [(Pathlib.of_string "/home/me/license.txt",
                    Pathlib.of_string "/genconf/license.txt")]
                  (DcosDocker.mkDCOS_Docker false
                     (Pathlib.of_string "/tmp/dcos-docker-0b1f") 4)
                  (snd run) eq_refl eq_refl Hrun eq_refl)).
Defined.
